(** * web-to-epub: the content-extraction core, modelled and verified

    The Go packages [internal/extractor] (types.go, strategies.go, content.go)
    and [internal/formatter] (the HTML normalizer) are embedded here as Rocq
    functions.  The layout follows the repository:

    - [strings], [fmt]: the few functions of Go's standard library the code
      calls, on byte strings;
    - [html], [goquery]: the parsed document as a heap of trees, with the
      selection operations of goquery written as state-passing functions, so
      that [Clone] (a fresh tree) and [NewDocumentFromNode] (an alias) differ
      the way they do in Go;
    - [Collaborators]: what the code consumes from libraries that are not part
      of the repository (cascadia's selector matching, x/net/html's renderer,
      Go's regexp compiler), taken as an interface; [Simple] gives one
      executable implementation used for the concrete runs;
    - [extractor], [formatter]: the repository's code;
    - the theorems, one block per claim. *)

From Stdlib Require Import String Ascii List ZArith Bool Arith Lia.
From Stdlib Require Import Floats Uint63.
Import ListNotations.
Open Scope list_scope.
Open Scope string_scope.
Open Scope nat_scope.
Set Warnings "-register-all,-inexact-float".

(* ===================================================================== *)
(** * Go's [strings] package, on byte strings *)
(* ===================================================================== *)

Module strings.

Definition chr (n : nat) : ascii := ascii_of_nat n.
Definition code (c : ascii) : nat := nat_of_ascii c.

(** A one-byte string; used for the bytes a Rocq literal cannot hold. *)
Definition byte1 (n : nat) : string := String (chr n) EmptyString.
Definition dq : string := byte1 34.      (* the double quote *)
Definition CR : string := byte1 13.
Definition LF : string := byte1 10.
Definition TAB : string := byte1 9.

Definition rev (s : string) : string :=
  string_of_list_ascii (List.rev (list_ascii_of_string s)).

(** [asciiSpace] of strings.go: tab, LF, VT, FF, CR and the space. *)
Definition isASCIISpace (c : ascii) : bool :=
  let n := code c in
  (n =? 9) || (n =? 10) || (n =? 11) || (n =? 12) || (n =? 13) || (n =? 32).

(** [unicode.IsSpace] on the UTF-8 encodings longer than one byte:
    U+0085 and U+00A0 take two bytes, *)
Definition isSpace2 (c d : ascii) : bool :=
  (code c =? 194) && ((code d =? 133) || (code d =? 160)).

(** and U+1680, U+2000..U+200A, U+2028, U+2029, U+202F, U+205F and U+3000
    take three. *)
Definition isSpace3 (c d e : ascii) : bool :=
  ((code c =? 225) && (code d =? 154) && (code e =? 128))
  || ((code c =? 226) && (code d =? 128)
      && (((128 <=? code e) && (code e <=? 138))
          || (code e =? 168) || (code e =? 169) || (code e =? 175)))
  || ((code c =? 226) && (code d =? 129) && (code e =? 159))
  || ((code c =? 227) && (code d =? 128) && (code e =? 128)).

(** [strings.TrimLeftFunc(s, unicode.IsSpace)]: runes are decoded from the
    front, so a white-space rune is exactly one of the byte sequences
    above standing at the head of the string. *)
Fixpoint trimLeftSpace (s : string) : string :=
  match s with
  | EmptyString => EmptyString
  | String c r =>
      if isASCIISpace c then trimLeftSpace r
      else
        match r with
        | String d r1 =>
            if isSpace2 c d then trimLeftSpace r1
            else
              match r1 with
              | String e r2 => if isSpace3 c d e then trimLeftSpace r2 else s
              | EmptyString => s
              end
        | EmptyString => s
        end
  end.

(** The same from the back, on the reversed string: [utf8.DecodeLastRune]
    walks back to the nearest byte that starts a rune, so a white-space
    rune at the end is one of the same byte sequences, read backwards. *)
Fixpoint trimLeftSpaceRev (s : string) : string :=
  match s with
  | EmptyString => EmptyString
  | String c r =>
      if isASCIISpace c then trimLeftSpaceRev r
      else
        match r with
        | String d r1 =>
            if isSpace2 d c then trimLeftSpaceRev r1
            else
              match r1 with
              | String e r2 => if isSpace3 e d c then trimLeftSpaceRev r2 else s
              | EmptyString => s
              end
        | EmptyString => s
        end
  end.

Definition trimRightSpace (s : string) : string := rev (trimLeftSpaceRev (rev s)).

(** [strings.TrimSpace]: leading white space goes first, then trailing. *)
Definition TrimSpace (s : string) : string := trimRightSpace (trimLeftSpace s).

Definition HasPrefix (s pre : string) : bool := String.prefix pre s.

(** [strings.Contains]: [substr] starts at some position of [s]. *)
Fixpoint Contains (s substr : string) : bool :=
  HasPrefix s substr
  || match s with
     | EmptyString => false
     | String _ r => Contains r substr
     end.

(** [strings.ReplaceAll(s, old, new)] for a non-empty [old] (the source
    passes CR LF and CR): matches are taken left to right and do not
    overlap; [skip] counts the bytes of a match still to be dropped. *)
Fixpoint replaceFrom (old new : string) (skip : nat) (s : string) : string :=
  match s with
  | EmptyString => EmptyString
  | String c r =>
      match skip with
      | S k => replaceFrom old new k r
      | O =>
          if HasPrefix s old
          then new ++ replaceFrom old new (String.length old - 1) r
          else String c (replaceFrom old new 0 r)
      end
  end.

Definition ReplaceAll (s old new : string) : string := replaceFrom old new 0 s.

Fixpoint Join (elems : list string) (sep : string) : string :=
  match elems with
  | [] => EmptyString
  | [e] => e
  | e :: rest => e ++ sep ++ Join rest sep
  end.

(** [strings.ToLower].  ASCII capitals are lowered.  Two runes outside
    ASCII have an ASCII lower case, U+0130 (bytes C4 B0, lowered to i) and
    U+212A (bytes E2 84 AA, lowered to k).  Every other rune outside ASCII
    lowers to a rune outside ASCII; its bytes are kept as they are here,
    which no ASCII search string can tell apart. *)
Definition lowerByte (c : ascii) : ascii :=
  if (65 <=? code c) && (code c <=? 90) then chr (code c + 32) else c.

Fixpoint ToLower (s : string) : string :=
  match s with
  | EmptyString => EmptyString
  | String c r =>
      match r with
      | String d r1 =>
          if (code c =? 196) && (code d =? 176) then String "i" (ToLower r1)
          else
            match r1 with
            | String e r2 =>
                if (code c =? 226) && (code d =? 132) && (code e =? 170)
                then String "k" (ToLower r2)
                else String (lowerByte c) (ToLower r)
            | EmptyString => String (lowerByte c) (ToLower r)
            end
      | EmptyString => String (lowerByte c) EmptyString
      end
  end.

End strings.

(* ===================================================================== *)
(** * Go's [fmt] verbs the code uses *)
(* ===================================================================== *)

Module fmt.

Definition digit (n : nat) : string := strings.byte1 (48 + n).

(** Decimal digits of a natural number, most significant first. *)
Fixpoint digitsFuel (fuel : nat) (n : N) (acc : string) : string :=
  match fuel with
  | O => acc
  | S f =>
      let acc' := digit (N.to_nat (N.modulo n 10)) ++ acc in
      if N.ltb n 10 then acc' else digitsFuel f (N.div n 10) acc'
  end.

Definition utoa (n : N) : string := digitsFuel (S (N.to_nat (N.log2 n))) n "".

(** The verb [%d]. *)
Definition itoa (z : Z) : string :=
  if (z <? 0)%Z then "-" ++ utoa (Z.to_N (- z)) else utoa (Z.to_N z).

(** [m * 2^e * 100] rounded to the nearest integer, ties to even. *)
Definition hundredths (m : positive) (e : Z) : N :=
  let n := (Z.pos m * 100)%Z in
  if (0 <=? e)%Z then Z.to_N (n * 2 ^ e)
  else
    let d := (2 ^ (- e))%Z in
    let q := (n / d)%Z in
    let r := (n mod d)%Z in
    let up := if (d <? 2 * r)%Z then true
              else if (2 * r =? d)%Z then Z.odd q else false in
    Z.to_N (if up then q + 1 else q).

Definition fixed2 (neg : bool) (h : N) : string :=
  let frac := N.to_nat (N.modulo h 100) in
  (if neg then "-" else "")
    ++ utoa (N.div h 100) ++ "." ++ digit (frac / 10) ++ digit (frac mod 10).

(** The verb [%.2f] on a float64: the exact binary value, rounded half to
    even at the second decimal, as strconv prints it. *)
Definition ftoa2 (x : float) : string :=
  match Prim2SF x with
  | S754_nan => "NaN"
  | S754_infinity s => if s then "-Inf" else "+Inf"
  | S754_zero s => fixed2 s 0
  | S754_finite s m e => fixed2 s (hundredths m e)
  end.

End fmt.

(* ===================================================================== *)
(** * Results, errors and panics *)
(* ===================================================================== *)

(** A Go [error] is used by the code through its message only
    ([err.Error()], the verbs [%v] and [%w]). *)
Definition error := string.

(** The pair [(value, error)] a fallible Go function returns. *)
Inductive res (A : Type) : Type :=
| Ok (a : A)
| Err (e : error).
Arguments Ok {A} a.
Arguments Err {A} e.

(** A call either returns or panics ([regexp.MustCompile] on a bad pattern,
    a nil pointer dereference). *)
Inductive outcome (A : Type) : Type :=
| Returned (a : A)
| Panic.
Arguments Returned {A} a.
Arguments Panic {A}.

(* ===================================================================== *)
(** * The parsed document: [golang.org/x/net/html] nodes *)
(* ===================================================================== *)

Module html.

Record Attribute := { Namespace : string; Key : string; Val : string }.

(** [html.Node] by node type; the children stand for the sibling list
    that starts at [FirstChild]. *)
Inductive Node :=
| DocumentNode (children : list Node)
| ElementNode (Data : string) (Attr : list Attribute) (children : list Node)
| TextNode (Data : string)
| CommentNode (Data : string)
| DoctypeNode (Data : string).

Definition children (n : Node) : list Node :=
  match n with
  | DocumentNode cs | ElementNode _ _ cs => cs
  | _ => []
  end.

Definition isElement (n : Node) : bool :=
  match n with ElementNode _ _ _ => true | _ => false end.

(** A node is named by the child indices that lead to it from the root of
    its tree. *)
Definition path := list nat.

Fixpoint nodeAt (n : Node) (p : path) : option Node :=
  match p with
  | [] => Some n
  | i :: q =>
      match nth_error (children n) i with
      | Some c => nodeAt c q
      | None => None
      end
  end.

(** The paths of a node and of everything below it, in document order
    (a node before its children, children left to right); [pathsOfList]
    walks a sibling list whose first node is child number [i]. *)
Fixpoint pathsOfList (below : Node -> list path) (i : nat) (cs : list Node) : list path :=
  match cs with
  | [] => []
  | c :: cs' => (map (cons i) (below c) ++ pathsOfList below (S i) cs')%list
  end.

Fixpoint subtreePaths (n : Node) : list path :=
  [] :: match n with
        | DocumentNode cs | ElementNode _ _ cs => pathsOfList subtreePaths 0 cs
        | _ => []
        end.

(** The text of a subtree: the data of its text nodes, in document order
    (what goquery's [Text] collects). *)
Fixpoint textOf (n : Node) : string :=
  match n with
  | TextNode d => d
  | DocumentNode cs | ElementNode _ _ cs => String.concat EmptyString (map textOf cs)
  | _ => EmptyString
  end.

Definition path_eqb (p q : path) : bool :=
  if list_eq_dec Nat.eq_dec p q then true else false.

(** The tree without the nodes at the paths [ps]; [here] is the path of
    [n].  A path names a node by its place before anything is removed.
    [pruneList] walks a sibling list whose first node is child number [i]
    of the node at [here]. *)
Fixpoint pruneList (keep : path -> Node -> Node) (ps : list path) (here : path)
         (i : nat) (cs : list Node) : list Node :=
  match cs with
  | [] => []
  | c :: cs' =>
      if existsb (path_eqb (here ++ [i])%list) ps
      then pruneList keep ps here (S i) cs'
      else keep (here ++ [i])%list c :: pruneList keep ps here (S i) cs'
  end.

Fixpoint prune (ps : list path) (here : path) (n : Node) : Node :=
  match n with
  | DocumentNode cs =>
      DocumentNode (pruneList (fun p c => prune ps p c) ps here 0 cs)
  | ElementNode d a cs =>
      ElementNode d a (pruneList (fun p c => prune ps p c) ps here 0 cs)
  | _ => n
  end.

End html.
Export html.

(* ===================================================================== *)
(** * What the code consumes from its libraries *)
(* ===================================================================== *)

(** The repository calls three libraries whose code is not part of it.
    They are taken as an interface, so that every theorem below holds for
    whatever these libraries compute.

    - [cssMatches sel root p]: cascadia's compiled selector [sel], applied to
      the element at path [p] of the tree [root] (a selector may look at the
      ancestors and siblings of the element, so it gets the whole tree).  A
      selector that does not compile matches nothing, as in goquery.
    - [Render n]: [html.Render] of one node, or its error.
    - [Compile p]: [regexp.Compile], [None] when the pattern does not compile;
      [FindStringSubmatch re s]: the leftmost match of [re] in [s] and its
      capture groups, the empty list (Go's nil slice) when there is none;
      [ReplaceAllString re src repl]. *)
Class Collaborators := {
  cssMatches : string -> Node -> path -> bool;
  Render : Node -> res string;
  Regexp : Type;
  Compile : string -> option Regexp;
  FindStringSubmatch : Regexp -> string -> list string;
  ReplaceAllString : Regexp -> string -> string -> string
}.

(* ===================================================================== *)
(** * goquery: selections over a heap of trees *)
(* ===================================================================== *)

Module goquery.

(** The heap: every tree the program holds a pointer into.  A document
    handed to the extractor is one root; [Clone] allocates new roots. *)
Definition Store := list Node.

(** A [*html.Node]: the tree it lives in and its path there. *)
Record Ref := { root : nat; at_ : path }.

Definition Ref_eqb (a b : Ref) : bool :=
  (root a =? root b) && path_eqb (at_ a) (at_ b).

(** A [*goquery.Selection] is the list of its nodes; a
    [*goquery.Document] is the selection holding the root of its tree. *)
Definition Selection := list Ref.
Definition Document := nat.
Definition docSelection (doc : Document) : Selection := [ {| root := doc; at_ := [] |} ].

(** State-passing over the heap. *)
Definition M (A : Type) : Type := Store -> A * Store.
Definition ret {A} (a : A) : M A := fun st => (a, st).
Definition bind {A B} (m : M A) (f : A -> M B) : M B :=
  fun st => let (a, st') := m st in f a st'.
Definition gets {A} (f : Store -> A) : M A := fun st => (f st, st).

Definition deref (st : Store) (r : Ref) : option Node :=
  match nth_error st (root r) with
  | Some t => nodeAt t (at_ r)
  | None => None
  end.

(** [appendWithoutDuplicates]: the first occurrence of a node is kept. *)
Fixpoint dedup (seen : list Ref) (l : list Ref) : list Ref :=
  match l with
  | [] => []
  | r :: l' =>
      if existsb (Ref_eqb r) seen then dedup seen l'
      else r :: dedup (r :: seen) l'
  end.

Definition Length (s : Selection) : nat := List.length s.

Definition First (s : Selection) : Selection :=
  match s with
  | [] => []
  | r :: _ => [r]
  end.

Definition NewDocumentFromNode (r : Ref) : Selection := [r].

Section WithCollaborators.
Context `{Collaborators}.

(** The descendants of the node at [p] that the selector matches, in
    document order. *)
Definition matchesBelow (t : Node) (sel : string) (p : path) : list path :=
  match nodeAt t p with
  | None => []
  | Some n =>
      filter
        (fun q => match nodeAt t q with
                  | Some m => isElement m && cssMatches sel t q
                  | None => false
                  end)
        (map (fun q => (p ++ q)%list) (tl (subtreePaths n)))
  end.

(** [Selection.Find]. *)
Definition Find (s : Selection) (sel : string) : M Selection :=
  gets (fun st =>
    dedup []
      (flat_map
         (fun r =>
            match nth_error st (root r) with
            | Some t => map (fun q => {| root := root r; at_ := q |})
                           (matchesBelow t sel (at_ r))
            | None => []
            end) s)).

(** [Selection.Html]: the rendered children of the first node. *)
Fixpoint renderAll (ns : list Node) : res string :=
  match ns with
  | [] => Ok EmptyString
  | n :: ns' =>
      match Render n with
      | Err e => Err e
      | Ok a =>
          match renderAll ns' with
          | Err e => Err e
          | Ok b => Ok (a ++ b)
          end
      end
  end.

Definition Html (s : Selection) : M (res string) :=
  gets (fun st =>
    match s with
    | [] => Ok EmptyString
    | r :: _ =>
        match deref st r with
        | Some n => renderAll (children n)
        | None => Ok EmptyString
        end
    end).

End WithCollaborators.

(** [Selection.Text]: the text of every node of the selection. *)
Definition Text (s : Selection) : M string :=
  gets (fun st =>
    String.concat EmptyString
      (map (fun r => match deref st r with
                     | Some n => textOf n
                     | None => EmptyString
                     end) s)).

(** [Selection.Attr] on the first node: the first attribute of that name. *)
Definition Attr (s : Selection) (name : string) : M (string * bool) :=
  gets (fun st =>
    match s with
    | [] => (EmptyString, false)
    | r :: _ =>
        match deref st r with
        | Some (ElementNode _ attrs _) =>
            match find (fun a => String.eqb (Key a) name) attrs with
            | Some a => (Val a, true)
            | None => (EmptyString, false)
            end
        | _ => (EmptyString, false)
        end
    end).

(** [goquery.NodeName] of the first node. *)
Definition NodeName (s : Selection) : M string :=
  gets (fun st =>
    match s with
    | [] => EmptyString
    | r :: _ =>
        match deref st r with
        | Some (ElementNode d _ _) => d
        | Some (TextNode _) => "#text"
        | Some (DocumentNode _) => "#document"
        | Some (CommentNode _) => "#comment"
        | Some (DoctypeNode d) => d
        | None => EmptyString
        end
    end).

(** [Selection.Clone]: a deep copy of every node, each the root of a tree
    of its own (the copy has no parent). *)
Definition Clone (s : Selection) : M Selection :=
  fun st =>
    let copies :=
      flat_map (fun r => match deref st r with
                         | Some n => [n]
                         | None => []
                         end) s in
    (map (fun i => {| root := List.length st + i; at_ := [] |})
         (seq 0 (List.length copies)),
     (st ++ copies)%list).

(** [Selection.Remove]: every node of the selection that has a parent is
    unlinked from it, in the tree it lives in. *)
Definition Remove (s : Selection) : M unit :=
  fun st =>
    (tt,
     map (fun it : nat * Node =>
            let (i, t) := it in
            prune (map at_ (filter (fun r => root r =? i) s)) [] t)
         (combine (seq 0 (List.length st)) st)).

End goquery.

Notation "x <- c1 ;; c2" := (goquery.bind c1 (fun x => c2))
  (at level 61, c1 at next level, right associativity).
Notation "c1 ;;; c2" := (goquery.bind c1 (fun _ => c2))
  (at level 61, right associativity).

(* ===================================================================== *)
(** * Package extractor *)
(* ===================================================================== *)

Module extractor.
Import goquery.

(** ** types.go *)

Record ExtractionResult := {
  Content : string;
  Title : string;
  StrategyUsed : string;
  Warnings : list string
}.

Record ExtractionOptions := {
  TitleSelector : string;
  TitleRegex : string;
  MinContentLength : Z;
  PreserveImages : bool;
  CleanScripts : bool
}.

Definition DefaultExtractionOptions : ExtractionOptions :=
  {| TitleSelector := ""; TitleRegex := "";
     MinContentLength := 100; PreserveImages := true; CleanScripts := true |}.

(** The interface [DetectionStrategy].  [Extract] gets the document as a
    pointer into the heap and may change what it points to; the options
    pointer may be nil. *)
Record DetectionStrategy := {
  Extract : Document -> option ExtractionOptions -> M (res string);
  Name : string
}.

(** [len(s)] as a Go int. *)
Definition len (s : string) : Z := Z.of_nat (String.length s).

(** [opts != nil && opts.CleanScripts] *)
Definition wantsCleanScripts (opts : option ExtractionOptions) : bool :=
  match opts with
  | Some o => CleanScripts o
  | None => false
  end.

Module ContentExtractor.

Record t := {
  strategies : list DetectionStrategy;
  options : option ExtractionOptions
}.

Definition New (strategies : list DetectionStrategy)
           (opts : option ExtractionOptions) : t :=
  {| strategies := strategies;
     options := match opts with
                | None => Some DefaultExtractionOptions
                | Some o => Some o
                end |}.

Definition appendWarning (result : ExtractionResult) (w : string) : ExtractionResult :=
  {| Content := Content result; Title := Title result;
     StrategyUsed := StrategyUsed result;
     Warnings := (Warnings result ++ [w])%list |}.

(** The [for] loop of [Extract] and the two returns after it.  The loop
    carries [result.Warnings] and [lastErr].  Reading
    [ce.options.MinContentLength] through a nil [ce.options] panics. *)
Fixpoint tryStrategies (opts : option ExtractionOptions) (doc : Document)
         (rest : list DetectionStrategy) (result : ExtractionResult)
         (lastErr : option error)
  : M (outcome (ExtractionResult * option error)) :=
  match rest with
  | [] =>
      match lastErr with
      | Some e => ret (Returned (result, Some e))
      | None => ret (Returned (result, None))
      end
  | strategy :: rest' =>
      r <- Extract strategy doc opts ;;
      match r with
      | Err err =>
          tryStrategies opts doc rest'
            (appendWarning result
               ("Strategy '" ++ Name strategy ++ "' failed: " ++ err))
            (Some err)
      | Ok content =>
          match opts with
          | None => ret Panic
          | Some o =>
              if (len content <? MinContentLength o)%Z
              then
                tryStrategies opts doc rest'
                  (appendWarning result
                     ("Strategy '" ++ Name strategy ++ "' returned content too short"))
                  lastErr
              else
                ret (Returned
                       ({| Content := content; Title := Title result;
                           StrategyUsed := Name strategy;
                           Warnings := Warnings result |}, None))
          end
      end
  end.

Definition Extract (ce : t) (doc : Document)
  : M (outcome (ExtractionResult * option error)) :=
  tryStrategies (options ce) doc (strategies ce)
    {| Content := ""; Title := ""; StrategyUsed := ""; Warnings := [] |}
    None.

Definition AddStrategy (ce : t) (s : DetectionStrategy) : t :=
  {| strategies := (strategies ce ++ [s])%list; options := options ce |}.


End ContentExtractor.

(** ** strategies.go *)

Section Helpers.
Context `{Collaborators}.

(** [content.Find(sel).Remove()] *)
Definition findAndRemove (content : Selection) (sel : string) : M unit :=
  found <- Find content sel ;;
  Remove found.

(** [for _, sel := range sels { content.Find(sel).Remove() }] *)
Fixpoint removeEach (content : Selection) (sels : list string) : M unit :=
  match sels with
  | [] => ret tt
  | sel :: rest => findAndRemove content sel ;;; removeEach content rest
  end.

(** The last lines of the selector and density strategies:
    [content.Html()], its error wrapped, the markup trimmed. *)
Definition trimmedHtml (content : Selection) : M (res string) :=
  h <- Html content ;;
  match h with
  | Err err => ret (Err ("failed to get HTML: " ++ err))
  | Ok html => ret (Ok (strings.TrimSpace html))
  end.
End Helpers.

Module CSSSelectorStrategy.
Record t := { Selector : string; ExcludeSelectors : list string }.

Definition Name (s : t) : string := "css_selector".

Section WithCollaborators.
Context `{Collaborators}.

Definition Extract (s : t) (doc : Document) (opts : option ExtractionOptions)
  : M (res string) :=
  if String.eqb (Selector s) ""
  then ret (Err "no CSS selector configured")
  else
    content <- Find (docSelection doc) (Selector s) ;;
    if Length content =? 0
    then ret (Err ("selector '" ++ Selector s ++ "' matched no elements"))
    else
      content <- Clone content ;;
      removeEach content (ExcludeSelectors s) ;;;
      (if wantsCleanScripts opts
       then findAndRemove content "script, style, noscript"
       else ret tt) ;;;
      trimmedHtml content.

Definition strategy (s : t) : DetectionStrategy :=
  {| extractor.Extract := Extract s; extractor.Name := Name s |}.
End WithCollaborators.
End CSSSelectorStrategy.

Module TextDensityStrategy.
Record t := { MinDensityScore : float; MinBlockSize : Z }.

Definition Name (s : t) : string := "text_density".

Definition contentTags : list string :=
  ["div"; "article"; "section"; "main"; "p"; "td"; "blockquote"].

Definition skipPatterns : list string :=
  ["nav"; "menu"; "sidebar"; "footer"; "header"; "ad"; "comment"; "share"; "social"].

(** [float64(n)] for a length [n]. *)
Definition float64 (n : nat) : float := PrimFloat.of_uint63 (Uint63.of_Z (Z.of_nat n)).

(** The score of a block from the length of its text, the length of its
    markup and the number of [p] elements below it. *)
Definition density (textLen htmlLen : nat) : float :=
  (float64 textLen / float64 htmlLen)%float.

Definition scoreOf (textLen htmlLen paragraphs : nat) : float :=
  let score := density textLen htmlLen in
  let score := if 500 <? textLen then (score * 1.2)%float else score in
  let score := if 1000 <? textLen then (score * 1.3)%float else score in
  if 2 <? paragraphs then (score * 1.5)%float else score.

Section WithCollaborators.
Context `{Collaborators}.

(** The body of the closure passed to [Each]; [best] is the pair
    [(bestNode, bestScore)] the closure updates. *)
Definition visit (minDensity : float) (minSize : Z) (node : Ref)
           (best : option Ref * float) : M (option Ref * float) :=
  let s := [node] in
  tagName <- NodeName s ;;
  if negb (existsb (String.eqb tagName) contentTags) then ret best
  else
    class <- Attr s "class" ;;
    id <- Attr s "id" ;;
    let combined := strings.ToLower (fst class ++ " " ++ fst id) in
    if existsb (fun pattern => strings.Contains combined pattern) skipPatterns
    then ret best
    else
      rawText <- Text s ;;
      let text := strings.TrimSpace rawText in
      if (len text <? minSize)%Z then ret best
      else
        h <- Html s ;;
        let htmlContent := match h with Ok x => x | Err _ => "" end in
        if String.length htmlContent =? 0 then ret best
        else
          paragraphs <- Find s "p" ;;
          let score := scoreOf (String.length text) (String.length htmlContent)
                               (Length paragraphs) in
          if (snd best <? score)%float
             && (minDensity <=? density (String.length text)
                                        (String.length htmlContent))%float
          then ret (Some node, score)
          else ret best.

Fixpoint each (minDensity : float) (minSize : Z) (nodes : Selection)
         (best : option Ref * float) : M (option Ref * float) :=
  match nodes with
  | [] => ret best
  | node :: rest =>
      best' <- visit minDensity minSize node best ;;
      each minDensity minSize rest best'
  end.

Definition findBestBlockByDensity (selection : Selection)
           (minDensity : float) (minSize : Z) : M (option Ref) :=
  all <- Find selection "*" ;;
  best <- each minDensity minSize all (None, 0%float) ;;
  ret (fst best).

Definition Extract (s : t) (doc : Document) (opts : option ExtractionOptions)
  : M (res string) :=
  body <- Find (docSelection doc) "body" ;;
  if Length body =? 0 then ret (Err "no body element found")
  else
    let minDensity :=
      if (MinDensityScore s <=? 0)%float then 0.3%float else MinDensityScore s in
    let minSize :=
      if (MinBlockSize s <=? 0)%Z then 100%Z else MinBlockSize s in
    bestBlock <- findBestBlockByDensity body minDensity minSize ;;
    match bestBlock with
    | None =>
        ret (Err ("no suitable content block found (min density: "
                    ++ fmt.ftoa2 minDensity ++ ", min size: "
                    ++ fmt.itoa minSize ++ ")"))
    | Some node =>
        let newDoc := NewDocumentFromNode node in
        (if wantsCleanScripts opts
         then findAndRemove newDoc "script, style, noscript"
         else ret tt) ;;;
        trimmedHtml newDoc
    end.

Definition strategy (s : t) : DetectionStrategy :=
  {| extractor.Extract := Extract s; extractor.Name := Name s |}.
End WithCollaborators.
End TextDensityStrategy.

Module XPathRegexStrategy.
Record t := { Patterns : list string }.

Definition Name (s : t) : string := "xpath_regex".

Section WithCollaborators.
Context `{Collaborators}.

(** The loop over [s.Patterns] and the return after it. *)
Fixpoint tryPatterns (fullHTML : string) (patterns : list string) : res string :=
  match patterns with
  | [] => Err "no regex patterns matched"
  | pattern :: rest =>
      match Compile ("(?is)" ++ pattern) with
      | None => tryPatterns fullHTML rest
      | Some re =>
          let matches := FindStringSubmatch re fullHTML in
          if 1 <? List.length matches
          then
            let content := strings.TrimSpace (nth 1 matches "") in
            if 0 <? String.length content then Ok content
            else tryPatterns fullHTML rest
          else tryPatterns fullHTML rest
      end
  end.

Definition Extract (s : t) (doc : Document) (opts : option ExtractionOptions)
  : M (res string) :=
  if List.length (Patterns s) =? 0
  then ret (Err "no regex patterns configured")
  else
    h <- Html (docSelection doc) ;;
    match h with
    | Err err => ret (Err ("failed to get HTML: " ++ err))
    | Ok fullHTML => ret (tryPatterns fullHTML (Patterns s))
    end.

Definition strategy (s : t) : DetectionStrategy :=
  {| extractor.Extract := Extract s; extractor.Name := Name s |}.
End WithCollaborators.
End XPathRegexStrategy.

Module DOMPositionStrategy.
Record t := { MaxDepth : Z; MinWidth : Z }.

Definition Name (s : t) : string := "dom_position".

Definition patterns : list string :=
  [ "article.content"; "article.post-content"; "article.entry-content";
    "article.story-content"; "article"; "main.content"; "main";
    ".chapter-content"; ".story-content"; ".post-content"; ".entry-content";
    ".article-content"; ".content-body"; ".post-body"; ".text-content";
    ".content"; ".post"; ".story"; ".article"; "#content"; "#main-content";
    "#article-content"; "#story-content"; "#post-content"; "[role='main']";
    "[role='article']"; "div.content"; "div.main" ].

Definition removePatterns : list string :=
  [ "nav"; "aside"; "header"; "footer"; ".ads"; ".ad"; ".advertisement";
    ".sidebar"; ".side-bar"; ".comments"; ".comment-section"; ".share";
    ".social"; ".sharing"; ".related"; ".recommended"; ".navigation";
    ".breadcrumb"; ".author-bio"; ".author-info"; "script"; "style";
    "noscript" ].

Section WithCollaborators.
Context `{Collaborators}.

Fixpoint tryPatterns (doc : Document) (rest : list string) : M (res string) :=
  match rest with
  | [] => ret (Err "no content found using DOM position heuristics")
  | pattern :: rest' =>
      content <- Find (docSelection doc) pattern ;;
      if Length content =? 0 then tryPatterns doc rest'
      else
        content <- Clone content ;;
        removeEach content removePatterns ;;;
        h <- Html content ;;
        match h with
        | Err _ => tryPatterns doc rest'
        | Ok html =>
            let html := strings.TrimSpace html in
            if (100 <? len html)%Z then ret (Ok html)
            else tryPatterns doc rest'
        end
  end.

Definition Extract (s : t) (doc : Document) (opts : option ExtractionOptions)
  : M (res string) :=
  tryPatterns doc patterns.

Definition strategy (s : t) : DetectionStrategy :=
  {| extractor.Extract := Extract s; extractor.Name := Name s |}.
End WithCollaborators.
End DOMPositionStrategy.

Module HybridStrategy.
Record t := { Strategies : list DetectionStrategy }.

Definition Name (s : t) : string := "hybrid".

(** The loop over [s.Strategies] and the return after it; [errors] is
    the slice of the same name. *)
Fixpoint tryStrategies (doc : Document) (opts : option ExtractionOptions)
         (rest : list DetectionStrategy) (errors : list string) : M (res string) :=
  match rest with
  | [] =>
      ret (Err ("all hybrid strategies failed: " ++ strings.Join errors "; "))
  | strategy :: rest' =>
      r <- extractor.Extract strategy doc opts ;;
      match r with
      | Err err =>
          tryStrategies doc opts rest'
            (errors ++ [(extractor.Name strategy ++ ": " ++ err)%string])%list
      | Ok content =>
          if (0 <? len content)%Z then ret (Ok content)
          else tryStrategies doc opts rest' errors
      end
  end.

Definition Extract (s : t) (doc : Document) (opts : option ExtractionOptions)
  : M (res string) :=
  if List.length (Strategies s) =? 0
  then ret (Err "no strategies configured for hybrid extraction")
  else tryStrategies doc opts (Strategies s) [].

Definition strategy (s : t) : DetectionStrategy :=
  {| extractor.Extract := Extract s; extractor.Name := Name s |}.
End HybridStrategy.

Section Constructors.
Context `{Collaborators}.

Definition NewHybridStrategy (cssSelector : string) (excludeSelectors : list string)
           (textDensity : TextDensityStrategy.t) : HybridStrategy.t :=
  let strategies :=
    if negb (String.eqb cssSelector "")
    then [ CSSSelectorStrategy.strategy
             {| CSSSelectorStrategy.Selector := cssSelector;
                CSSSelectorStrategy.ExcludeSelectors := excludeSelectors |} ]
    else [] in
  let strategies := (strategies ++ [TextDensityStrategy.strategy textDensity])%list in
  let strategies :=
    (strategies
       ++ [DOMPositionStrategy.strategy
             {| DOMPositionStrategy.MaxDepth := 0; DOMPositionStrategy.MinWidth := 0 |}])%list in
  {| HybridStrategy.Strategies := strategies |}.
End Constructors.

(** ** content.go *)

Section Content.
Context `{Collaborators}.

(** [regexp.MustCompile(pattern).ReplaceAllString(src, repl)]:
    [MustCompile] panics when the pattern does not compile. *)
Definition mustReplaceAll (pattern src repl : string) : outcome string :=
  match Compile pattern with
  | Some re => Returned (ReplaceAllString re src repl)
  | None => Panic
  end.

Definition stripHTMLTags (s : string) : outcome string :=
  mustReplaceAll "<[^>]*>" s "".

Definition fallbackSelectors : list string :=
  [ "h1.title"; "h1.chapter-title"; "h1.entry-title"; "h1.post-title"; "h1";
    "h2.title"; "h2.chapter-title"; ".chapter-title"; ".story-title"; "title" ].

(** The loop over [fallbackSelectors] and the final [return ""]. *)
Fixpoint tryFallbacks (doc : Document) (rest : list string) : M string :=
  match rest with
  | [] => ret ""
  | sel :: rest' =>
      found <- Find (docSelection doc) sel ;;
      let title := First found in
      if 0 <? Length title
      then
        rawText <- Text title ;;
        let text := strings.TrimSpace rawText in
        if negb (String.eqb text "") && (len text <? 200)%Z then ret text
        else tryFallbacks doc rest'
      else tryFallbacks doc rest'
  end.

(** The second [if] of [ExtractTitle] and everything after it. *)
Definition titleFromRegexOrFallback (doc : Document) (regexPattern : string)
  : M (outcome string) :=
  if negb (String.eqb regexPattern "")
  then
    h <- Html (docSelection doc) ;;
    let html := match h with Ok x => x | Err _ => "" end in
    match Compile ("(?i)" ++ regexPattern) with
    | None => ret Panic
    | Some re =>
        let matches := FindStringSubmatch re html in
        if 1 <? List.length matches
        then
          let text := strings.TrimSpace (nth 1 matches "") in
          match stripHTMLTags text with
          | Panic => ret Panic
          | Returned text =>
              if negb (String.eqb text "") then ret (Returned text)
              else t <- tryFallbacks doc fallbackSelectors ;; ret (Returned t)
          end
        else t <- tryFallbacks doc fallbackSelectors ;; ret (Returned t)
    end
  else t <- tryFallbacks doc fallbackSelectors ;; ret (Returned t).

Definition ExtractTitle (doc : Document) (selector regexPattern : string)
  : M (outcome string) :=
  if negb (String.eqb selector "")
  then
    found <- Find (docSelection doc) selector ;;
    let title := First found in
    if 0 <? Length title
    then
      rawText <- Text title ;;
      let text := strings.TrimSpace rawText in
      if negb (String.eqb text "") then ret (Returned text)
      else titleFromRegexOrFallback doc regexPattern
    else titleFromRegexOrFallback doc regexPattern
  else titleFromRegexOrFallback doc regexPattern.

(** One step of [CleanContent] after another; a step that panics ends
    the call. *)
Definition andThen (o : outcome string) (f : string -> outcome string) : outcome string :=
  match o with
  | Returned s => f s
  | Panic => Panic
  end.

Definition CleanContent (html : string) : outcome string :=
  let dq := strings.dq in
  andThen (mustReplaceAll "(?is)<script[^>]*>.*?</script>" html "") (fun html =>
  andThen (mustReplaceAll "(?is)<style[^>]*>.*?</style>" html "") (fun html =>
  andThen (mustReplaceAll "(?is)<noscript[^>]*>.*?</noscript>" html "") (fun html =>
  andThen (mustReplaceAll ("\s+on\w+=" ++ dq ++ "[^" ++ dq ++ "]*" ++ dq) html "") (fun html =>
  andThen (mustReplaceAll ("\s+style=" ++ dq ++ "[^" ++ dq ++ "]*" ++ dq) html "") (fun html =>
  andThen (mustReplaceAll ("\s+class=" ++ dq ++ "[^" ++ dq ++ "]*" ++ dq) html "") (fun html =>
  andThen (mustReplaceAll ("\s+id=" ++ dq ++ "[^" ++ dq ++ "]*" ++ dq) html "") (fun html =>
  andThen (mustReplaceAll ("\s+data-[a-z-]+=" ++ dq ++ "[^" ++ dq ++ "]*" ++ dq) html "") (fun html =>
  andThen (mustReplaceAll "<(\w+)\s+>" html "<$1>") (fun html =>
  andThen (mustReplaceAll "<p>\s*</p>" html "") (fun html =>
  andThen (mustReplaceAll "(<br\s*/?>){3,}" html "<br/><br/>") (fun html =>
  let html := strings.ReplaceAll html (strings.CR ++ strings.LF) strings.LF in
  let html := strings.ReplaceAll html strings.CR strings.LF in
  andThen (mustReplaceAll "\n{3,}" html (strings.LF ++ strings.LF)) (fun html =>
  Returned (strings.TrimSpace html))))))))))))).

End Content.
End extractor.

(* ===================================================================== *)
(** * Package formatter: the HTML normalizer *)
(* ===================================================================== *)

Module formatter.
Import extractor.

Record HTMLNormalizer := {
  PreserveImages : bool;
  PreserveLinks : bool;
  AllowedTags : list (string * bool)
}.

Definition NewHTMLNormalizer : HTMLNormalizer :=
  {| PreserveImages := true;
     PreserveLinks := true;
     AllowedTags :=
       map (fun t => (t, true))
         [ "p"; "br"; "hr"; "h1"; "h2"; "h3"; "h4"; "h5"; "h6"; "div"; "span";
           "strong"; "b"; "em"; "i"; "u"; "s"; "blockquote"; "pre"; "code";
           "ul"; "ol"; "li"; "table"; "thead"; "tbody"; "tr"; "th"; "td";
           "a"; "img"; "figure"; "figcaption"; "sup"; "sub" ] |}.

Section WithCollaborators.
Context `{Collaborators}.

Definition removeTag (html tag : string) : outcome string :=
  andThen (mustReplaceAll ("(?is)<" ++ tag ++ "[^>]*>.*?</" ++ tag ++ ">") html "")
    (fun html => mustReplaceAll ("(?i)<" ++ tag ++ "[^>]*/?>") html "").

Definition stripTagKeepContent (html tag : string) : outcome string :=
  andThen (mustReplaceAll ("(?i)<" ++ tag ++ "[^>]*>") html "")
    (fun html => mustReplaceAll ("(?i)</" ++ tag ++ ">") html "").

Definition removeHTMLComments (html : string) : outcome string :=
  mustReplaceAll "<!--[\s\S]*?-->" html "".

Definition removeEventHandlers (html : string) : outcome string :=
  let dq := strings.dq in
  andThen (mustReplaceAll ("\s+on\w+=" ++ dq ++ "[^" ++ dq ++ "]*" ++ dq) html "")
    (fun html => mustReplaceAll "\s+on\w+='[^']*'" html "").

Definition removeAttribute (html attr : string) : outcome string :=
  let dq := strings.dq in
  andThen (mustReplaceAll ("\s+" ++ attr ++ "=" ++ dq ++ "[^" ++ dq ++ "]*" ++ dq) html "")
    (fun html => mustReplaceAll ("\s+" ++ attr ++ "='[^']*'") html "").

Definition removeDataAttributes (html : string) : outcome string :=
  let dq := strings.dq in
  andThen (mustReplaceAll ("\s+data-[a-zA-Z0-9-]+=" ++ dq ++ "[^" ++ dq ++ "]*" ++ dq) html "")
    (fun html => mustReplaceAll "\s+data-[a-zA-Z0-9-]+'[^']*'" html "").

Definition selfClosingTags : list string :=
  [ "br"; "hr"; "img"; "input"; "meta"; "link"; "area"; "base"; "col";
    "embed"; "param"; "source"; "track"; "wbr" ].

Fixpoint fixEach (tags : list string) (html : string) : outcome string :=
  match tags with
  | [] => Returned html
  | tag :: rest =>
      andThen (mustReplaceAll ("(?i)<(" ++ tag ++ ")([^/>]*)>") html "<$1$2/>") (fun html =>
      andThen (mustReplaceAll ("(?i)<(" ++ tag ++ ")([^/>]*)\s+/>") html "<$1$2/>") (fun html =>
      fixEach rest html))
  end.

Definition fixSelfClosingTags (html : string) : outcome string :=
  fixEach selfClosingTags html.

Definition removeEmptyParagraphs (html : string) : outcome string :=
  mustReplaceAll "<p[^>]*>\s*</p>" html "".

Definition collapseWhitespace (html : string) : outcome string :=
  andThen (mustReplaceAll "[ \t]+" html " ")
    (fun html => mustReplaceAll "\n{3,}" html (strings.LF ++ strings.LF)).

Definition Normalize (n : HTMLNormalizer) (html : string) : outcome string :=
  andThen (removeTag html "script") (fun html =>
  andThen (removeTag html "style") (fun html =>
  andThen (removeTag html "noscript") (fun html =>
  andThen (removeHTMLComments html) (fun html =>
  andThen (removeEventHandlers html) (fun html =>
  andThen (removeAttribute html "style") (fun html =>
  andThen (removeAttribute html "class") (fun html =>
  andThen (removeAttribute html "id") (fun html =>
  andThen (removeDataAttributes html) (fun html =>
  andThen (fixSelfClosingTags html) (fun html =>
  andThen (removeEmptyParagraphs html) (fun html =>
  andThen (collapseWhitespace html) (fun html =>
  andThen (if negb (PreserveImages n) then removeTag html "img" else Returned html) (fun html =>
  andThen (if negb (PreserveLinks n) then stripTagKeepContent html "a" else Returned html) (fun html =>
  Returned (strings.TrimSpace html))))))))))))))).



End WithCollaborators.
End formatter.

(* ===================================================================== *)
(** * Package config *)
(* ===================================================================== *)

Module config.

Record BookConfig := {
  Title : string;
  Author : string;
  Description : string;
  Cover : string
}.

Record PoliteConfig := {
  DelayMS : Z;
  MaxConcurrent : Z;
  RespectRobotsTxt : bool
}.

Record ScrapingConfig := {
  StartURL : string;
  Polite : PoliteConfig;
  UserAgent : string;
  Timeout : Z
}.

Record NavigationConfig := {
  Method : string;
  URLPattern : string;
  NumberStart : Z;
  NumberEnd : Z;
  NextLinkSelector : string;
  TOCUrl : string;
  TOCLinkSelector : string;
  MaxChapters : Z
}.

Record TextDensityConfig := {
  MinDensityScore : float;
  MinBlockSize : Z
}.

Record DOMPositionConfig := {
  MaxDepth : Z;
  MinWidth : Z
}.

Record ContentDetectionConfig := {
  Strategy : string;
  CSSSelector : string;
  ExcludeSelectors : list string;
  TextDensity : TextDensityConfig;
  XPathPatterns : list string;
  RegexPatterns : list string;
  DOMPosition : DOMPositionConfig
}.

Record ChapterExtractConfig := {
  TitleSelector : string;
  TitleRegex : string;
  TitleXPath : string
}.

Record EPUBMetadataConfig := {
  Lang : string;
  Rights : string;
  Publisher : string;
  Identifier : string
}.

Record OutputConfig := {
  Format : string;
  OutputPath : string;
  EPUBMetadata : EPUBMetadataConfig
}.

Record Config := {
  Book : BookConfig;
  Scraping : ScrapingConfig;
  Navigation : NavigationConfig;
  ContentDetection : ContentDetectionConfig;
  ChapterExtract : ChapterExtractConfig;
  Output : OutputConfig
}.

(** The fields [DefaultConfig] does not mention have their zero value. *)
Definition DefaultConfig : Config :=
  {| Book := {| Title := ""; Author := ""; Description := ""; Cover := "" |};
     Scraping :=
       {| StartURL := "";
          Polite := {| DelayMS := 2000; MaxConcurrent := 1; RespectRobotsTxt := true |};
          UserAgent := "Mozilla/5.0 (compatible; WebToEPUB/1.0)";
          Timeout := 30 |};
     Navigation :=
       {| Method := "url_pattern"; URLPattern := ""; NumberStart := 1; NumberEnd := 0;
          NextLinkSelector := ""; TOCUrl := ""; TOCLinkSelector := ""; MaxChapters := 0 |};
     ContentDetection :=
       {| Strategy := "hybrid"; CSSSelector := ""; ExcludeSelectors := [];
          TextDensity := {| MinDensityScore := 0.3; MinBlockSize := 100 |};
          XPathPatterns := []; RegexPatterns := [];
          DOMPosition := {| MaxDepth := 10; MinWidth := 300 |} |};
     ChapterExtract := {| TitleSelector := ""; TitleRegex := ""; TitleXPath := "" |};
     Output :=
       {| Format := "epub"; OutputPath := "./books";
          EPUBMetadata :=
            {| Lang := "en"; Rights := "Personal use only"; Publisher := "";
               Identifier := "" |} |} |}.

(** The map literal [validStrategies]; a key that is not in a Go map reads
    as the zero value, [false]. *)
Definition validStrategies : list (string * bool) :=
  [ ("css_selector", true); ("text_density", true); ("xpath_regex", true);
    ("dom_position", true); ("hybrid", true) ].

Fixpoint lookup (m : list (string * bool)) (key : string) : bool :=
  match m with
  | [] => false
  | (k, v) :: rest => if String.eqb k key then v else lookup rest key
  end.

(** [cfg.Scraping.Polite.MaxConcurrent = n], through the pointer. *)
Definition setMaxConcurrent (cfg : Config) (n : Z) : Config :=
  {| Book := Book cfg;
     Scraping :=
       {| StartURL := StartURL (Scraping cfg);
          Polite :=
            {| DelayMS := DelayMS (Polite (Scraping cfg));
               MaxConcurrent := n;
               RespectRobotsTxt := RespectRobotsTxt (Polite (Scraping cfg)) |};
          UserAgent := UserAgent (Scraping cfg);
          Timeout := Timeout (Scraping cfg) |};
     Navigation := Navigation cfg;
     ContentDetection := ContentDetection cfg;
     ChapterExtract := ChapterExtract cfg;
     Output := Output cfg |}.

(** The [switch] on the navigation method: the error of the case, if
    any. *)
Definition checkNavigation (nav : NavigationConfig) : option error :=
  if String.eqb (Method nav) "url_pattern" then
    if String.eqb (URLPattern nav) ""
    then Some "navigation.urlPattern is required for url_pattern method"
    else if (NumberEnd nav <? NumberStart nav)%Z
    then Some "navigation.numberEnd must be >= navigation.numberStart"
    else None
  else if String.eqb (Method nav) "next_link" then
    if String.eqb (NextLinkSelector nav) ""
    then Some "navigation.nextLinkSelector is required for next_link method"
    else None
  else if String.eqb (Method nav) "toc" then
    if String.eqb (TOCUrl nav) ""
    then Some "navigation.tocUrl is required for toc method"
    else if String.eqb (TOCLinkSelector nav) ""
    then Some "navigation.tocLinkSelector is required for toc method"
    else None
  else
    Some ("unknown navigation method: " ++ Method nav
            ++ " (valid: url_pattern, next_link, toc)").

(** [ValidateConfig]: the error it returns, and the configuration the
    pointer refers to after the call. *)
Definition ValidateConfig (cfg : Config) : option error * Config :=
  if String.eqb (Title (Book cfg)) "" then (Some "book.title is required", cfg)
  else if String.eqb (Author (Book cfg)) "" then (Some "book.author is required", cfg)
  else if String.eqb (StartURL (Scraping cfg)) ""
          && negb (String.eqb (Method (Navigation cfg)) "toc")
  then (Some "scraping.startUrl is required (unless using toc navigation)", cfg)
  else
    match checkNavigation (Navigation cfg) with
    | Some err => (Some err, cfg)
    | None =>
        if negb (lookup validStrategies (Strategy (ContentDetection cfg)))
        then (Some ("unknown content detection strategy: "
                      ++ Strategy (ContentDetection cfg)), cfg)
        else if String.eqb (Strategy (ContentDetection cfg)) "css_selector"
                && String.eqb (CSSSelector (ContentDetection cfg)) ""
        then (Some "contentDetection.cssSelector is required for css_selector strategy",
              cfg)
        else if String.eqb (Strategy (ContentDetection cfg)) "xpath_regex"
                && (List.length (RegexPatterns (ContentDetection cfg)) =? 0)
        then (Some "contentDetection.regexPatterns is required for xpath_regex strategy",
              cfg)
        else if negb (String.eqb (Format (Output cfg)) "epub")
                && negb (String.eqb (Format (Output cfg)) "pdf")
        then (Some "output.format must be 'epub' or 'pdf'", cfg)
        else if (DelayMS (Polite (Scraping cfg)) <? 0)%Z
        then (Some "scraping.polite.delayMs must be >= 0", cfg)
        else if (MaxConcurrent (Polite (Scraping cfg)) <? 1)%Z
        then (None, setMaxConcurrent cfg 1)
        else (None, cfg)
    end.

End config.

(* ===================================================================== *)
(** * Package scraper: the strategy of a configuration *)
(* ===================================================================== *)

Module scraper.
Import extractor.

Section WithCollaborators.
Context `{Collaborators}.

Definition densityOf (cfg : config.ContentDetectionConfig) : TextDensityStrategy.t :=
  {| TextDensityStrategy.MinDensityScore :=
       config.MinDensityScore (config.TextDensity cfg);
     TextDensityStrategy.MinBlockSize := config.MinBlockSize (config.TextDensity cfg) |}.

Definition positionOf (cfg : config.ContentDetectionConfig) : DOMPositionStrategy.t :=
  {| DOMPositionStrategy.MaxDepth := config.MaxDepth (config.DOMPosition cfg);
     DOMPositionStrategy.MinWidth := config.MinWidth (config.DOMPosition cfg) |}.

Definition selectorOf (cfg : config.ContentDetectionConfig) : CSSSelectorStrategy.t :=
  {| CSSSelectorStrategy.Selector := config.CSSSelector cfg;
     CSSSelectorStrategy.ExcludeSelectors := config.ExcludeSelectors cfg |}.

Definition buildStrategy (cfg : config.ContentDetectionConfig) : DetectionStrategy :=
  if String.eqb (config.Strategy cfg) "css_selector" then
    CSSSelectorStrategy.strategy (selectorOf cfg)
  else if String.eqb (config.Strategy cfg) "text_density" then
    TextDensityStrategy.strategy (densityOf cfg)
  else if String.eqb (config.Strategy cfg) "xpath_regex" then
    XPathRegexStrategy.strategy
      {| XPathRegexStrategy.Patterns := config.RegexPatterns cfg |}
  else if String.eqb (config.Strategy cfg) "dom_position" then
    DOMPositionStrategy.strategy (positionOf cfg)
  else if String.eqb (config.Strategy cfg) "hybrid" then
    let strategies :=
      if negb (String.eqb (config.CSSSelector cfg) "")
      then [CSSSelectorStrategy.strategy (selectorOf cfg)]
      else [] in
    let strategies := (strategies ++ [TextDensityStrategy.strategy (densityOf cfg)])%list in
    let strategies := (strategies ++ [DOMPositionStrategy.strategy (positionOf cfg)])%list in
    HybridStrategy.strategy {| HybridStrategy.Strategies := strategies |}
  else
    DOMPositionStrategy.strategy
      {| DOMPositionStrategy.MaxDepth := 0; DOMPositionStrategy.MinWidth := 0 |}.

End WithCollaborators.
End scraper.

(* ===================================================================== *)
(** * An executable implementation of the collaborators *)
(* ===================================================================== *)

(** [Simple] implements the three libraries on the part of their input
    language that the repository's own selectors and patterns use:
    - selectors: groups (a, b) of compound selectors built from a tag name or
      [*], [.class], [#id], [[attr]] and [[attr='value']];
    - rendering: elements, attributes, text, comments, void and raw-text
      elements as render.go of x/net/html writes them;
    - regular expressions: a backtracking matcher (Go's leftmost-first
      semantics) for literals, [.], classes, the escapes \s \S \w \W \d \D
      \n \r \t \f \v, groups, alternation, the repetitions and their lazy
      forms, and the flags i and s.  The matcher reads bytes where Go reads
      runes; the two agree on the patterns of the source, whose classes stand
      under a repetition or next to an ASCII delimiter.  A pattern outside
      this language is reported as [Unsupported]. *)
Module Simple.
Import strings.

(** ** Selectors *)

Inductive simpleSel :=
| SelTag (tag : string)
| SelClass (class : string)
| SelId (id : string)
| SelAttrHas (key : string)
| SelAttrEq (key val : string).

Definition isLetter (c : ascii) : bool :=
  ((65 <=? code c) && (code c <=? 90)) || ((97 <=? code c) && (code c <=? 122)).
Definition isDigit (c : ascii) : bool := (48 <=? code c) && (code c <=? 57).
Definition isIdentChar (c : ascii) : bool :=
  isLetter c || isDigit c || (code c =? 45) || (code c =? 95).

Fixpoint span (f : ascii -> bool) (s : string) : string * string :=
  match s with
  | EmptyString => (EmptyString, EmptyString)
  | String c r =>
      if f c then let (a, b) := span f r in (String c a, b)
      else (EmptyString, s)
  end.

(** The parts of a compound selector after its tag name. *)
Fixpoint parseParts (fuel : nat) (s : string) : option (list simpleSel) :=
  match fuel with
  | O => None
  | S fuel' =>
      match s with
      | EmptyString => Some []
      | String c r =>
          if code c =? 46 (* . *) then
            let (name, rest) := span isIdentChar r in
            if String.eqb name "" then None
            else option_map (cons (SelClass name)) (parseParts fuel' rest)
          else if code c =? 35 (* # *) then
            let (name, rest) := span isIdentChar r in
            if String.eqb name "" then None
            else option_map (cons (SelId name)) (parseParts fuel' rest)
          else if code c =? 91 (* [ *) then
            let (key, rest) := span isIdentChar r in
            if String.eqb key "" then None
            else
              match rest with
              | String d rest1 =>
                  if code d =? 93 (* ] *) then
                    option_map (cons (SelAttrHas (ToLower key))) (parseParts fuel' rest1)
                  else if code d =? 61 (* = *) then
                    match rest1 with
                    | String q rest2 =>
                        if (code q =? 39) || (code q =? 34) then
                          let (val, rest3) := span (fun x => negb (Ascii.eqb x q)) rest2 in
                          match rest3 with
                          | String _ (String e rest4) =>
                              if code e =? 93 then
                                option_map (cons (SelAttrEq (ToLower key) val))
                                           (parseParts fuel' rest4)
                              else None
                          | _ => None
                          end
                        else None
                    | EmptyString => None
                    end
                  else None
              | EmptyString => None
              end
          else None
      end
  end.

Definition parseCompound (s : string) : option (list simpleSel) :=
  match s with
  | EmptyString => None
  | String c r =>
      if code c =? 42 (* * *) then parseParts (S (String.length r)) r
      else
        let (tag, rest) := span isIdentChar s in
        if String.eqb tag "" then
          match parseParts (S (String.length s)) s with
          | Some [] => None
          | other => other
          end
        else option_map (cons (SelTag (ToLower tag)))
                        (parseParts (S (String.length rest)) rest)
  end.

(** The pieces of [s] between the bytes that satisfy [sep]. *)
Fixpoint splitOn (sep : ascii -> bool) (s : string) (cur : string) : list string :=
  match s with
  | EmptyString => [rev cur]
  | String c r =>
      if sep c then rev cur :: splitOn sep r EmptyString
      else splitOn sep r (String c cur)
  end.

Definition isCSSSpace (c : ascii) : bool :=
  (code c =? 32) || (code c =? 9) || (code c =? 13) || (code c =? 10) || (code c =? 12).

Fixpoint trimLeftCSS (s : string) : string :=
  match s with
  | String c r => if isCSSSpace c then trimLeftCSS r else s
  | EmptyString => EmptyString
  end.

Definition trimCSS (s : string) : string := rev (trimLeftCSS (rev (trimLeftCSS s))).

Fixpoint allSome {A} (l : list (option A)) : option (list A) :=
  match l with
  | [] => Some []
  | Some a :: l' => option_map (cons a) (allSome l')
  | None :: _ => None
  end.

Definition parseSelector (s : string) : option (list (list simpleSel)) :=
  allSome (map (fun piece => parseCompound (trimCSS piece))
               (splitOn (fun c => code c =? 44) s EmptyString)).

Definition hasAttr (attrs : list Attribute) (key : string) (ok : string -> bool) : bool :=
  existsb (fun a => String.eqb (Key a) key && ok (Val a)) attrs.

Definition matchSimple (tag : string) (attrs : list Attribute) (p : simpleSel) : bool :=
  match p with
  | SelTag t => String.eqb tag t
  | SelClass c =>
      hasAttr attrs "class"
        (fun v => existsb (String.eqb c) (splitOn isCSSSpace v EmptyString))
  | SelId i => hasAttr attrs "id" (String.eqb i)
  | SelAttrHas k => hasAttr attrs k (fun _ => true)
  | SelAttrEq k v => hasAttr attrs k (String.eqb v)
  end.

Definition cssMatches (sel : string) (t : Node) (p : path) : bool :=
  match parseSelector sel, nodeAt t p with
  | Some group, Some (ElementNode tag attrs _) =>
      existsb (fun compound => forallb (matchSimple tag attrs) compound) group
  | _, _ => false
  end.

(** ** Rendering *)

Fixpoint escape (s : string) : string :=
  match s with
  | EmptyString => EmptyString
  | String c r =>
      (if code c =? 38 then "&amp;"
       else if code c =? 39 then "&#39;"
       else if code c =? 60 then "&lt;"
       else if code c =? 62 then "&gt;"
       else if code c =? 34 then "&#34;"
       else if code c =? 13 then "&#13;"
       else String c EmptyString) ++ escape r
  end.

(** In a comment [&] is escaped always, and [>] at the start of the data
    or after [!] or [-]. *)
Fixpoint escapeComment (prev : option ascii) (s : string) : string :=
  match s with
  | EmptyString => EmptyString
  | String c r =>
      (if code c =? 38 then "&amp;"
       else if code c =? 62 then
         match prev with
         | None => "&gt;"
         | Some p => if (code p =? 33) || (code p =? 45) then "&gt;"
                     else String c EmptyString
         end
       else String c EmptyString) ++ escapeComment (Some c) r
  end.

Definition voidElements : list string :=
  [ "area"; "base"; "br"; "col"; "embed"; "hr"; "img"; "input"; "keygen";
    "link"; "meta"; "param"; "source"; "track"; "wbr" ].

Definition rawTextElements : list string :=
  [ "iframe"; "noembed"; "noframes"; "noscript"; "plaintext"; "script";
    "style"; "xmp" ].

Definition isIn (x : string) (l : list string) : bool := existsb (String.eqb x) l.

Definition renderAttr (a : Attribute) : string :=
  " " ++ (if String.eqb (Namespace a) "" then "" else Namespace a ++ ":")
      ++ Key a ++ "=" ++ dq ++ escape (Val a) ++ dq.

(** [render1]; the flag of the result says that a [plaintext] element was
    met, after which nothing more is written for the tree. *)
Fixpoint render1 (n : Node) : res (string * bool) :=
  let fix renderChildren (literal : bool) (cs : list Node) : res (string * bool) :=
    match cs with
    | [] => Ok (EmptyString, false)
    | c :: cs' =>
        match (match c with
               | TextNode d => if literal then Ok (d, false) else render1 c
               | _ => render1 c
               end) with
        | Err e => Err e
        | Ok (a, true) => Ok (a, true)
        | Ok (a, false) =>
            match renderChildren literal cs' with
            | Err e => Err e
            | Ok (b, stop) => Ok (a ++ b, stop)
            end
        end
    end in
  match n with
  | TextNode d => Ok (escape d, false)
  | DocumentNode cs => renderChildren false cs
  | CommentNode d => Ok ("<!--" ++ escapeComment None d ++ "-->", false)
  | DoctypeNode d => Ok ("<!DOCTYPE " ++ escape d ++ ">", false)
  | ElementNode tag attrs cs =>
      let opening := "<" ++ tag ++ String.concat "" (map renderAttr attrs) in
      if isIn tag voidElements then
        match cs with
        | [] => Ok (opening ++ "/>", false)
        | _ :: _ => Err ("html: void element <" ++ tag ++ "> has child nodes")
        end
      else
        let newline :=
          match cs with
          | TextNode d :: _ =>
              if HasPrefix d LF && isIn tag ["pre"; "listing"; "textarea"]
              then LF else ""
          | _ => ""
          end in
        let literal := isIn tag rawTextElements in
        match renderChildren literal cs with
        | Err e => Err e
        | Ok (body, true) => Ok (opening ++ ">" ++ newline ++ body, true)
        | Ok (body, false) =>
            if String.eqb tag "plaintext"
            then Ok (opening ++ ">" ++ newline ++ body, true)
            else Ok (opening ++ ">" ++ newline ++ body ++ "</" ++ tag ++ ">", false)
        end
  end.

Definition Render (n : Node) : res string :=
  match render1 n with
  | Ok (s, _) => Ok s
  | Err e => Err e
  end.

(** ** Regular expressions *)

(** A set of bytes: ranges of byte codes, taken up to ASCII case when
    [folded], complemented when [negated]. *)
Record charset := { negated : bool; folded : bool; ranges : list (nat * nat) }.

Definition inRanges (rs : list (nat * nat)) (n : nat) : bool :=
  existsb (fun r => (fst r <=? n) && (n <=? snd r)) rs.

Definition swapCase (n : nat) : nat :=
  if (65 <=? n) && (n <=? 90) then n + 32
  else if (97 <=? n) && (n <=? 122) then n - 32
  else n.

Definition inSet (cs : charset) (c : ascii) : bool :=
  xorb (negated cs)
       (inRanges (ranges cs) (code c)
        || (folded cs && inRanges (ranges cs) (swapCase (code c)))).

Inductive regex :=
| Eps
| Chars (cs : charset)
| Cat (a b : regex)
| Alt (a b : regex)
| Rep (min : nat) (max : option nat) (greedy : bool) (r : regex)
| Group (index : nat) (r : regex).

(** The text of the groups matched so far, the latest first. *)
Definition captures := list (nat * string).

Fixpoint takeN (n : nat) (s : string) : string :=
  match n, s with
  | S n', String c r => String c (takeN n' r)
  | _, _ => EmptyString
  end.

Definition belowMax (max : option nat) (n : nat) : bool :=
  match max with
  | Some m => n <? m
  | None => true
  end.

(** The continuation of a match and the matcher of one expression. *)
Definition cont := string -> captures -> option (string * captures).
Definition matcher := string -> captures -> cont -> option (string * captures).

(** The repetition of [step], [n] iterations done: more first when
    greedy, fewer first when lazy.  An iteration that consumed nothing
    ends the repetition. *)
Fixpoint repLoop (step : matcher) (min : nat) (max : option nat) (greedy : bool)
         (k : cont) (fuel n : nat) (s : string) (cs : captures) {struct fuel}
  : option (string * captures) :=
  match fuel with
  | O => if min <=? n then k s cs else None
  | S fuel' =>
      if greedy then
        match (if belowMax max n
               then step s cs
                      (fun s' cs' =>
                         if String.length s' <? String.length s
                         then repLoop step min max greedy k fuel' (S n) s' cs'
                         else k s' cs')
               else None) with
        | Some x => Some x
        | None => if min <=? n then k s cs else None
        end
      else
        match (if min <=? n then k s cs else None) with
        | Some x => Some x
        | None =>
            if belowMax max n
            then step s cs
                   (fun s' cs' =>
                      if String.length s' <? String.length s
                      then repLoop step min max greedy k fuel' (S n) s' cs'
                      else k s' cs')
            else None
        end
  end.

(** [run r s cs k]: match [r] at the head of [s], then hand the rest of
    the input to [k]; the first way that makes [k] succeed is taken
    (left alternative first). *)
Fixpoint run (r : regex) (s : string) (cs : captures) (k : cont) {struct r}
  : option (string * captures) :=
  match r with
  | Eps => k s cs
  | Chars set =>
      match s with
      | String c s' => if inSet set c then k s' cs else None
      | EmptyString => None
      end
  | Cat a b => run a s cs (fun s' cs' => run b s' cs' k)
  | Alt a b =>
      match run a s cs k with
      | Some x => Some x
      | None => run b s cs k
      end
  | Group i a =>
      run a s cs
        (fun s' cs' => k s' ((i, takeN (String.length s - String.length s') s) :: cs'))
  | Rep min max greedy a =>
      repLoop (run a) min max greedy k (S (String.length s)) 0 s cs
  end.

(** A match of [r] at the head of [s]: the matched text, the groups, the
    rest of the input. *)
Definition matchHere (r : regex) (s : string) : option (string * captures * string) :=
  match run r s [] (fun s' cs => Some (s', cs)) with
  | Some (rest, cs) => Some (takeN (String.length s - String.length rest) s, cs, rest)
  | None => None
  end.

(** The leftmost match in [s]: the text before it, then as [matchHere]. *)
Fixpoint search (r : regex) (s : string) : option (string * string * captures * string) :=
  match matchHere r s with
  | Some (m, cs, rest) => Some (EmptyString, m, cs, rest)
  | None =>
      match s with
      | EmptyString => None
      | String c s' =>
          match search r s' with
          | Some (before, m, cs, rest) => Some (String c before, m, cs, rest)
          | None => None
          end
      end
  end.

Record Regexp := { prog : regex; numSubexp : nat }.

Fixpoint group (i : nat) (cs : captures) : string :=
  match cs with
  | [] => EmptyString
  | (j, text) :: cs' => if i =? j then text else group i cs'
  end.

Definition FindStringSubmatch (re : Regexp) (s : string) : list string :=
  match search (prog re) s with
  | Some (_, m, cs, _) => m :: map (fun i => group i cs) (seq 1 (numSubexp re))
  | None => []
  end.

(** The replacement template: [$$], [$name] and [${name}]; a name made of
    digits is a group number, any other name is a named group, of which
    this language has none. *)
Definition isWordChar (c : ascii) : bool := isLetter c || isDigit c || (code c =? 95).

Fixpoint number (s : string) (acc : nat) : nat :=
  match s with
  | EmptyString => acc
  | String c r => number r (10 * acc + (code c - 48))
  end.

Definition allDigits (s : string) : bool :=
  let (d, rest) := span isDigit s in String.eqb rest "".

Definition groupNamed (name : string) (m : string) (cs : captures) : string :=
  if allDigits name
  then (if number name 0 =? 0 then m else group (number name 0) cs)
  else EmptyString.

Fixpoint expand (fuel : nat) (template : string) (m : string) (cs : captures) : string :=
  match fuel with
  | O => template
  | S fuel' =>
      match template with
      | EmptyString => EmptyString
      | String c r =>
          if code c =? 36 (* $ *) then
            match r with
            | String d r1 =>
                if code d =? 36 then String d (expand fuel' r1 m cs)
                else if code d =? 123 (* { *) then
                  let (name, rest) := span isWordChar r1 in
                  match rest with
                  | String e rest1 =>
                      if (code e =? 125) && negb (String.eqb name "")
                      then groupNamed name m cs ++ expand fuel' rest1 m cs
                      else String c (expand fuel' r m cs)
                  | EmptyString => String c (expand fuel' r m cs)
                  end
                else
                  let (name, rest) := span isWordChar r in
                  if String.eqb name "" then String c (expand fuel' r m cs)
                  else groupNamed name m cs ++ expand fuel' rest m cs
            | EmptyString => String c EmptyString
            end
          else String c (expand fuel' r m cs)
      end
  end.

(** [Regexp.ReplaceAllString].  [afterMatch] says that a match ended just
    where [s] starts: an empty match there is not replaced again. *)
Fixpoint replaceLoop (fuel : nat) (r : regex) (repl : string) (afterMatch : bool)
         (s : string) : string :=
  match fuel with
  | O => s
  | S fuel' =>
      match search r s with
      | None => s
      | Some (before, m, cs, rest) =>
          let out := expand (S (String.length repl)) repl m cs in
          match m with
          | String _ _ => before ++ out ++ replaceLoop fuel' r repl true rest
          | EmptyString =>
              match before with
              | String _ _ => before ++ out ++ replaceLoop fuel' r repl true rest
              | EmptyString =>
                  (if afterMatch then "" else out)
                    ++ match s with
                       | String c s' => String c (replaceLoop fuel' r repl false s')
                       | EmptyString => EmptyString
                       end
              end
          end
      end
  end.

Definition ReplaceAllString (re : Regexp) (src repl : string) : string :=
  replaceLoop (2 * String.length src + 2) (prog re) repl false src.

(** ** The pattern parser *)

Inductive parsed (A : Type) : Type :=
| Parsed (a : A)
| SyntaxError
| Unsupported.
Arguments Parsed {A} a.
Arguments SyntaxError {A}.
Arguments Unsupported {A}.

Definition andParse {A B} (p : parsed A) (f : A -> parsed B) : parsed B :=
  match p with
  | Parsed a => f a
  | SyntaxError => SyntaxError
  | Unsupported => Unsupported
  end.

Record flags := { foldCase : bool; dotNL : bool }.

Definition spaceRanges : list (nat * nat) := [(9, 10); (12, 13); (32, 32)].
Definition wordRanges : list (nat * nat) := [(48, 57); (65, 90); (95, 95); (97, 122)].
Definition digitRanges : list (nat * nat) := [(48, 57)].
Definition notSpaceRanges : list (nat * nat) := [(0, 8); (11, 11); (14, 31); (33, 255)].
Definition notWordRanges : list (nat * nat) :=
  [(0, 47); (58, 64); (91, 94); (96, 96); (123, 255)].
Definition notDigitRanges : list (nat * nat) := [(0, 47); (58, 255)].

(** The class an escape letter stands for. *)
Definition perlClass (c : ascii) : option (list (nat * nat)) :=
  if code c =? 115 then Some spaceRanges            (* \s *)
  else if code c =? 83 then Some notSpaceRanges     (* \S *)
  else if code c =? 119 then Some wordRanges        (* \w *)
  else if code c =? 87 then Some notWordRanges      (* \W *)
  else if code c =? 100 then Some digitRanges       (* \d *)
  else if code c =? 68 then Some notDigitRanges     (* \D *)
  else None.

(** The byte an escape stands for: a control character, or the
    punctuation sign itself. *)
Definition escapedByte (c : ascii) : parsed nat :=
  if code c =? 110 then Parsed 10                   (* \n *)
  else if code c =? 114 then Parsed 13              (* \r *)
  else if code c =? 116 then Parsed 9               (* \t *)
  else if code c =? 102 then Parsed 12              (* \f *)
  else if code c =? 118 then Parsed 11              (* \v *)
  else if isWordChar c || (128 <=? code c) then Unsupported
  else Parsed (code c).

(** Letters whose case folding leaves ASCII: k, K (with U+212A) and
    s, S (with U+017F). *)
Definition foldsOutside (n : nat) : bool :=
  (n =? 75) || (n =? 107) || (n =? 83) || (n =? 115).

Definition touchesFoldOutside (rs : list (nat * nat)) : bool :=
  existsb (inRanges rs) [75; 107; 83; 115].

Definition single (n : nat) : regex :=
  Chars {| negated := false; folded := false; ranges := [(n, n)] |}.

(** One literal byte under the flags. *)
Definition literal (fl : flags) (c : ascii) : parsed regex :=
  let n := code c in
  if 128 <=? n then Unsupported
  else if foldCase fl && isLetter c then
    if (n =? 75) || (n =? 107)
    then Parsed (Alt (Chars {| negated := false; folded := true; ranges := [(n, n)] |})
                     (Cat (single 226) (Cat (single 132) (single 170))))
    else if (n =? 83) || (n =? 115)
    then Parsed (Alt (Chars {| negated := false; folded := true; ranges := [(n, n)] |})
                     (Cat (single 197) (single 191)))
    else Parsed (Chars {| negated := false; folded := true; ranges := [(n, n)] |})
  else Parsed (single n).

(** The inside of [[...]], after the opening bracket and the [^]. *)
Fixpoint parseClass (first : bool) (s : string) (acc : list (nat * nat))
  : parsed (list (nat * nat) * string) :=
  match s with
  | EmptyString => SyntaxError
  | String c r =>
      if (code c =? 93) && negb first then Parsed (acc, r)
      else if 128 <=? code c then Unsupported
      else if code c =? 91 then
        match r with
        | String d _ =>
            if code d =? 58 then Unsupported
            else parseClass false r (acc ++ [(91, 91)])%list
        | EmptyString => SyntaxError
        end
      else if code c =? 92 then
        match r with
        | EmptyString => SyntaxError
        | String e r' =>
            match perlClass e with
            | Some rs => parseClass false r' (acc ++ rs)%list
            | None =>
                match escapedByte e, r' with
                | Parsed n, String d (String d' _) =>
                    if (code d =? 45) && negb (code d' =? 93) then Unsupported
                    else parseClass false r' (acc ++ [(n, n)])%list
                | Parsed n, _ => parseClass false r' (acc ++ [(n, n)])%list
                | SyntaxError, _ => SyntaxError
                | Unsupported, _ => Unsupported
                end
            end
        end
      else
        match r with
        | String d (String hi r'') =>
            if (code d =? 45) && negb (code hi =? 93) then
              if (code hi =? 92) || (128 <=? code hi) then Unsupported
              else if code c <=? code hi
                   then parseClass false r'' (acc ++ [(code c, code hi)])%list
                   else SyntaxError
            else parseClass false r (acc ++ [(code c, code c)])%list
        | _ => parseClass false r (acc ++ [(code c, code c)])%list
        end
  end.

(** [{n}], [{n,}] and [{n,m}], after the opening brace. *)
Definition parseBraces (s : string) : option (nat * option nat * string) :=
  let (lo, rest) := span isDigit s in
  if String.eqb lo "" then None
  else
    match rest with
    | String c rest1 =>
        if code c =? 125 then Some (number lo 0, Some (number lo 0), rest1)
        else if code c =? 44 then
          let (hi, rest2) := span isDigit rest1 in
          match rest2 with
          | String e rest3 =>
              if code e =? 125 then
                Some (number lo 0,
                      if String.eqb hi "" then None else Some (number hi 0),
                      rest3)
              else None
          | EmptyString => None
          end
        else None
    | EmptyString => None
    end.

Definition startsRepetition (s : string) : bool :=
  match s with
  | String c r =>
      (code c =? 42) || (code c =? 43) || (code c =? 63)
      || ((code c =? 123) && match parseBraces r with Some _ => true | None => false end)
  | EmptyString => false
  end.

(** The repetition operator after an atom, if there is one. *)
Definition parseQuant (a : regex) (s : string) : parsed (regex * string) :=
  let finish (min : nat) (max : option nat) (rest : string) : parsed (regex * string) :=
    let bad :=
      (1000 <? min)
      || match max with Some m => (1000 <? m) || (m <? min) | None => false end in
    if bad then SyntaxError
    else
      match rest with
      | String c rest' =>
          if code c =? 63 then
            if startsRepetition rest' then SyntaxError
            else Parsed (Rep min max false a, rest')
          else if startsRepetition rest then SyntaxError
          else Parsed (Rep min max true a, rest)
      | EmptyString => Parsed (Rep min max true a, rest)
      end in
  match s with
  | String c r =>
      if code c =? 42 then finish 0 None r
      else if code c =? 43 then finish 1 None r
      else if code c =? 63 then finish 0 (Some 1) r
      else if code c =? 123 then
        match parseBraces r with
        | Some (lo, hi, rest) => finish lo hi rest
        | None => Parsed (a, s)
        end
      else Parsed (a, s)
  | EmptyString => Parsed (a, s)
  end.

(** The flags of [(?flags)] and [(?flags:], after the question mark: the
    new flags, whether a colon ended them, and the rest. *)
Fixpoint parseFlags (fl : flags) (on : bool) (s : string)
  : parsed (flags * bool * string) :=
  match s with
  | EmptyString => SyntaxError
  | String c r =>
      if code c =? 41 then Parsed (fl, false, r)
      else if code c =? 58 then Parsed (fl, true, r)
      else if code c =? 105 then
        parseFlags {| foldCase := on; dotNL := dotNL fl |} on r
      else if code c =? 115 then
        parseFlags {| foldCase := foldCase fl; dotNL := on |} on r
      else if (code c =? 45) && on then parseFlags fl false r
      else Unsupported
  end.

(** An atom that is not a parenthesis. *)
Definition parseAtom (fl : flags) (c : ascii) (r : string) : parsed (regex * string) :=
  if (code c =? 42) || (code c =? 43) || (code c =? 63) then SyntaxError
  else if (code c =? 94) || (code c =? 36) then Unsupported
  else if code c =? 46 then
    Parsed (Chars {| negated := false; folded := false;
                     ranges := if dotNL fl then [(0, 255)] else [(0, 9); (11, 255)] |}, r)
  else if code c =? 91 then
    let (neg, body) :=
      match r with
      | String d r' => if code d =? 94 then (true, r') else (false, r)
      | EmptyString => (false, r)
      end in
    andParse (parseClass true body []) (fun cr =>
      let (rs, rest) := cr in
      if foldCase fl && touchesFoldOutside rs then Unsupported
      else Parsed (Chars {| negated := neg; folded := foldCase fl; ranges := rs |}, rest))
  else if code c =? 92 then
    match r with
    | EmptyString => SyntaxError
    | String e r' =>
        match perlClass e with
        | Some rs =>
            if foldCase fl && touchesFoldOutside rs then Unsupported
            else Parsed (Chars {| negated := false; folded := false; ranges := rs |}, r')
        | None =>
            andParse (escapedByte e) (fun n =>
            andParse (literal fl (chr n)) (fun a => Parsed (a, r')))
        end
    end
  else andParse (literal fl c) (fun a => Parsed (a, r)).

Definition cat (a b : regex) : regex :=
  match a with
  | Eps => b
  | _ => Cat a b
  end.

(** Alternations and concatenations, up to the closing parenthesis or
    the end of the pattern.  [next] is the number of the next group. *)
Fixpoint parseAlt (fuel : nat) (fl : flags) (next : nat) (s : string) {struct fuel}
  : parsed (regex * flags * nat * string) :=
  match fuel with
  | O => Unsupported
  | S fuel' =>
      andParse (parseCat fuel' fl next s Eps) (fun x =>
        match x with
        | (a, fl', next', String c rest) =>
            if code c =? 124 then
              andParse (parseAlt fuel' fl' next' rest) (fun y =>
                match y with
                | (b, fl'', next'', rest') => Parsed (Alt a b, fl'', next'', rest')
                end)
            else Parsed x
        | _ => Parsed x
        end)
  end
with parseCat (fuel : nat) (fl : flags) (next : nat) (s : string) (acc : regex)
              {struct fuel}
  : parsed (regex * flags * nat * string) :=
  match fuel with
  | O => Unsupported
  | S fuel' =>
      match s with
      | EmptyString => Parsed (acc, fl, next, s)
      | String c r =>
          if (code c =? 41) || (code c =? 124) then Parsed (acc, fl, next, s)
          else if code c =? 40 then
            match r with
            | String q r1 =>
                if code q =? 63 then
                  andParse (parseFlags fl true r1) (fun f =>
                    match f with
                    | (fl', true, r2) =>
                        andParse (parseAlt fuel' fl' next r2) (fun y =>
                          match y with
                          | (a, _, next', String e r3) =>
                              if code e =? 41 then
                                andParse (parseQuant a r3) (fun z =>
                                  parseCat fuel' fl next' (snd z) (cat acc (fst z)))
                              else SyntaxError
                          | _ => SyntaxError
                          end)
                    | (fl', false, r2) =>
                        if startsRepetition r2 then SyntaxError
                        else parseCat fuel' fl' next r2 acc
                    end)
                else
                  andParse (parseAlt fuel' fl (S next) r) (fun y =>
                    match y with
                    | (a, _, next', String e r3) =>
                        if code e =? 41 then
                          andParse (parseQuant (Group next a) r3) (fun z =>
                            parseCat fuel' fl next' (snd z) (cat acc (fst z)))
                        else SyntaxError
                    | _ => SyntaxError
                    end)
            | EmptyString => SyntaxError
            end
          else
            andParse (parseAtom fl c r) (fun x =>
            andParse (parseQuant (fst x) (snd x)) (fun z =>
              parseCat fuel' fl next (snd z) (cat acc (fst z))))
      end
  end.

Definition parse (pattern : string) : parsed Regexp :=
  andParse (parseAlt (2 * String.length pattern + 2)
                     {| foldCase := false; dotNL := false |} 1 pattern)
    (fun x =>
       match x with
       | (r, _, next, EmptyString) => Parsed {| prog := r; numSubexp := next - 1 |}
       | (_, _, _, String _ _) => SyntaxError
       end).

(** [regexp.Compile]: a pattern with a syntax error does not compile; nor
    does, here, one outside the language of this module. *)
Definition Compile (pattern : string) : option Regexp :=
  match parse pattern with
  | Parsed re => Some re
  | SyntaxError => None
  | Unsupported => None
  end.

#[export] Instance collaborators : Collaborators :=
  Build_Collaborators cssMatches Render Regexp Compile FindStringSubmatch
                      ReplaceAllString.

End Simple.


(* ===================================================================== *)
(** * Vocabulary of the specifications *)
(* ===================================================================== *)

Module Spec.
Import goquery extractor.

(** ** Fallback chains

    [Declined doc opts l st errors st']: the strategies of [l], run one
    after the other on the heap [st], each fail or return empty content;
    [errors] lists ["name: message"] for those that failed, [st'] is the
    heap they leave.  This is what the hybrid strategy calls a failure. *)
Inductive Declined (doc : Document) (opts : option ExtractionOptions)
  : list DetectionStrategy -> Store -> list string -> Store -> Prop :=
| Declined_nil : forall st, Declined doc opts [] st [] st
| Declined_error : forall s l st st1 st2 err errors,
    Extract s doc opts st = (Err err, st1) ->
    Declined doc opts l st1 errors st2 ->
    Declined doc opts (s :: l) st ((Name s ++ ": " ++ err)%string :: errors) st2
| Declined_empty : forall s l st st1 st2 errors,
    Extract s doc opts st = (Ok EmptyString, st1) ->
    Declined doc opts l st1 errors st2 ->
    Declined doc opts (s :: l) st errors st2.

(** [Rejected doc o l st warnings lastErr st']: the orchestrator, with
    options [o], accepts none of the strategies of [l]: each fails, or
    returns content shorter than [MinContentLength o].  [warnings] are the
    warnings this records, [lastErr] the error of the last strategy that
    failed, if one did. *)
Inductive Rejected (doc : Document) (o : ExtractionOptions)
  : list DetectionStrategy -> Store -> list string -> option error -> Store -> Prop :=
| Rejected_nil : forall st, Rejected doc o [] st [] None st
| Rejected_error : forall s l st st1 st2 err warnings lastErr,
    Extract s doc (Some o) st = (Err err, st1) ->
    Rejected doc o l st1 warnings lastErr st2 ->
    Rejected doc o (s :: l) st
      (("Strategy '" ++ Name s ++ "' failed: " ++ err)%string :: warnings)
      (match lastErr with Some e => Some e | None => Some err end) st2
| Rejected_short : forall s l st st1 st2 content warnings lastErr,
    Extract s doc (Some o) st = (Ok content, st1) ->
    (len content < MinContentLength o)%Z ->
    Rejected doc o l st1 warnings lastErr st2 ->
    Rejected doc o (s :: l) st
      (("Strategy '" ++ Name s ++ "' returned content too short")%string :: warnings)
      lastErr st2.

Section WithCollaborators.
Context `{Collaborators}.

(** ** The pattern strategy

    What one pattern yields on the markup: the first capturing group of
    its leftmost match, trimmed -- when the pattern compiles under the flags
    i and s, matches, has a group, and the trimmed group is not empty. *)
Definition capture (fullHTML pattern : string) : option string :=
  match Compile ("(?is)" ++ pattern) with
  | None => None
  | Some re =>
      match FindStringSubmatch re fullHTML with
      | _ :: group1 :: _ =>
          if String.eqb (strings.TrimSpace group1) "" then None
          else Some (strings.TrimSpace group1)
      | _ => None
      end
  end.

(** ** The title resolver

    The trimmed text of the first element the selector matches. *)
Definition firstText (doc : Document) (st : Store) (sel : string) : option string :=
  match fst (Find (docSelection doc) sel st) with
  | [] => None
  | r :: _ => Some (strings.TrimSpace (fst (Text [r] st)))
  end.

(** Stage (a): the explicit selector, if one is configured and the text it
    finds is not empty. *)
Definition titleBySelector (doc : Document) (st : Store) (selector : string)
  : option string :=
  if String.eqb selector "" then None
  else
    match firstText doc st selector with
    | Some text => if String.eqb text "" then None else Some text
    | None => None
    end.

(** Stage (b): the configured pattern on the markup of the whole document;
    the first group, trimmed, then stripped of its tags by [tagRe] (the
    compiled pattern of [stripHTMLTags]).  Compiling the configured pattern
    may panic. *)
Definition titleByRegex (tagRe : Regexp) (doc : Document) (st : Store)
           (regexPattern : string) : outcome (option string) :=
  if String.eqb regexPattern "" then Returned None
  else
    match Compile ("(?i)" ++ regexPattern) with
    | None => Panic
    | Some re =>
        let html := match fst (Html (docSelection doc) st) with
                    | Ok x => x
                    | Err _ => EmptyString
                    end in
        match FindStringSubmatch re html with
        | _ :: group1 :: _ =>
            let text := ReplaceAllString tagRe (strings.TrimSpace group1) "" in
            Returned (if String.eqb text "" then None else Some text)
        | _ => Returned None
        end
    end.

(** Stage (c): the first selector of the list whose first match has a
    trimmed text that is not empty and shorter than 200 bytes. *)
Fixpoint titleByFallback (doc : Document) (st : Store) (selectors : list string)
  : option string :=
  match selectors with
  | [] => None
  | sel :: rest =>
      match firstText doc st sel with
      | Some text =>
          if negb (String.eqb text "") && (len text <? 200)%Z then Some text
          else titleByFallback doc st rest
      | None => titleByFallback doc st rest
      end
  end.

(** ** The selector strategy

    [without sel n]: the tree [n], taken as a tree of its own the way a
    clone is, without the elements below its root that [sel] matches. *)
Definition without (sel : string) (n : Node) : Node :=
  prune (matchesBelow n sel []) [] n.

(** The selectors whose matches the strategy removes from the clone, in
    the order it removes them. *)
Definition cleanup (excludes : list string) (cleanScripts : bool) : list string :=
  (excludes ++ if cleanScripts then ["script, style, noscript"] else [])%list.

Definition cleaned (sels : list string) (n : Node) : Node :=
  fold_left (fun m sel => without sel m) sels n.

(** ** The density strategy

    What the traversal reads of one element, when the element is a
    candidate: the length of its trimmed text, the length of its inner
    markup and the number of [p] elements below it.  A candidate has a
    prose-bearing tag, no boilerplate word in its class and id, a text of
    at least [minSize] bytes and a markup that is not empty. *)
Definition measure (st : Store) (minSize : Z) (node : Ref) : option (nat * nat * nat) :=
  let s := [node] in
  if existsb (String.eqb (fst (NodeName s st))) TextDensityStrategy.contentTags then
    let combined :=
      strings.ToLower (fst (fst (Attr s "class" st)) ++ " " ++ fst (fst (Attr s "id" st))) in
    if existsb (fun pattern => strings.Contains combined pattern)
               TextDensityStrategy.skipPatterns
    then None
    else
      let text := strings.TrimSpace (fst (Text s st)) in
      if (len text <? minSize)%Z then None
      else
        match fst (Html s st) with
        | Ok (String c h) =>
            Some (String.length text, String.length (String c h),
                  Length (fst (Find s "p" st)))
        | _ => None
        end
  else None.

(** A candidate can win with [score]: that is its score, its density
    reaches [minDensity], and the score is above the initial best score 0. *)
Definition eligible (st : Store) (minDensity : float) (minSize : Z) (node : Ref)
           (score : float) : Prop :=
  exists textLen htmlLen paragraphs : nat,
    measure st minSize node = Some (textLen, htmlLen, paragraphs)
    /\ score = TextDensityStrategy.scoreOf textLen htmlLen paragraphs
    /\ (minDensity <=? TextDensityStrategy.density textLen htmlLen)%float = true
    /\ (0 <? score)%float = true.

(** [winner st minDensity minSize all w score]: among the elements [all],
    listed in the order of the traversal, [w] is the one the traversal
    keeps, with [score]: it can win, no element of [all] that can win has a
    score above [score], and none before [w] has a score that reaches it. *)
Definition winner (st : Store) (minDensity : float) (minSize : Z) (all : list Ref)
           (w : Ref) (score : float) : Prop :=
  exists pre post : list Ref,
    all = (pre ++ w :: post)%list
    /\ eligible st minDensity minSize w score
    /\ (forall c sc, In c pre -> eligible st minDensity minSize c sc ->
                     (score <=? sc)%float = false)
    /\ (forall c sc, In c all -> eligible st minDensity minSize c sc ->
                     (score <? sc)%float = false).

(** The pair [(bestNode, bestScore)] after the traversal has visited
    [seen]. *)
Definition bestAfter (st : Store) (minDensity : float) (minSize : Z) (seen : list Ref)
           (best : option Ref * float) : Prop :=
  match fst best with
  | Some w => winner st minDensity minSize seen w (snd best)
  | None =>
      snd best = 0%float
      /\ forall c sc, In c seen -> ~ eligible st minDensity minSize c sc
  end.

(** [x] multiplied by [factor] when [condition] holds. *)
Definition boosted (condition : bool) (factor x : float) : float :=
  if condition then (x * factor)%float else x.

End WithCollaborators.


(** ** The heap across a call

    [preserved st st']: every tree of the heap [st] is in [st'], where it
    was and as it was; [st'] may hold more trees. *)
Definition preserved (st st' : Store) : Prop :=
  forall (i : nat) (t : Node), nth_error st i = Some t -> nth_error st' i = Some t.


(** ** Configurations

    What [ValidateConfig] asks of the navigation section, *)
Definition navigationComplete (nav : config.NavigationConfig) : Prop :=
  (config.Method nav = "url_pattern"
   /\ config.URLPattern nav <> ""
   /\ (config.NumberStart nav <= config.NumberEnd nav)%Z)
  \/ (config.Method nav = "next_link" /\ config.NextLinkSelector nav <> "")
  \/ (config.Method nav = "toc"
      /\ config.TOCUrl nav <> "" /\ config.TOCLinkSelector nav <> "").

(** of the content detection section, *)
Definition detectionComplete (cd : config.ContentDetectionConfig) : Prop :=
  In (config.Strategy cd)
     ["css_selector"; "text_density"; "xpath_regex"; "dom_position"; "hybrid"]
  /\ (config.Strategy cd = "css_selector" -> config.CSSSelector cd <> "")
  /\ (config.Strategy cd = "xpath_regex" -> config.RegexPatterns cd <> []).

(** and of the whole configuration. *)
Definition complete (cfg : config.Config) : Prop :=
  config.Title (config.Book cfg) <> ""
  /\ config.Author (config.Book cfg) <> ""
  /\ (config.StartURL (config.Scraping cfg) = ""
      -> config.Method (config.Navigation cfg) = "toc")
  /\ navigationComplete (config.Navigation cfg)
  /\ detectionComplete (config.ContentDetection cfg)
  /\ (config.Format (config.Output cfg) = "epub"
      \/ config.Format (config.Output cfg) = "pdf")
  /\ (0 <= config.DelayMS (config.Polite (config.Scraping cfg)))%Z.

End Spec.

(* ===================================================================== *)
(** * Vocabulary for the sanitizers *)
(* ===================================================================== *)

Module Markup.
Import strings Simple.

(** The byte with code [n] occurs in [s]. *)
Fixpoint occurs (n : nat) (s : string) : bool :=
  match s with
  | EmptyString => false
  | String c r => (code c =? n) || occurs n r
  end.


(** Every match of [r] contains the byte with code [n]. *)
Fixpoint requires (n : nat) (r : regex) : bool :=
  match r with
  | Eps => false
  | Chars cs =>
      negb (negated cs) && negb (folded cs)
      && forallb (fun range => (fst range =? n) && (snd range =? n)) (ranges cs)
  | Cat a b => requires n a || requires n b
  | Alt a b => requires n a && requires n b
  | Rep min _ _ a => (1 <=? min) && requires n a
  | Group _ a => requires n a
  end.


(** The pattern is [set] repeated [min] times or more, greedily: the
    shape of the two white-space patterns. *)
Definition isRunPattern (pattern : string) (set : charset) (min : nat) : Prop :=
  Simple.Compile pattern
  = Some {| prog := Rep min None true (Chars set); numSubexp := 0 |}.

Fixpoint allIn (f : ascii -> bool) (s : string) : bool :=
  match s with
  | EmptyString => true
  | String c r => f c && allIn f r
  end.

(** [s] is empty or starts with a byte outside [f]. *)
Definition startsOutside (f : ascii -> bool) (s : string) : bool :=
  match s with
  | EmptyString => true
  | String c _ => negb (f c)
  end.

(** [Collapsed f min repl s t]: [t] is [s] with every maximal run of bytes
    of [f] that has [min] bytes or more replaced by [repl]. *)
Inductive Collapsed (f : ascii -> bool) (min : nat) (repl : string)
  : string -> string -> Prop :=
| Collapsed_end : Collapsed f min repl EmptyString EmptyString
| Collapsed_byte : forall c s t,
    f c = false ->
    Collapsed f min repl s t ->
    Collapsed f min repl (String c s) (String c t)
| Collapsed_run : forall run rest t,
    run <> EmptyString ->
    allIn f run = true ->
    startsOutside f rest = true ->
    Collapsed f min repl rest t ->
    Collapsed f min repl (run ++ rest)
              ((if min <=? String.length run then repl else run) ++ t).

(** A run that a pass leaves as it is: shorter than [min], or [repl]. *)
Definition okRun (min : nat) (repl run : string) : bool :=
  (String.length run <? min) || String.eqb run repl.

(** At every position of [s], the run of bytes of [f] that starts there is
    one a pass leaves as it is. *)
Fixpoint settled (f : ascii -> bool) (min : nat) (repl : string) (s : string) : bool :=
  match s with
  | EmptyString => true
  | String c r => okRun min repl (fst (span f s)) && settled f min repl r
  end.

(** The rest of [s] after one white-space rune at its head, if one is
    there; [stepSpaceRev] reads the rune backwards. *)
Definition stepSpace (s : string) : option string :=
  match s with
  | EmptyString => None
  | String c r =>
      if isASCIISpace c then Some r
      else
        match r with
        | String d r1 =>
            if isSpace2 c d then Some r1
            else
              match r1 with
              | String e r2 => if isSpace3 c d e then Some r2 else None
              | EmptyString => None
              end
        | EmptyString => None
        end
  end.

Definition stepSpaceRev (s : string) : option string :=
  match s with
  | EmptyString => None
  | String c r =>
      if isASCIISpace c then Some r
      else
        match r with
        | String d r1 =>
            if isSpace2 d c then Some r1
            else
              match r1 with
              | String e r2 => if isSpace3 e d c then Some r2 else None
              | EmptyString => None
              end
        | EmptyString => None
        end
  end.


(** The byte sets of the two white-space patterns: [\n] and [[ \t]]. *)
Definition newlineSet : charset :=
  {| negated := false; folded := false; ranges := [(10, 10)] |}.

Definition blankSet : charset :=
  {| negated := false; folded := false; ranges := [(32, 32); (9, 9)] |}.

(** Two line feeds, the replacement of a run of three or more. *)
Definition twoNewlines : string := LF ++ LF.



(** Three line feeds in a row; two spaces in a row. *)
Definition threeNewlines : string := LF ++ LF ++ LF.
Definition twoSpaces : string := "  ".

End Markup.

(* ===================================================================== *)
(** * Concrete documents and configurations *)
(* ===================================================================== *)

Module Examples.
Import goquery extractor.

Definition element (tag : string) (cs : list Node) : Node := ElementNode tag [] cs.

Definition elementWithClass (tag class : string) (cs : list Node) : Node :=
  ElementNode tag [ {| Namespace := ""; Key := "class"; Val := class |} ] cs.

(** 119 bytes of prose. *)
Definition prose : string :=
  "It was a bright cold day in April, and the clocks were striking thirteen; "
  ++ "the hallway smelt of boiled cabbage and rugs.".

(** [<html><head><title>One</title></head><body><p>Hello</p></body></html>] *)
Definition shortPage : Node :=
  DocumentNode
    [ element "html"
        [ element "head" [ element "title" [ TextNode "One" ] ];
          element "body" [ element "p" [ TextNode "Hello" ] ] ] ].

(** A strategy that always fails, and one that always returns [content];
    neither touches the heap. *)
Definition failing (name : string) (err : error) : DetectionStrategy :=
  {| Extract := fun _ _ => ret (Err err); Name := name |}.

Definition returning (name content : string) : DetectionStrategy :=
  {| Extract := fun _ _ => ret (Ok content); Name := name |}.

(** The selector strategy on [p], as [buildStrategy] makes it for
    [strategy: css_selector]. *)
Definition paragraphSelector : DetectionStrategy :=
  @CSSSelectorStrategy.strategy Simple.collaborators
    {| CSSSelectorStrategy.Selector := "p"; CSSSelectorStrategy.ExcludeSelectors := [] |}.

Definition titleSelector : DetectionStrategy :=
  @CSSSelectorStrategy.strategy Simple.collaborators
    {| CSSSelectorStrategy.Selector := "title"; CSSSelectorStrategy.ExcludeSelectors := [] |}.

(** [<html><head></head><body><nav>Home</nav><article><p>] prose
    [</p></article></body></html>] *)
Definition prosePage : Node :=
  DocumentNode
    [ element "html"
        [ element "head" [];
          element "body"
            [ element "nav" [ TextNode "Home" ];
              element "article" [ element "p" [ TextNode prose ] ] ] ] ].

(** The sub-strategies of the hybrid strategy for the selector
    [article.content], as [buildStrategy] lists them for [strategy: hybrid]. *)
Definition contentSelector : DetectionStrategy :=
  @CSSSelectorStrategy.strategy Simple.collaborators
    {| CSSSelectorStrategy.Selector := "article.content";
       CSSSelectorStrategy.ExcludeSelectors := [] |}.

Definition density : DetectionStrategy :=
  @TextDensityStrategy.strategy Simple.collaborators
    {| TextDensityStrategy.MinDensityScore := 0; TextDensityStrategy.MinBlockSize := 0 |}.

Definition structural : DetectionStrategy :=
  @DOMPositionStrategy.strategy Simple.collaborators
    {| DOMPositionStrategy.MaxDepth := 0; DOMPositionStrategy.MinWidth := 0 |}.

(** [<html><head><title>Site</title></head><body>
     <h1 class="chapter-title"> Chapter One </h1>
     <div id="story"> Once upon a time </div><p>Later</p></body></html>],
    without the line breaks. *)
Definition storyPage : Node :=
  DocumentNode
    [ element "html"
        [ element "head" [ element "title" [ TextNode "Site" ] ];
          element "body"
            [ elementWithClass "h1" "chapter-title" [ TextNode " Chapter One " ];
              ElementNode "div" [ {| Namespace := ""; Key := "id"; Val := "story" |} ]
                          [ TextNode " Once upon a time " ];
              element "p" [ TextNode "Later" ] ] ] ].

Definition storyMarkup : string :=
  "<html><head><title>Site</title></head><body><h1 class="
    ++ strings.dq ++ "chapter-title" ++ strings.dq ++ "> Chapter One </h1><div id="
    ++ strings.dq ++ "story" ++ strings.dq
    ++ "> Once upon a time </div><p>Later</p></body></html>".

(** Scenario D of the specification, after a pattern that does not compile. *)
Definition storyPattern : string :=
  "<div id=" ++ strings.dq ++ "story" ++ strings.dq ++ ">(.*?)</div>".

Definition storyPatterns : XPathRegexStrategy.t :=
  {| XPathRegexStrategy.Patterns := [ "("; storyPattern; "<p>(.*?)</p>" ] |}.

(** A page without headings or title: [<html><head></head><body></body></html>]. *)
Definition barePage : Node :=
  DocumentNode [ element "html" [ element "head" []; element "body" [] ] ].

(** The compiled pattern of [stripHTMLTags]. *)
Definition tagPattern : Simple.Regexp :=
  Eval vm_compute in
    match Simple.Compile "<[^>]*>" with
    | Some re => re
    | None => {| Simple.prog := Simple.Eps; Simple.numSubexp := 0 |}
    end.

(** [<html><head></head><body><div>] prose [<script>track()</script></div>
    </body></html>]: the prose and a script share one block. *)
Definition scriptedPage : Node :=
  DocumentNode
    [ element "html"
        [ element "head" [];
          element "body"
            [ element "div"
                [ TextNode prose; element "script" [ TextNode "track()" ] ] ] ] ].

Definition scriptedMarkup : string :=
  "<html><head></head><body><div>" ++ prose ++ "<script>track()</script></div></body></html>".

Definition scriptlessMarkup : string :=
  "<html><head></head><body><div>" ++ prose ++ "</div></body></html>".

(** [<html><head></head><body><article class="content"><h2>One</h2>
     <div class="ad">Buy</div><p>First</p><script>x()</script></article>
     <article class="content"><p>Second</p></article></body></html>] *)
Definition firstArticle : Node :=
  elementWithClass "article" "content"
    [ element "h2" [ TextNode "One" ];
      elementWithClass "div" "ad" [ TextNode "Buy" ];
      element "p" [ TextNode "First" ];
      element "script" [ TextNode "x()" ] ].

Definition twoArticles : Node :=
  DocumentNode
    [ element "html"
        [ element "head" [];
          element "body"
            [ firstArticle;
              elementWithClass "article" "content"
                [ element "p" [ TextNode "Second" ] ] ] ] ].

Definition articleSelector : CSSSelectorStrategy.t :=
  {| CSSSelectorStrategy.Selector := "article.content";
     CSSSelectorStrategy.ExcludeSelectors := [".ad"] |}.

(** [<html><head></head><body><div>] prose [<b>!</b></div><p>] prose
    [</p><p>] prose [</p></body></html>]: the two paragraphs have the same
    score, above that of the block before them. *)
Definition tiePage : Node :=
  DocumentNode
    [ element "html"
        [ element "head" [];
          element "body"
            [ element "div" [ TextNode prose; element "b" [ TextNode "!" ] ];
              element "p" [ TextNode prose ];
              element "p" [ TextNode prose ] ] ] ].


(** A configuration for a table of contents, with no start URL and no
    limit on concurrency given. *)
Definition tocConfig : config.Config :=
  {| config.Book :=
       {| config.Title := "Tales"; config.Author := "A. Writer";
          config.Description := ""; config.Cover := "" |};
     config.Scraping :=
       {| config.StartURL := "";
          config.Polite :=
            {| config.DelayMS := 0; config.MaxConcurrent := 0;
               config.RespectRobotsTxt := true |};
          config.UserAgent := ""; config.Timeout := 30 |};
     config.Navigation :=
       {| config.Method := "toc"; config.URLPattern := ""; config.NumberStart := 1;
          config.NumberEnd := 0; config.NextLinkSelector := "";
          config.TOCUrl := "https://example.org/toc";
          config.TOCLinkSelector := "a.chapter"; config.MaxChapters := 0 |};
     config.ContentDetection :=
       {| config.Strategy := "hybrid"; config.CSSSelector := "article.content";
          config.ExcludeSelectors := [".ad"];
          config.TextDensity :=
            {| config.MinDensityScore := 0.3; config.MinBlockSize := 100 |};
          config.XPathPatterns := []; config.RegexPatterns := [];
          config.DOMPosition := {| config.MaxDepth := 10; config.MinWidth := 300 |} |};
     config.ChapterExtract :=
       {| config.TitleSelector := ""; config.TitleRegex := ""; config.TitleXPath := "" |};
     config.Output :=
       {| config.Format := "epub"; config.OutputPath := "./books";
          config.EPUBMetadata :=
            {| config.Lang := "en"; config.Rights := ""; config.Publisher := "";
               config.Identifier := "" |} |} |}.

End Examples.

(* ===================================================================== *)
(** * Theorems *)
(* ===================================================================== *)

Import goquery extractor Spec.

(** ** The orchestrator (claims C1 and C4) *)

Lemma appendWarning_Warnings (r : ExtractionResult) (w : string) :
  Warnings (ContentExtractor.appendWarning r w) = (Warnings r ++ [w])%list.
Proof. reflexivity. Qed.

(** Strategies that are all rejected leave the result empty: the loop ends
    with the warnings of the run and the last error, if there was one. *)
Lemma tryStrategies_rejected (doc : Document) (o : ExtractionOptions)
      (l : list DetectionStrategy) (st st' : Store) (warnings : list string)
      (lastErr : option error) :
  Rejected doc o l st warnings lastErr st' ->
  forall (result : ExtractionResult) (before : option error),
    ContentExtractor.tryStrategies (Some o) doc l result before st
    = (Returned ({| Content := Content result; Title := Title result;
                    StrategyUsed := StrategyUsed result;
                    Warnings := (Warnings result ++ warnings)%list |},
                 match lastErr with Some e => Some e | None => before end), st').
Proof.
  induction 1 as [st | s l st st1 st2 err warnings lastErr Hs _ IH
                  | s l st st1 st2 content warnings lastErr Hs Hshort _ IH];
    intros result before.
  - cbn. rewrite app_nil_r. destruct result, before; reflexivity.
  - cbn. unfold bind. rewrite Hs. rewrite IH. cbn.
    rewrite <- app_assoc. destruct lastErr; reflexivity.
  - cbn. unfold bind. rewrite Hs.
    apply Z.ltb_lt in Hshort. rewrite Hshort. rewrite IH. cbn.
    rewrite <- app_assoc. reflexivity.
Qed.

(** After rejected strategies, the first strategy whose content is long
    enough is the one returned, whatever follows it in the list. *)
Lemma tryStrategies_accepts (doc : Document) (o : ExtractionOptions)
      (pre post : list DetectionStrategy) (s : DetectionStrategy)
      (st st1 st2 : Store) (warnings : list string) (lastErr : option error)
      (content : string) :
  Rejected doc o pre st warnings lastErr st1 ->
  Extract s doc (Some o) st1 = (Ok content, st2) ->
  (MinContentLength o <= len content)%Z ->
  forall (result : ExtractionResult) (before : option error),
    ContentExtractor.tryStrategies (Some o) doc (pre ++ s :: post) result before st
    = (Returned ({| Content := content; Title := Title result;
                    StrategyUsed := Name s;
                    Warnings := (Warnings result ++ warnings)%list |}, None), st2).
Proof.
  intros Hrej Hs Hlong.
  induction Hrej as [st | s0 l st st1 st2' err warnings lastErr Hs0 _ IH
                     | s0 l st st1 st2' c0 warnings lastErr Hs0 Hshort _ IH];
    intros result before.
  - cbn. unfold bind. rewrite Hs.
    apply Z.ltb_ge in Hlong. rewrite Hlong. rewrite app_nil_r. reflexivity.
  - cbn. unfold bind. rewrite Hs0. rewrite (IH Hs). cbn.
    rewrite <- app_assoc. reflexivity.
  - cbn. unfold bind. rewrite Hs0.
    apply Z.ltb_lt in Hshort. rewrite Hshort. rewrite (IH Hs). cbn.
    rewrite <- app_assoc. reflexivity.
Qed.

(** Exhaustion after at least one error is a failure that carries the last
    error and every warning. *)
Lemma Extract_exhausted_with_error (ce : ContentExtractor.t) (o : ExtractionOptions)
      (doc : Document) (st st' : Store) (warnings : list string) (err : error) :
  ContentExtractor.options ce = Some o ->
  Rejected doc o (ContentExtractor.strategies ce) st warnings (Some err) st' ->
  ContentExtractor.Extract ce doc st
  = (Returned ({| Content := ""; Title := ""; StrategyUsed := "";
                  Warnings := warnings |}, Some err), st').
Proof.
  intros Ho Hrej. unfold ContentExtractor.Extract. rewrite Ho.
  rewrite (tryStrategies_rejected _ _ _ _ _ _ _ Hrej). reflexivity.
Qed.

(** Exhaustion without any error -- every strategy returned content, all of
    it too short, or the list is empty -- is returned as a success whose
    content is empty. *)
Lemma Extract_exhausted_without_error (ce : ContentExtractor.t) (o : ExtractionOptions)
      (doc : Document) (st st' : Store) (warnings : list string) :
  ContentExtractor.options ce = Some o ->
  Rejected doc o (ContentExtractor.strategies ce) st warnings None st' ->
  ContentExtractor.Extract ce doc st
  = (Returned ({| Content := ""; Title := ""; StrategyUsed := "";
                  Warnings := warnings |}, None), st').
Proof.
  intros Ho Hrej. unfold ContentExtractor.Extract. rewrite Ho.
  rewrite (tryStrategies_rejected _ _ _ _ _ _ _ Hrej). reflexivity.
Qed.

(** Content that the orchestrator accepts is never shorter than the
    minimum, and comes with the warnings of the strategies before it. *)
Lemma Extract_accepted_is_long (ce : ContentExtractor.t) (o : ExtractionOptions)
      (pre post : list DetectionStrategy) (s : DetectionStrategy)
      (doc : Document) (st st1 st2 : Store) (warnings : list string)
      (lastErr : option error) (content : string) :
  ContentExtractor.options ce = Some o ->
  ContentExtractor.strategies ce = (pre ++ s :: post)%list ->
  Rejected doc o pre st warnings lastErr st1 ->
  Extract s doc (Some o) st1 = (Ok content, st2) ->
  (MinContentLength o <= len content)%Z ->
  ContentExtractor.Extract ce doc st
  = (Returned ({| Content := content; Title := ""; StrategyUsed := Name s;
                  Warnings := warnings |}, None), st2).
Proof.
  intros Ho Hl Hrej Hs Hlong. unfold ContentExtractor.Extract. rewrite Ho, Hl.
  rewrite (tryStrategies_accepts _ _ _ _ _ _ _ _ _ _ _ Hrej Hs Hlong). reflexivity.
Qed.

(** C1 (the code departs from the claim).  The selector strategy for [p],
    run by an orchestrator with the default options on a page whose only
    paragraph is [Hello]: the strategy returns five bytes, the orchestrator
    records the warning, has no strategy left, and returns the empty result
    with a nil error -- a success without accepted content, where the claim
    promises a failure. *)
Theorem orchestrator_exhausted_returns_nil_error :
  ContentExtractor.Extract
    (ContentExtractor.New [Examples.paragraphSelector] None) 0 [Examples.shortPage]
  = (Returned ({| Content := ""; Title := ""; StrategyUsed := "";
                  Warnings := ["Strategy 'css_selector' returned content too short"] |},
               None),
     [Examples.shortPage; Examples.element "p" [TextNode "Hello"]]).
Proof. vm_compute. reflexivity. Qed.

(** C4 (the code departs from the claim).  Two strategies that return
    three and five bytes, minimum length 100: both are recorded as too
    short, and the call still ends with a nil error; the content of that
    successful result has length 0, below the minimum. *)
Theorem orchestrator_success_below_minimum :
  exists (r : ExtractionResult) (st' : Store),
    ContentExtractor.Extract
      (ContentExtractor.New [Examples.titleSelector; Examples.paragraphSelector]
                            (Some DefaultExtractionOptions))
      0 [Examples.shortPage]
    = (Returned (r, None), st')
    /\ Warnings r = [ "Strategy 'css_selector' returned content too short";
                      "Strategy 'css_selector' returned content too short" ]
    /\ (len (Content r) < MinContentLength DefaultExtractionOptions)%Z.
Proof.
  eexists. eexists. split; [vm_compute; reflexivity|].
  split; [reflexivity | vm_compute; reflexivity].
Qed.

(** ** The hybrid strategy (claim C5) *)

Lemma hybrid_tryStrategies_declined (doc : Document) (opts : option ExtractionOptions)
      (l : list DetectionStrategy) (st st' : Store) (errors : list string) :
  Declined doc opts l st errors st' ->
  forall before : list string,
    HybridStrategy.tryStrategies doc opts l before st
    = (Err ("all hybrid strategies failed: "
              ++ strings.Join (before ++ errors)%list "; "), st').
Proof.
  induction 1 as [st | s l st st1 st2 err errors Hs _ IH
                  | s l st st1 st2 errors Hs _ IH]; intros before.
  - cbn. rewrite app_nil_r. reflexivity.
  - cbn. unfold bind. rewrite Hs. rewrite IH. rewrite <- app_assoc. reflexivity.
  - cbn. unfold bind. rewrite Hs. cbn. apply IH.
Qed.

Lemma hybrid_tryStrategies_first (doc : Document) (opts : option ExtractionOptions)
      (pre post : list DetectionStrategy) (s : DetectionStrategy)
      (st st1 st2 : Store) (errors : list string) (content : string) :
  Declined doc opts pre st errors st1 ->
  Extract s doc opts st1 = (Ok content, st2) ->
  content <> "" ->
  forall before : list string,
    HybridStrategy.tryStrategies doc opts (pre ++ s :: post) before st
    = (Ok content, st2).
Proof.
  intros Hdec Hs Hne.
  induction Hdec as [st | s0 l st st1 st2' err errors Hs0 _ IH
                     | s0 l st st1 st2' errors Hs0 _ IH]; intros before.
  - cbn. unfold bind. rewrite Hs.
    destruct content as [|c content]; [congruence|]. reflexivity.
  - cbn. unfold bind. rewrite Hs0. apply IH, Hs.
  - cbn. unfold bind. rewrite Hs0. cbn. apply IH, Hs.
Qed.

(** C5.  The hybrid strategy runs its sub-strategies in list order, each on
    the heap the previous one left.  The first one that returns non-empty
    content decides: its content is the result, whatever the strategies
    after it would return.  When every sub-strategy of a non-empty list
    fails or returns nothing, the result is the aggregated error, which
    lists ["name: message"] of each failed sub-strategy in order, joined by
    ["; "]. *)
Theorem hybrid_returns_first_success (doc : Document) (opts : option ExtractionOptions) :
  (forall (pre post : list DetectionStrategy) (s : DetectionStrategy)
          (st st1 st2 : Store) (errors : list string) (content : string),
      Declined doc opts pre st errors st1 ->
      Extract s doc opts st1 = (Ok content, st2) ->
      content <> "" ->
      HybridStrategy.Extract {| HybridStrategy.Strategies := (pre ++ s :: post)%list |} doc opts st
      = (Ok content, st2))
  /\
  (forall (l : list DetectionStrategy) (st st' : Store) (errors : list string),
      l <> [] ->
      Declined doc opts l st errors st' ->
      HybridStrategy.Extract {| HybridStrategy.Strategies := l |} doc opts st
      = (Err ("all hybrid strategies failed: " ++ strings.Join errors "; "), st')).
Proof.
  split.
  - intros pre post s st st1 st2 errors content Hdec Hs Hne.
    unfold HybridStrategy.Extract. cbn [HybridStrategy.Strategies].
    replace (List.length (pre ++ s :: post) =? 0) with false
      by (symmetry; apply Nat.eqb_neq; rewrite length_app; cbn; lia).
    eapply hybrid_tryStrategies_first; eauto.
  - intros l st st' errors Hl Hdec.
    unfold HybridStrategy.Extract. cbn [HybridStrategy.Strategies].
    destruct l as [|s l]; [congruence|]. cbn [List.length Nat.eqb].
    apply (hybrid_tryStrategies_declined doc opts (s :: l) st st' errors Hdec []).
Qed.

(** Scenario B of the specification: the selector [article.content] matches
    nothing, the density strategy succeeds, and the structural strategy
    after it is not consulted. *)
Lemma hybrid_returns_first_success_witness :
  HybridStrategy.Extract
    {| HybridStrategy.Strategies :=
         [Examples.contentSelector; Examples.density; Examples.structural] |}
    0 (Some DefaultExtractionOptions) [Examples.prosePage]
  = (Ok Examples.prose, [Examples.prosePage])
  /\
  HybridStrategy.Extract
    {| HybridStrategy.Strategies :=
         [Examples.contentSelector; Examples.failing "second" "nothing here"] |}
    0 (Some DefaultExtractionOptions) [Examples.prosePage]
  = (Err ("all hybrid strategies failed: "
            ++ "css_selector: selector 'article.content' matched no elements; "
            ++ "second: nothing here"),
     [Examples.prosePage]).
Proof.
  split.
  - apply (proj1 (hybrid_returns_first_success 0 (Some DefaultExtractionOptions))
                 [Examples.contentSelector] [Examples.structural] Examples.density
                 [Examples.prosePage] [Examples.prosePage] [Examples.prosePage]
                 ["css_selector: selector 'article.content' matched no elements"]
                 Examples.prose).
    + apply (Declined_error 0 (Some DefaultExtractionOptions) Examples.contentSelector []
               [Examples.prosePage] [Examples.prosePage] [Examples.prosePage]
               "selector 'article.content' matched no elements" []).
      * vm_compute. reflexivity.
      * constructor.
    + vm_compute. reflexivity.
    + discriminate.
  - apply (proj2 (hybrid_returns_first_success 0 (Some DefaultExtractionOptions))
                 [Examples.contentSelector; Examples.failing "second" "nothing here"]
                 [Examples.prosePage] [Examples.prosePage]
                 [ "css_selector: selector 'article.content' matched no elements";
                   "second: nothing here" ]).
    + discriminate.
    + apply (Declined_error 0 (Some DefaultExtractionOptions) Examples.contentSelector
               [Examples.failing "second" "nothing here"]
               [Examples.prosePage] [Examples.prosePage] [Examples.prosePage]
               "selector 'article.content' matched no elements" ["second: nothing here"]).
      * vm_compute. reflexivity.
      * apply (Declined_error 0 (Some DefaultExtractionOptions)
                 (Examples.failing "second" "nothing here") []
                 [Examples.prosePage] [Examples.prosePage] [Examples.prosePage]
                 "nothing here" []).
        -- reflexivity.
        -- constructor.
Defined.

(** ** The pattern strategy (claim C8) *)

Section PatternStrategy.
Context `{Collaborators}.

Lemma tryPatterns_skips (fullHTML pattern : string) (rest : list string) :
  capture fullHTML pattern = None ->
  XPathRegexStrategy.tryPatterns fullHTML (pattern :: rest)
  = XPathRegexStrategy.tryPatterns fullHTML rest.
Proof.
  unfold capture. cbn [XPathRegexStrategy.tryPatterns].
  destruct (Compile ("(?is)" ++ pattern)) as [re|]; [|reflexivity].
  destruct (FindStringSubmatch re fullHTML) as [|whole [|group1 more]];
    [reflexivity | reflexivity |].
  cbn [List.length nth Nat.ltb Nat.leb].
  destruct (strings.TrimSpace group1) as [|c t]; [reflexivity | discriminate].
Qed.

Lemma tryPatterns_takes (fullHTML pattern content : string) (rest : list string) :
  capture fullHTML pattern = Some content ->
  XPathRegexStrategy.tryPatterns fullHTML (pattern :: rest) = Ok content.
Proof.
  unfold capture. cbn [XPathRegexStrategy.tryPatterns].
  destruct (Compile ("(?is)" ++ pattern)) as [re|]; [|discriminate].
  destruct (FindStringSubmatch re fullHTML) as [|whole [|group1 more]];
    [discriminate | discriminate |].
  cbn [List.length nth Nat.ltb Nat.leb].
  destruct (strings.TrimSpace group1) as [|c t]; [discriminate|].
  intros [= <-]. reflexivity.
Qed.

Lemma tryPatterns_none (fullHTML : string) (patterns : list string) :
  Forall (fun q => capture fullHTML q = None) patterns ->
  XPathRegexStrategy.tryPatterns fullHTML patterns = Err "no regex patterns matched".
Proof.
  induction 1 as [|q l Hq _ IH]; [reflexivity|].
  rewrite (tryPatterns_skips _ _ _ Hq). exact IH.
Qed.

Lemma tryPatterns_first (fullHTML : string) (pre post : list string)
      (pattern content : string) :
  Forall (fun q => capture fullHTML q = None) pre ->
  capture fullHTML pattern = Some content ->
  XPathRegexStrategy.tryPatterns fullHTML (pre ++ pattern :: post) = Ok content.
Proof.
  induction 1 as [|q l Hq _ IH]; intros Hp.
  - apply tryPatterns_takes, Hp.
  - cbn [app]. rewrite (tryPatterns_skips _ _ _ Hq). apply IH, Hp.
Qed.

Lemma tryPatterns_error_none (fullHTML : string) (patterns : list string) (e : error) :
  XPathRegexStrategy.tryPatterns fullHTML patterns = Err e ->
  Forall (fun q => capture fullHTML q = None) patterns.
Proof.
  induction patterns as [|q l IH]; intros He; [constructor|].
  destruct (capture fullHTML q) as [c|] eqn:Hq.
  - rewrite (tryPatterns_takes _ _ _ _ Hq) in He. discriminate.
  - constructor; [exact Hq|]. apply IH.
    rewrite (tryPatterns_skips _ _ _ Hq) in He. exact He.
Qed.

(** C8.  With a non-empty pattern list and a document whose markup is
    [fullHTML] (the whole document, serialized once, before the loop):
    - the result is the capture of the first pattern that has one -- the
      trimmed first group of its match under the flags i and s -- whatever
      the patterns after it would capture;
    - a pattern that does not compile has no capture and is passed over;
    - the strategy fails, with the no-match error, exactly when no pattern
      has a capture.
    The document is left as it was. *)
Theorem pattern_strategy_first_capture (s : XPathRegexStrategy.t) (doc : Document)
        (opts : option ExtractionOptions) (st : Store) (fullHTML : string) :
  XPathRegexStrategy.Patterns s <> [] ->
  fst (Html (docSelection doc) st) = Ok fullHTML ->
  (forall (pre post : list string) (pattern content : string),
      XPathRegexStrategy.Patterns s = (pre ++ pattern :: post)%list ->
      Forall (fun q => capture fullHTML q = None) pre ->
      capture fullHTML pattern = Some content ->
      XPathRegexStrategy.Extract s doc opts st = (Ok content, st))
  /\ (forall pattern : string,
         Compile ("(?is)" ++ pattern) = None -> capture fullHTML pattern = None)
  /\ (Forall (fun q => capture fullHTML q = None) (XPathRegexStrategy.Patterns s)
      <-> XPathRegexStrategy.Extract s doc opts st
          = (Err "no regex patterns matched", st)).
Proof.
  intros Hne Hhtml.
  assert (Hrun : XPathRegexStrategy.Extract s doc opts st
                 = (XPathRegexStrategy.tryPatterns fullHTML (XPathRegexStrategy.Patterns s), st)).
  { unfold XPathRegexStrategy.Extract.
    destruct (XPathRegexStrategy.Patterns s) as [|p l]; [congruence|].
    cbn [List.length Nat.eqb]. unfold bind, Html, gets in *. cbn [fst] in Hhtml.
    rewrite Hhtml. reflexivity. }
  split; [|split].
  - intros pre post pattern content Hl Hpre Hp.
    rewrite Hrun, Hl, (tryPatterns_first _ _ _ _ _ Hpre Hp). reflexivity.
  - intros pattern Hc. unfold capture. rewrite Hc. reflexivity.
  - rewrite Hrun. split.
    + intros Hall. rewrite (tryPatterns_none _ _ Hall). reflexivity.
    + intros [= He]. eapply tryPatterns_error_none, He.
Qed.

End PatternStrategy.

(** ** The title resolver (claims C9 and C10) *)

Section TitleResolver.
Context `{Collaborators}.

Lemma tryFallbacks_spec (doc : Document) (st : Store) (selectors : list string) :
  tryFallbacks doc selectors st
  = (match titleByFallback doc st selectors with
     | Some text => text
     | None => ""
     end, st).
Proof.
  induction selectors as [|sel rest IH]; [reflexivity|].
  cbn [tryFallbacks titleByFallback]. unfold firstText, bind, Find, Text, gets.
  cbn [fst].
  destruct (dedup [] _) as [|r found]; cbn [First Length List.length Nat.ltb Nat.leb].
  - exact IH.
  - cbn [map String.concat].
    destruct (negb _ && _); [reflexivity | exact IH].
Qed.

Lemma titleFromRegexOrFallback_spec (tagRe : Regexp) (doc : Document) (st : Store)
      (regexPattern : string) :
  Compile "<[^>]*>" = Some tagRe ->
  titleFromRegexOrFallback doc regexPattern st
  = (match titleByRegex tagRe doc st regexPattern with
     | Panic => Panic
     | Returned (Some text) => Returned text
     | Returned None =>
         Returned (match titleByFallback doc st fallbackSelectors with
                   | Some text => text
                   | None => ""
                   end)
     end, st).
Proof.
  intros Htag. unfold titleFromRegexOrFallback, titleByRegex.
  destruct (String.eqb regexPattern ""); cbn [negb].
  - unfold bind. rewrite tryFallbacks_spec. reflexivity.
  - unfold bind at 1. unfold Html at 1, gets at 1. cbn [fst].
    unfold Html, gets. cbn [fst].
    destruct (Compile ("(?i)" ++ regexPattern)) as [re|]; [|reflexivity].
    match goal with |- context [FindStringSubmatch re ?h] =>
      destruct (FindStringSubmatch re h) as [|whole [|group1 more]] end;
      cbn [List.length nth Nat.ltb Nat.leb].
    + unfold bind. rewrite tryFallbacks_spec. reflexivity.
    + unfold bind. rewrite tryFallbacks_spec. reflexivity.
    + unfold stripHTMLTags, mustReplaceAll. rewrite Htag.
      destruct (String.eqb (ReplaceAllString tagRe (strings.TrimSpace group1) "") "");
        cbn [negb].
      * unfold bind. rewrite tryFallbacks_spec. reflexivity.
      * reflexivity.
Qed.

Lemma ExtractTitle_spec (tagRe : Regexp) (doc : Document) (st : Store)
      (selector regexPattern : string) :
  Compile "<[^>]*>" = Some tagRe ->
  ExtractTitle doc selector regexPattern st
  = (match titleBySelector doc st selector with
     | Some text => Returned text
     | None => fst (titleFromRegexOrFallback doc regexPattern st)
     end, st).
Proof.
  intros Htag.
  assert (Hrest : titleFromRegexOrFallback doc regexPattern st
                  = (fst (titleFromRegexOrFallback doc regexPattern st), st)).
  { rewrite (titleFromRegexOrFallback_spec tagRe) by exact Htag. reflexivity. }
  unfold ExtractTitle, titleBySelector.
  destruct (String.eqb selector ""); cbn [negb]; [exact Hrest|].
  unfold firstText, bind, Find, Text, gets. cbn [fst].
  destruct (dedup [] _) as [|r found]; cbn [First Length List.length Nat.ltb Nat.leb];
    [exact Hrest|].
  cbn [map String.concat].
  destruct (String.eqb _ ""); cbn [negb]; [exact Hrest | reflexivity].
Qed.

(** C9.  The three stages are tried in order and the first that yields a
    title decides.  (a) The explicit selector: the trimmed text of its
    first match, if not empty.  (b) Else the pattern: the first group of
    its match on the document's markup, trimmed and stripped of tags, if
    not empty.  (c) Else the fixed selector list: the first candidate whose
    trimmed text is not empty and shorter than 200 bytes.  When no stage
    yields anything the result is the empty string.  The document is left
    as it was.  ([tagRe] is the compiled tag pattern of [stripHTMLTags].) *)
Theorem title_resolver_precedence (tagRe : Regexp) (doc : Document) (st : Store)
        (selector regexPattern : string) :
  Compile "<[^>]*>" = Some tagRe ->
  (forall text, titleBySelector doc st selector = Some text ->
      ExtractTitle doc selector regexPattern st = (Returned text, st))
  /\ (forall text, titleBySelector doc st selector = None ->
         titleByRegex tagRe doc st regexPattern = Returned (Some text) ->
         ExtractTitle doc selector regexPattern st = (Returned text, st))
  /\ (forall text, titleBySelector doc st selector = None ->
         titleByRegex tagRe doc st regexPattern = Returned None ->
         titleByFallback doc st fallbackSelectors = Some text ->
         ExtractTitle doc selector regexPattern st = (Returned text, st))
  /\ (titleBySelector doc st selector = None ->
      titleByRegex tagRe doc st regexPattern = Returned None ->
      titleByFallback doc st fallbackSelectors = None ->
      ExtractTitle doc selector regexPattern st = (Returned "", st)).
Proof.
  intros Htag.
  pose proof (ExtractTitle_spec tagRe doc st selector regexPattern Htag) as E.
  rewrite (titleFromRegexOrFallback_spec tagRe) in E by exact Htag. cbn [fst] in E.
  repeat split.
  - intros text Ha. rewrite E, Ha. reflexivity.
  - intros text Ha Hb. rewrite E, Ha, Hb. reflexivity.
  - intros text Ha Hb Hc. rewrite E, Ha, Hb, Hc. reflexivity.
  - intros Ha Hb Hc. rewrite E, Ha, Hb, Hc. reflexivity.
Qed.

(** C10.  A title pattern that is not empty and does not compile makes
    [ExtractTitle] panic, as soon as the selector stage has yielded nothing:
    the pattern goes through [regexp.MustCompile].  The pattern strategy,
    given the same pattern, passes it over and goes on with the next. *)
Theorem title_regex_must_compile (doc : Document) (st : Store)
        (selector regexPattern : string) :
  regexPattern <> "" ->
  Compile ("(?i)" ++ regexPattern) = None ->
  Compile ("(?is)" ++ regexPattern) = None ->
  titleBySelector doc st selector = None ->
  ExtractTitle doc selector regexPattern st = (Panic, st)
  /\ (forall (fullHTML : string) (rest : list string),
        XPathRegexStrategy.tryPatterns fullHTML (regexPattern :: rest)
        = XPathRegexStrategy.tryPatterns fullHTML rest).
Proof.
  intros Hne Hi His Ha. split.
  - unfold ExtractTitle.
    assert (Hreg : titleFromRegexOrFallback doc regexPattern st = (Panic, st)).
    { unfold titleFromRegexOrFallback.
      destruct regexPattern as [|c r]; [congruence|]. cbn [String.eqb negb].
      unfold bind, Html, gets. rewrite Hi. reflexivity. }
    revert Ha. unfold titleBySelector.
    destruct (String.eqb selector ""); cbn [negb]; [intros _; exact Hreg|].
    unfold firstText, bind, Find, Text, gets. cbn [fst].
    destruct (dedup [] _) as [|r found]; cbn [First Length List.length Nat.ltb Nat.leb];
      [intros _; exact Hreg|].
    cbn [map String.concat].
    destruct (String.eqb _ ""); cbn [negb]; [intros _; exact Hreg | discriminate].
  - intros fullHTML rest. apply tryPatterns_skips. unfold capture. rewrite His. reflexivity.
Qed.

End TitleResolver.

(** Scenario D: the first pattern does not compile and is passed over, the
    second captures the story, the third is not consulted; and a list
    without any capture fails. *)
Lemma pattern_strategy_first_capture_witness :
  @XPathRegexStrategy.Extract Simple.collaborators Examples.storyPatterns 0 None
     [Examples.storyPage]
  = (Ok "Once upon a time", [Examples.storyPage])
  /\ @capture Simple.collaborators Examples.storyMarkup "(" = None
  /\ @XPathRegexStrategy.Extract Simple.collaborators
       {| XPathRegexStrategy.Patterns := ["("; "<h2>(.*?)</h2>"] |} 0 None
       [Examples.storyPage]
     = (Err "no regex patterns matched", [Examples.storyPage]).
Proof.
  split; [|split].
  - apply (proj1 (@pattern_strategy_first_capture Simple.collaborators
                    Examples.storyPatterns 0 None [Examples.storyPage]
                    Examples.storyMarkup
                    ltac:(discriminate) ltac:(vm_compute; reflexivity))
                 ["("] ["<p>(.*?)</p>"] Examples.storyPattern "Once upon a time").
    + reflexivity.
    + constructor; [vm_compute; reflexivity | constructor].
    + vm_compute. reflexivity.
  - apply (proj1 (proj2 (@pattern_strategy_first_capture Simple.collaborators
                    Examples.storyPatterns 0 None [Examples.storyPage]
                    Examples.storyMarkup
                    ltac:(discriminate) ltac:(vm_compute; reflexivity)))).
    vm_compute. reflexivity.
  - apply (proj2 (proj2 (@pattern_strategy_first_capture Simple.collaborators
                    {| XPathRegexStrategy.Patterns := ["("; "<h2>(.*?)</h2>"] |}
                    0 None [Examples.storyPage] Examples.storyMarkup
                    ltac:(discriminate) ltac:(vm_compute; reflexivity)))).
    repeat constructor.
Defined.

(** The selector wins over the pattern, the pattern over the fallback list,
    the list finds the chapter heading, and a bare page has the empty
    title. *)
Lemma title_resolver_precedence_witness :
  @ExtractTitle Simple.collaborators 0 "div" "<p>(.*?)</p>" [Examples.storyPage]
  = (Returned "Once upon a time", [Examples.storyPage])
  /\ @ExtractTitle Simple.collaborators 0 "h3" "<p>(.*?)</p>" [Examples.storyPage]
     = (Returned "Later", [Examples.storyPage])
  /\ @ExtractTitle Simple.collaborators 0 "h3" "<h2>(.*?)</h2>" [Examples.storyPage]
     = (Returned "Chapter One", [Examples.storyPage])
  /\ @ExtractTitle Simple.collaborators 0 "" "" [Examples.barePage]
     = (Returned "", [Examples.barePage]).
Proof.
  split; [|split; [|split]].
  - apply (proj1 (@title_resolver_precedence Simple.collaborators Examples.tagPattern
                    0 [Examples.storyPage] "div" "<p>(.*?)</p>" eq_refl)).
    vm_compute. reflexivity.
  - apply (proj1 (proj2 (@title_resolver_precedence Simple.collaborators
                    Examples.tagPattern 0 [Examples.storyPage] "h3" "<p>(.*?)</p>"
                    eq_refl))).
    + vm_compute. reflexivity.
    + vm_compute. reflexivity.
  - apply (proj1 (proj2 (proj2 (@title_resolver_precedence Simple.collaborators
                    Examples.tagPattern 0 [Examples.storyPage] "h3" "<h2>(.*?)</h2>"
                    eq_refl)))).
    + vm_compute. reflexivity.
    + vm_compute. reflexivity.
    + vm_compute. reflexivity.
  - apply (proj2 (proj2 (proj2 (@title_resolver_precedence Simple.collaborators
                    Examples.tagPattern 0 [Examples.barePage] "" "" eq_refl)))).
    + vm_compute. reflexivity.
    + vm_compute. reflexivity.
    + vm_compute. reflexivity.
Defined.

(** The pattern [(] has no closing parenthesis: the title resolver panics
    on it, the pattern strategy goes on to the next pattern. *)
Lemma title_regex_must_compile_witness :
  @ExtractTitle Simple.collaborators 0 "" "(" [Examples.storyPage]
  = (Panic, [Examples.storyPage])
  /\ @XPathRegexStrategy.tryPatterns Simple.collaborators Examples.storyMarkup
       ["("; Examples.storyPattern]
     = Ok "Once upon a time".
Proof.
  destruct (@title_regex_must_compile Simple.collaborators 0 [Examples.storyPage] "" "("
              ltac:(discriminate) ltac:(vm_compute; reflexivity)
              ltac:(vm_compute; reflexivity) ltac:(vm_compute; reflexivity))
    as [Hpanic Hskip].
  split; [exact Hpanic|].
  rewrite Hskip. vm_compute. reflexivity.
Defined.

(** ** Trees and the heap *)

(** Induction over a tree, with the property known of every child. *)
Lemma Node_ind' (P : Node -> Prop) :
  (forall cs, Forall P cs -> P (DocumentNode cs)) ->
  (forall d a cs, Forall P cs -> P (ElementNode d a cs)) ->
  (forall d, P (TextNode d)) ->
  (forall d, P (CommentNode d)) ->
  (forall d, P (DoctypeNode d)) ->
  forall n, P n.
Proof.
  intros Hdoc Hel Htext Hcomment Hdoctype.
  fix IH 1. intros [cs | d a cs | d | d | d].
  - apply Hdoc. induction cs as [|c cs IHcs]; constructor; [apply IH | exact IHcs].
  - apply Hel. induction cs as [|c cs IHcs]; constructor; [apply IH | exact IHcs].
  - apply Htext.
  - apply Hcomment.
  - apply Hdoctype.
Qed.

Lemma path_eqb_eq (p q : path) : path_eqb p q = true <-> p = q.
Proof.
  unfold path_eqb. destruct (list_eq_dec Nat.eq_dec p q); split; congruence.
Qed.

Lemma Ref_eqb_eq (a b : Ref) : Ref_eqb a b = true <-> a = b.
Proof.
  destruct a as [ra pa], b as [rb pb]. unfold Ref_eqb. cbn [root at_].
  rewrite andb_true_iff, Nat.eqb_eq, path_eqb_eq. split.
  - intros [-> ->]. reflexivity.
  - intros [= -> ->]. split; reflexivity.
Qed.

Lemma existsb_path_ext (ps ps' : list path) (p : path) :
  (forall q, In q ps <-> In q ps') ->
  existsb (path_eqb p) ps = existsb (path_eqb p) ps'.
Proof.
  intros Hsame. apply eq_true_iff_eq. rewrite !existsb_exists.
  split; intros [q [Hin Hq]]; exists q; split; try exact Hq; apply Hsame, Hin.
Qed.

Lemma pruneList_ext (keep keep' : path -> Node -> Node) (ps ps' : list path)
      (here : path) (cs : list Node) :
  (forall q, In q ps <-> In q ps') ->
  Forall (fun c => forall p, keep p c = keep' p c) cs ->
  forall i, pruneList keep ps here i cs = pruneList keep' ps' here i cs.
Proof.
  intros Hsame. induction 1 as [|c cs Hc _ IH]; intros i; [reflexivity|].
  cbn [pruneList]. rewrite (existsb_path_ext ps ps' _ Hsame), Hc, IH. reflexivity.
Qed.

(** Pruning depends on which paths are listed, not on how. *)
Lemma prune_ext (ps ps' : list path) :
  (forall q, In q ps <-> In q ps') ->
  forall n here, prune ps here n = prune ps' here n.
Proof.
  intros Hsame n.
  induction n as [cs IH | d a cs IH | d | d | d] using Node_ind'; intros here;
    try reflexivity; cbn [prune]; f_equal; apply pruneList_ext; try exact Hsame;
    (eapply Forall_impl; [|exact IH]); cbn beta; intros c Hc p; apply Hc.
Qed.

Lemma pruneList_nil (keep : path -> Node -> Node) (here : path) (cs : list Node) :
  Forall (fun c => forall p, keep p c = c) cs ->
  forall i, pruneList keep [] here i cs = cs.
Proof.
  induction 1 as [|c cs Hc _ IH]; intros i; [reflexivity|].
  cbn [pruneList existsb]. rewrite Hc, IH. reflexivity.
Qed.

(** Removing nothing changes nothing. *)
Lemma prune_nil (n : Node) : forall here, prune [] here n = n.
Proof.
  induction n as [cs IH | d a cs IH | d | d | d] using Node_ind'; intros here;
    try reflexivity; cbn [prune]; f_equal; apply pruneList_nil;
    (eapply Forall_impl; [|exact IH]); cbn beta; intros c Hc p; apply Hc.
Qed.

Lemma nth_error_indexed {A B : Type} (f : nat * A -> B) (l : list A) :
  forall k i,
    nth_error (map f (combine (seq k (List.length l)) l)) i
    = option_map (fun a => f (k + i, a)) (nth_error l i).
Proof.
  induction l as [|a l IH]; intros k i.
  - destruct i; reflexivity.
  - destruct i as [|i]; cbn [List.length seq combine map nth_error option_map].
    + rewrite Nat.add_0_r. reflexivity.
    + rewrite IH. rewrite Nat.add_succ_r. reflexivity.
Qed.

(** What [Remove] does to one tree of the heap. *)
Lemma Remove_tree (s : Selection) (st : Store) (i : nat) :
  nth_error (snd (Remove s st)) i
  = option_map (prune (map at_ (filter (fun r => root r =? i) s)) [])
               (nth_error st i).
Proof.
  unfold Remove. cbn [snd]. rewrite nth_error_indexed. reflexivity.
Qed.

Lemma In_dedup (l : list Ref) :
  forall (seen : list Ref) (r : Ref),
    In r (dedup seen l) <-> In r l /\ ~ In r seen.
Proof.
  induction l as [|x l IH]; intros seen r; cbn [dedup In].
  - tauto.
  - destruct (existsb (Ref_eqb x) seen) eqn:Hx.
    + apply existsb_exists in Hx. destruct Hx as [y [Hy Hxy]].
      apply Ref_eqb_eq in Hxy. subst y. rewrite IH. split.
      * tauto.
      * intros [[-> | Hin] Hnot]; [contradiction | tauto].
    + assert (Hnx : ~ In x seen).
      { intros Hin. apply Bool.not_true_iff_false in Hx. apply Hx.
        apply existsb_exists. exists x. split; [exact Hin | apply Ref_eqb_eq; reflexivity]. }
      cbn [In]. rewrite IH. cbn [In]. split.
      * intros [-> | [Hin Hnot]]; [tauto|]. split; [tauto|]. tauto.
      * intros [[-> | Hin] Hnot]; [tauto|].
        destruct (Ref_eqb x r) eqn:Hxr.
        -- apply Ref_eqb_eq in Hxr. tauto.
        -- right. split; [exact Hin|]. intros [-> | Hs]; [|tauto].
           rewrite (proj2 (Ref_eqb_eq r r) eq_refl) in Hxr. discriminate.
Qed.

Section SelectionsOnTheHeap.
Context `{Collaborators}.

(** The paths [Find] returns in tree [i]: what the selector matches below
    the nodes of the selection that live in that tree. *)
Lemma Find_paths (content : Selection) (sel : string) (st : Store) (i : nat) (q : path) :
  In q (map at_ (filter (fun r => root r =? i) (fst (Find content sel st))))
  <-> exists r t, In r content /\ root r = i /\ nth_error st i = Some t
                  /\ In q (matchesBelow t sel (at_ r)).
Proof.
  unfold Find, gets. cbn [fst]. rewrite in_map_iff. split.
  - intros [x [Hq Hx]]. apply filter_In in Hx. destruct Hx as [Hx Hroot].
    apply Nat.eqb_eq in Hroot. apply In_dedup in Hx. destruct Hx as [Hx _].
    apply in_flat_map in Hx. destruct Hx as [r [Hr Hx]].
    destruct (nth_error st (root r)) as [t|] eqn:Ht; [|contradiction].
    apply in_map_iff in Hx. destruct Hx as [q' [<- Hq']]. cbn [root at_] in *.
    subst. exists r, t. auto.
  - intros [r [t [Hr [Hroot [Ht Hq]]]]].
    exists {| root := i; at_ := q |}. split; [reflexivity|].
    apply filter_In. split; [|apply Nat.eqb_eq; reflexivity].
    apply In_dedup. split; [|tauto].
    apply in_flat_map. exists r. split; [exact Hr|].
    rewrite Hroot, Ht. apply in_map_iff. exists q. subst. auto.
Qed.

(** [content.Find(sel).Remove()] on a selection of tree roots: every tree
    that has its root in the selection loses what the selector matches in
    it; every other tree of the heap stays as it is. *)
Lemma findAndRemove_roots (content : Selection) (sel : string) (st : Store)
      (i : nat) (t : Node) :
  Forall (fun r => at_ r = []) content ->
  nth_error st i = Some t ->
  nth_error (snd (findAndRemove content sel st)) i
  = Some (if existsb (fun r => root r =? i) content then without sel t else t).
Proof.
  intros Hroots Ht. unfold findAndRemove, bind.
  assert (Hfind : Find content sel st = (fst (Find content sel st), st)) by reflexivity.
  rewrite Hfind. rewrite Remove_tree, Ht. cbn [option_map]. f_equal.
  destruct (existsb (fun r => root r =? i) content) eqn:Hin.
  - unfold without. apply prune_ext. intros q. rewrite Find_paths. split.
    + intros [r [t' [Hr [_ [Ht' Hq]]]]].
      rewrite Forall_forall in Hroots. rewrite (Hroots r Hr) in Hq. congruence.
    + intros Hq. apply existsb_exists in Hin. destruct Hin as [r [Hr Hroot]].
      apply Nat.eqb_eq in Hroot. exists r, t.
      rewrite Forall_forall in Hroots. rewrite (Hroots r Hr). auto.
  - rewrite <- (prune_nil t []) at 2. apply prune_ext. intros q.
    rewrite Find_paths. split; [|intros []].
    intros [r [t' [Hr [Hroot _]]]].
    apply Bool.not_true_iff_false in Hin. apply Hin.
    apply existsb_exists. exists r. split; [exact Hr | apply Nat.eqb_eq, Hroot].
Qed.

Lemma removeEach_roots (content : Selection) (sels : list string) :
  Forall (fun r => at_ r = []) content ->
  forall (st : Store) (i : nat) (t : Node),
    nth_error st i = Some t ->
    nth_error (snd (removeEach content sels st)) i
    = Some (if existsb (fun r => root r =? i) content then cleaned sels t else t).
Proof.
  intros Hroots. induction sels as [|sel sels IH]; intros st i t Ht.
  - cbn. rewrite Ht. destruct (existsb _ content); reflexivity.
  - cbn [removeEach]. unfold bind.
    pose proof (findAndRemove_roots content sel st i t Hroots Ht) as Hone.
    destruct (findAndRemove content sel st) as [u st1]. cbn [snd] in Hone.
    rewrite (IH st1 i _ Hone). unfold cleaned. cbn [fold_left].
    destruct (existsb _ content); reflexivity.
Qed.

(** [Clone] puts its copies behind the trees of the heap and returns their
    roots. *)
Lemma Clone_roots (content : Selection) (st : Store) :
  Forall (fun r => at_ r = [] /\ List.length st <= root r) (fst (Clone content st)).
Proof.
  unfold Clone. cbn [fst]. apply Forall_forall. intros r Hr.
  apply in_map_iff in Hr. destruct Hr as [j [<- _]]. cbn [root at_]. split; [reflexivity | lia].
Qed.

Lemma Clone_first (r : Ref) (rest : Selection) (st : Store) (n : Node) :
  deref st r = Some n ->
  exists (others : Selection) (copies : list Node),
    Clone (r :: rest) st
    = ({| root := List.length st; at_ := [] |} :: others, (st ++ n :: copies)%list).
Proof.
  intros Hn. unfold Clone. cbn [flat_map]. rewrite Hn. cbn [app List.length seq map].
  rewrite Nat.add_0_r. eexists. eexists. reflexivity.
Qed.

Lemma Find_document (doc : Document) (sel : string) (st : Store) (t : Node) :
  nth_error st doc = Some t ->
  Find (docSelection doc) sel st
  = (dedup [] (map (fun q => {| root := doc; at_ := q |}) (matchesBelow t sel [])), st).
Proof.
  intros Ht. unfold Find, gets, docSelection. cbn [flat_map root at_].
  rewrite Ht, app_nil_r. reflexivity.
Qed.

End SelectionsOnTheHeap.

(** ** The selector strategy (claim C7) *)

Section SelectorStrategy.
Context `{Collaborators}.

Lemma trimmedHtml_root (content : Selection) (st : Store) (i : nat) (n : Node) :
  hd_error content = Some {| root := i; at_ := [] |} ->
  nth_error st i = Some n ->
  trimmedHtml content st
  = (match renderAll (children n) with
     | Err err => Err ("failed to get HTML: " ++ err)
     | Ok html => Ok (strings.TrimSpace html)
     end, st).
Proof.
  intros Hhd Hn. destruct content as [|r others]; [discriminate|].
  cbn [hd_error] in Hhd. injection Hhd as ->.
  unfold trimmedHtml, bind, Html, gets, deref. cbn [root at_]. rewrite Hn. cbn [nodeAt].
  destruct (renderAll (children n)); reflexivity.
Qed.

(** C7.  With a selector that is not empty, on the document [t]:
    - when the selector matches no element, the strategy fails with the
      no-match error, and the heap is left as it was;
    - when it matches, let [p] be the first match in document order
      ([matchesBelow] lists them in that order) and [n] the element there.
      The result is the inner markup of [n] -- serialized, then trimmed --
      after the elements matched by each exclusion selector, in turn, and
      then, when [CleanScripts] is set, the script, style and noscript
      elements have been removed from below it.  (Serializing a tree the
      parser built does not fail; [html] is the markup it gives.) *)
Theorem selector_strategy_first_match (s : CSSSelectorStrategy.t) (doc : Document)
        (opts : option ExtractionOptions) (st : Store) (t : Node) :
  CSSSelectorStrategy.Selector s <> "" ->
  nth_error st doc = Some t ->
  (matchesBelow t (CSSSelectorStrategy.Selector s) [] = [] ->
   CSSSelectorStrategy.Extract s doc opts st
   = (Err ("selector '" ++ CSSSelectorStrategy.Selector s ++ "' matched no elements"), st))
  /\
  (forall (p : path) (rest : list path) (n : Node) (html : string),
      matchesBelow t (CSSSelectorStrategy.Selector s) [] = p :: rest ->
      nodeAt t p = Some n ->
      renderAll
        (children (cleaned (cleanup (CSSSelectorStrategy.ExcludeSelectors s)
                                    (wantsCleanScripts opts)) n))
      = Ok html ->
      fst (CSSSelectorStrategy.Extract s doc opts st) = Ok (strings.TrimSpace html)).
Proof.
  intros Hsel Ht.
  assert (Hne : String.eqb (CSSSelectorStrategy.Selector s) "" = false)
    by (apply String.eqb_neq; exact Hsel).
  split.
  - intros Hnone. unfold CSSSelectorStrategy.Extract. rewrite Hne. unfold bind.
    rewrite (Find_document _ _ _ _ Ht), Hnone. reflexivity.
  - intros p rest n html Hm Hn Hr.
    unfold CSSSelectorStrategy.Extract. rewrite Hne. unfold bind at 1.
    rewrite (Find_document _ _ _ _ Ht), Hm.
    cbn [map dedup existsb Length List.length Nat.eqb]. unfold bind at 1.
    set (found := dedup _ _).
    destruct (Clone_first {| root := doc; at_ := p |} found st n)
      as [others [copies Hclone]].
    { unfold deref. cbn [root at_]. rewrite Ht. exact Hn. }
    pose proof (Clone_roots ({| root := doc; at_ := p |} :: found) st) as Hroots.
    rewrite Hclone in *. cbn [fst] in Hroots.
    set (content := {| root := List.length st; at_ := [] |} :: others) in *.
    assert (Hroots' : Forall (fun r => at_ r = []) content)
      by (eapply Forall_impl; [|exact Hroots]; cbn beta; tauto).
    assert (Hin : existsb (fun r => root r =? List.length st) content = true)
      by (cbn [content existsb root]; rewrite Nat.eqb_refl; reflexivity).
    assert (H1 : nth_error (st ++ n :: copies) (List.length st) = Some n)
      by (rewrite nth_error_app2, Nat.sub_diag by lia; reflexivity).
    pose proof (removeEach_roots content (CSSSelectorStrategy.ExcludeSelectors s)
                                 Hroots' _ _ _ H1) as H2.
    rewrite Hin in H2. unfold bind at 1.
    destruct (removeEach content _ _) as [u st2]. cbn [snd] in H2.
    unfold bind at 1. unfold cleaned, cleanup in Hr. rewrite fold_left_app in Hr.
    destruct (wantsCleanScripts opts).
    + pose proof (findAndRemove_roots content "script, style, noscript" _ _ _ Hroots' H2)
        as H3.
      rewrite Hin in H3. destruct (findAndRemove content _ st2) as [u' st3].
      cbn [snd] in H3.
      rewrite (trimmedHtml_root content st3 _ _ eq_refl H3).
      cbn [fold_left] in Hr. unfold cleaned. rewrite Hr. reflexivity.
    + unfold ret.
      rewrite (trimmedHtml_root content st2 _ _ eq_refl H2).
      cbn [fold_left] in Hr. unfold cleaned. rewrite Hr. reflexivity.
Qed.

(** The selector strategy works on clones: every tree that was on the heap
    before the call is the same after it. *)
Lemma selector_strategy_frame (s : CSSSelectorStrategy.t) (doc : Document)
      (opts : option ExtractionOptions) (st : Store) (i : nat) (t : Node) :
  nth_error st i = Some t ->
  nth_error (snd (CSSSelectorStrategy.Extract s doc opts st)) i = Some t.
Proof.
  intros Ht. unfold CSSSelectorStrategy.Extract.
  destruct (String.eqb _ ""); [exact Ht|].
  unfold bind at 1.
  assert (Hfind : forall sel, Find (docSelection doc) sel st
                              = (fst (Find (docSelection doc) sel st), st)) by reflexivity.
  rewrite Hfind. destruct (Length _ =? 0); [exact Ht|].
  unfold bind at 1.
  pose proof (Clone_roots (fst (Find (docSelection doc) (CSSSelectorStrategy.Selector s) st)) st)
    as Hroots.
  assert (Hheap : exists copies,
             snd (Clone (fst (Find (docSelection doc) (CSSSelectorStrategy.Selector s) st)) st)
             = (st ++ copies)%list) by (eexists; reflexivity).
  destruct Hheap as [copies Hheap].
  destruct (Clone _ st) as [content st1]. cbn [fst snd] in *. subst st1.
  assert (Hi : i < List.length st) by (apply nth_error_Some; congruence).
  assert (Hroots' : Forall (fun r => at_ r = []) content)
    by (eapply Forall_impl; [|exact Hroots]; cbn beta; tauto).
  assert (Hout : existsb (fun r => root r =? i) content = false).
  { apply Bool.not_true_iff_false. intros Hin. apply existsb_exists in Hin.
    destruct Hin as [r [Hr Hri]]. apply Nat.eqb_eq in Hri.
    rewrite Forall_forall in Hroots. destruct (Hroots r Hr) as [_ Hge]. lia. }
  assert (H1 : nth_error (st ++ copies) i = Some t)
    by (rewrite nth_error_app1 by exact Hi; exact Ht).
  pose proof (removeEach_roots content (CSSSelectorStrategy.ExcludeSelectors s)
                               Hroots' _ _ _ H1) as H2.
  rewrite Hout in H2. unfold bind at 1.
  destruct (removeEach content _ _) as [u st2]. cbn [snd] in H2.
  unfold bind at 1.
  assert (Htrim : forall st', snd (trimmedHtml content st') = st').
  { intros st'. unfold trimmedHtml, bind, Html, gets.
    destruct (match content with [] => _ | _ => _ end); reflexivity. }
  destruct (wantsCleanScripts opts).
  - pose proof (findAndRemove_roots content "script, style, noscript" _ _ _ Hroots' H2)
      as H3.
    rewrite Hout in H3. destruct (findAndRemove content _ st2) as [u' st3].
    cbn [snd] in H3. rewrite Htrim. exact H3.
  - unfold ret. rewrite Htrim. exact H2.
Qed.

End SelectorStrategy.

(** Two articles match [article.content]; the first one is used, without
    its advertisement and its script.  The selector [main] matches nothing. *)
Lemma selector_strategy_first_match_witness :
  fst (@CSSSelectorStrategy.Extract Simple.collaborators Examples.articleSelector 0
         (Some DefaultExtractionOptions) [Examples.twoArticles])
  = Ok "<h2>One</h2><p>First</p>"
  /\
  @CSSSelectorStrategy.Extract Simple.collaborators
     {| CSSSelectorStrategy.Selector := "main"; CSSSelectorStrategy.ExcludeSelectors := [] |}
     0 None [Examples.twoArticles]
  = (Err "selector 'main' matched no elements", [Examples.twoArticles]).
Proof.
  split.
  - apply (proj2 (@selector_strategy_first_match Simple.collaborators
                    Examples.articleSelector 0 (Some DefaultExtractionOptions)
                    [Examples.twoArticles] Examples.twoArticles
                    ltac:(discriminate) eq_refl)
                 [0; 1; 0] [[0; 1; 1]] Examples.firstArticle "<h2>One</h2><p>First</p>").
    + vm_compute. reflexivity.
    + reflexivity.
    + vm_compute. reflexivity.
  - apply (proj1 (@selector_strategy_first_match Simple.collaborators
                    {| CSSSelectorStrategy.Selector := "main";
                       CSSSelectorStrategy.ExcludeSelectors := [] |}
                    0 None [Examples.twoArticles] Examples.twoArticles
                    ltac:(discriminate) eq_refl)).
    vm_compute. reflexivity.
Defined.

(** ** Strategies and the original document (claim C2) *)

(** C2 (the code departs from the claim).  The density strategy, with
    [CleanScripts] set, on a page whose winning block holds a script: the
    block is wrapped by [NewDocumentFromNode], which copies nothing, so
    removing the script removes it from the document that was handed in.
    The document serializes with the script before the call and without it
    after. *)
Theorem density_strategy_mutates_document :
  fst (@Html Simple.collaborators (docSelection 0) [Examples.scriptedPage])
  = Ok Examples.scriptedMarkup
  /\
  @TextDensityStrategy.Extract Simple.collaborators
     {| TextDensityStrategy.MinDensityScore := 0; TextDensityStrategy.MinBlockSize := 0 |}
     0 (Some DefaultExtractionOptions) [Examples.scriptedPage]
  = (Ok Examples.prose,
     [ DocumentNode
         [ Examples.element "html"
             [ Examples.element "head" [];
               Examples.element "body"
                 [ Examples.element "div" [ TextNode Examples.prose ] ] ] ] ])
  /\
  fst (@Html Simple.collaborators (docSelection 0)
         (snd (@TextDensityStrategy.Extract Simple.collaborators
                 {| TextDensityStrategy.MinDensityScore := 0;
                    TextDensityStrategy.MinBlockSize := 0 |}
                 0 (Some DefaultExtractionOptions) [Examples.scriptedPage])))
  = Ok Examples.scriptlessMarkup.
Proof.
  split; [|split]; vm_compute; reflexivity.
Qed.

(** ** The density strategy (claim C6) *)

(** The order of float64 values, from its specification on [spec_float]. *)
Lemma SFltb_trans (x y z : spec_float) :
  SFltb x y = true -> SFltb y z = true -> SFltb x z = true.
Proof.
  unfold SFltb, SFcompare.
  destruct x as [sx | sx | | sx mx ex], y as [sy | sy | | sy my ey],
           z as [sz | sz | | sz mz ez];
    try destruct sx; try destruct sy; try destruct sz;
    try discriminate; try reflexivity;
    change (Pos.compare_cont Eq) with Pos.compare;
    destruct (Z.compare_spec ex ey), (Z.compare_spec ey ez), (Z.compare_spec ex ez);
    subst; try lia; try discriminate; try reflexivity;
    destruct (Pos.compare_spec mx my), (Pos.compare_spec my mz),
             (Pos.compare_spec mx mz);
    subst; cbn; try lia; try discriminate; try reflexivity.
Qed.

Lemma SFltb_leb_trans (x y z : spec_float) :
  SFltb x y = true -> SFleb y z = true -> SFltb x z = true.
Proof.
  unfold SFltb, SFleb, SFcompare.
  destruct x as [sx | sx | | sx mx ex], y as [sy | sy | | sy my ey],
           z as [sz | sz | | sz mz ez];
    try destruct sx; try destruct sy; try destruct sz;
    try discriminate; try reflexivity;
    change (Pos.compare_cont Eq) with Pos.compare;
    destruct (Z.compare_spec ex ey), (Z.compare_spec ey ez), (Z.compare_spec ex ez);
    subst; try lia; try discriminate; try reflexivity;
    destruct (Pos.compare_spec mx my), (Pos.compare_spec my mz),
             (Pos.compare_spec mx mz);
    subst; cbn; try lia; try discriminate; try reflexivity.
Qed.

Lemma SFltb_irrefl (x : spec_float) : SFltb x x = false.
Proof.
  unfold SFltb, SFcompare.
  destruct x as [sx | sx | | sx mx ex]; try destruct sx; try reflexivity;
    change (Pos.compare_cont Eq) with Pos.compare;
    rewrite Z.compare_refl, Pos.compare_refl; reflexivity.
Qed.

Lemma float_ltb_trans (x y z : float) :
  (x <? y)%float = true -> (y <? z)%float = true -> (x <? z)%float = true.
Proof. rewrite !FloatAxioms.ltb_spec. apply SFltb_trans. Qed.

Lemma float_ltb_leb_trans (x y z : float) :
  (x <? y)%float = true -> (y <=? z)%float = true -> (x <? z)%float = true.
Proof. rewrite !FloatAxioms.ltb_spec, FloatAxioms.leb_spec. apply SFltb_leb_trans. Qed.

Lemma float_ltb_irrefl (x : float) : (x <? x)%float = false.
Proof. rewrite FloatAxioms.ltb_spec. apply SFltb_irrefl. Qed.

Section DensityStrategy.
Context `{Collaborators}.

(** One visit of the traversal, as a function of what [measure] reads. *)
Lemma visit_spec (minDensity : float) (minSize : Z) (node : Ref)
      (best : option Ref * float) (st : Store) :
  TextDensityStrategy.visit minDensity minSize node best st
  = (match measure st minSize node with
     | Some (textLen, htmlLen, paragraphs) =>
         if (snd best <? TextDensityStrategy.scoreOf textLen htmlLen paragraphs)%float
            && (minDensity <=? TextDensityStrategy.density textLen htmlLen)%float
         then (Some node, TextDensityStrategy.scoreOf textLen htmlLen paragraphs)
         else best
     | None => best
     end, st).
Proof.
  unfold TextDensityStrategy.visit, measure.
  unfold bind at 1. unfold NodeName at 1, gets at 1.
  change (fst (NodeName [node] st)) with
    (match deref st node with
     | Some (ElementNode d _ _) => d
     | Some (TextNode _) => "#text"
     | Some (DocumentNode _) => "#document"
     | Some (CommentNode _) => "#comment"
     | Some (DoctypeNode d) => d
     | None => EmptyString
     end).
  destruct (existsb _ TextDensityStrategy.contentTags); cbn [negb]; [|reflexivity].
  unfold bind at 1. unfold Attr at 1, gets at 1.
  unfold bind at 1. unfold Attr at 1, gets at 1.
  change (fst (Attr [node] "class" st)) with
    (match deref st node with
     | Some (ElementNode _ attrs _) =>
         match find (fun a => String.eqb (Key a) "class") attrs with
         | Some a => (Val a, true)
         | None => (EmptyString, false)
         end
     | _ => (EmptyString, false)
     end).
  change (fst (Attr [node] "id" st)) with
    (match deref st node with
     | Some (ElementNode _ attrs _) =>
         match find (fun a => String.eqb (Key a) "id") attrs with
         | Some a => (Val a, true)
         | None => (EmptyString, false)
         end
     | _ => (EmptyString, false)
     end).
  destruct (existsb _ TextDensityStrategy.skipPatterns); [reflexivity|].
  unfold bind at 1. unfold Text at 1, gets at 1.
  change (fst (Text [node] st)) with
    (String.concat EmptyString
       (map (fun r => match deref st r with
                      | Some n => textOf n
                      | None => EmptyString
                      end) [node])).
  destruct (len _ <? minSize)%Z; [reflexivity|].
  unfold bind at 1. unfold Html at 1, gets at 1.
  change (fst (Html [node] st)) with
    (match deref st node with
     | Some n => renderAll (children n)
     | None => Ok EmptyString
     end).
  destruct (match deref st node with
            | Some n => renderAll (children n)
            | None => Ok EmptyString
            end) as [[|c h] | err]; cbn [String.length Nat.eqb]; try reflexivity.
  unfold bind.
  assert (Hfind : Find [node] "p" st = (fst (Find [node] "p" st), st)) by reflexivity.
  rewrite Hfind. destruct (_ && _); reflexivity.
Qed.

(** The traversal keeps the invariant [bestAfter]. *)
Lemma each_spec (minDensity : float) (minSize : Z) (st : Store) (nodes : Selection) :
  forall (seen : list Ref) (best : option Ref * float),
    bestAfter st minDensity minSize seen best ->
    exists best',
      TextDensityStrategy.each minDensity minSize nodes best st = (best', st)
      /\ bestAfter st minDensity minSize (seen ++ nodes) best'.
Proof.
  induction nodes as [|node nodes IH]; intros seen best Hinv.
  - exists best. rewrite app_nil_r. split; [reflexivity | exact Hinv].
  - cbn [TextDensityStrategy.each]. unfold bind. rewrite visit_spec.
    replace (seen ++ node :: nodes)%list with ((seen ++ [node]) ++ nodes)%list
      by (rewrite <- app_assoc; reflexivity).
    apply IH. clear IH.
    assert (Hsame : forall sc t h p,
               measure st minSize node = Some (t, h, p) ->
               eligible st minDensity minSize node sc ->
               sc = TextDensityStrategy.scoreOf t h p
               /\ (minDensity <=? TextDensityStrategy.density t h)%float = true
               /\ (0 <? sc)%float = true).
    { intros sc t h p Hm [t' [h' [p' [Hm' [Hsc [Hd Hpos]]]]]].
      rewrite Hm in Hm'. injection Hm' as <- <- <-. auto. }
    destruct (measure st minSize node) as [[[t h] p]|] eqn:Hm.
    + set (sc := TextDensityStrategy.scoreOf t h p) in *.
      set (d := TextDensityStrategy.density t h) in *.
      destruct best as [[w|] bs]; unfold bestAfter in *; cbn [fst snd] in *.
      * destruct Hinv as [pre [post [Hseen [Hw [Hbefore Hall]]]]].
        destruct ((bs <? sc)%float && (minDensity <=? d)%float) eqn:Hupd; cbn [fst snd].
        -- apply andb_true_iff in Hupd. destruct Hupd as [Hlt Hd].
           assert (Hpos : (0 <? sc)%float = true).
           { destruct Hw as [? [? [? [_ [_ [_ Hwpos]]]]]].
             eapply float_ltb_trans; eauto. }
           exists seen, []. split; [reflexivity|]. split.
           { exists t, h, p. auto. }
           split.
           ++ intros c sc' Hc Hel. apply Bool.not_true_iff_false. intros Hle.
              pose proof (float_ltb_leb_trans _ _ _ Hlt Hle) as Hcontra.
              rewrite (Hall c sc' Hc Hel) in Hcontra. discriminate.
           ++ intros c sc' Hc Hel. apply in_app_iff in Hc. destruct Hc as [Hc | [<- | []]].
              ** apply Bool.not_true_iff_false. intros Hlt'.
                 pose proof (float_ltb_trans _ _ _ Hlt Hlt') as Hcontra.
                 rewrite (Hall c sc' Hc Hel) in Hcontra. discriminate.
              ** destruct (Hsame sc' t h p eq_refl Hel) as [-> _].
                 apply float_ltb_irrefl.
        -- exists pre, (post ++ [node])%list. split.
           { rewrite Hseen, <- app_assoc. reflexivity. }
           split; [exact Hw|]. split; [exact Hbefore|].
           intros c sc' Hc Hel. apply in_app_iff in Hc. destruct Hc as [Hc | [<- | []]].
           ++ apply (Hall c sc' Hc Hel).
           ++ destruct (Hsame sc' t h p eq_refl Hel) as [-> [Hd _]].
              fold sc. fold d in Hd. rewrite Hd, andb_true_r in Hupd. exact Hupd.
      * destruct Hinv as [Hzero Hnone]. subst bs.
        destruct ((0 <? sc)%float && (minDensity <=? d)%float) eqn:Hupd; cbn [fst snd].
        -- apply andb_true_iff in Hupd. destruct Hupd as [Hpos Hd].
           exists seen, []. split; [reflexivity|]. split.
           { exists t, h, p. auto. }
           split.
           ++ intros c sc' Hc Hel. exfalso. apply (Hnone c sc' Hc Hel).
           ++ intros c sc' Hc Hel. apply in_app_iff in Hc. destruct Hc as [Hc | [<- | []]].
              ** exfalso. apply (Hnone c sc' Hc Hel).
              ** destruct (Hsame sc' t h p eq_refl Hel) as [-> _].
                 apply float_ltb_irrefl.
        -- split; [reflexivity|].
           intros c sc' Hc Hel. apply in_app_iff in Hc. destruct Hc as [Hc | [<- | []]].
           ++ apply (Hnone c sc' Hc Hel).
           ++ destruct (Hsame sc' t h p eq_refl Hel) as [-> [Hd Hpos]].
              fold sc in Hpos. fold d in Hd. rewrite Hpos, Hd in Hupd. discriminate.
    + assert (Hnot : forall sc, ~ eligible st minDensity minSize node sc).
      { intros sc [t [h [p [Hm' _]]]]. rewrite Hm in Hm'. discriminate. }
      destruct best as [[w|] bs]; unfold bestAfter in *; cbn [fst snd] in *.
      * destruct Hinv as [pre [post [Hseen [Hw [Hbefore Hall]]]]].
        exists pre, (post ++ [node])%list. split.
        { rewrite Hseen, <- app_assoc. reflexivity. }
        split; [exact Hw|]. split; [exact Hbefore|].
        intros c sc' Hc Hel. apply in_app_iff in Hc. destruct Hc as [Hc | [<- | []]].
        -- apply (Hall c sc' Hc Hel).
        -- exfalso. apply (Hnot sc' Hel).
      * destruct Hinv as [Hzero Hnone]. split; [exact Hzero|].
        intros c sc' Hc Hel. apply in_app_iff in Hc. destruct Hc as [Hc | [<- | []]].
        -- apply (Hnone c sc' Hc Hel).
        -- apply (Hnot sc' Hel).
Qed.

(** C6.  [findBestBlockByDensity] visits the elements below the selection
    once, in document order ([Find] lists them so), and returns:
    - no block, when no element can win;
    - else the element [w] such that no element that can win has a score
      strictly above the score of [w], and no element visited before [w] has
      a score that reaches it: the comparison is strict, so a later element
      with an equal score does not displace an earlier one.
    The score of an element is its density (text length over markup
    length), multiplied by 1.2 when the text is longer than 500 bytes, then
    by 1.3 when it is longer than 1000, then by 1.5 when more than 2 [p]
    elements stand below it; the factors compound.  An element can win when
    it is a candidate, its density reaches [minDensity] and its score is
    above the initial best score 0.  The heap is left as it was. *)
Theorem density_strategy_best_block (selection : Selection) (minDensity : float)
        (minSize : Z) (st : Store) :
  (exists best : option Ref,
      TextDensityStrategy.findBestBlockByDensity selection minDensity minSize st
      = (best, st)
      /\ match best with
         | Some w =>
             exists score,
               winner st minDensity minSize (fst (Find selection "*" st)) w score
         | None =>
             forall c sc, In c (fst (Find selection "*" st)) ->
                          ~ eligible st minDensity minSize c sc
         end)
  /\
  (forall textLen htmlLen paragraphs : nat,
      TextDensityStrategy.scoreOf textLen htmlLen paragraphs
      = boosted (2 <? paragraphs) 1.5
          (boosted (1000 <? textLen) 1.3
             (boosted (500 <? textLen) 1.2
                (TextDensityStrategy.float64 textLen
                 / TextDensityStrategy.float64 htmlLen)%float))).
Proof.
  split; [|reflexivity].
  unfold TextDensityStrategy.findBestBlockByDensity. unfold bind at 1.
  assert (Hfind : Find selection "*" st = (fst (Find selection "*" st), st))
    by reflexivity.
  rewrite Hfind. unfold bind.
  destruct (each_spec minDensity minSize st (fst (Find selection "*" st)) []
                      (None, 0%float)) as [[best bs] [Hrun Hinv]].
  { split; [reflexivity | intros c sc []]. }
  rewrite Hrun. exists best. split; [reflexivity|].
  unfold bestAfter in Hinv. cbn [fst snd app] in Hinv.
  destruct best as [w|].
  - exists bs. exact Hinv.
  - apply Hinv.
Qed.

End DensityStrategy.

(** On a page whose two paragraphs have equal scores, above the score of
    the block before them, the first paragraph is the block returned. *)
Lemma density_strategy_best_block_witness :
  @TextDensityStrategy.findBestBlockByDensity Simple.collaborators
     [ {| root := 0; at_ := [0; 1] |} ] 0.3%float 100%Z [Examples.tiePage]
  = (Some {| root := 0; at_ := [0; 1; 1] |}, [Examples.tiePage])
  /\ TextDensityStrategy.scoreOf 1200 2000 3
     = (TextDensityStrategy.float64 1200 / TextDensityStrategy.float64 2000
        * 1.2 * 1.3 * 1.5)%float.
Proof.
  destruct (@density_strategy_best_block Simple.collaborators
              [ {| root := 0; at_ := [0; 1] |} ] 0.3%float 100%Z [Examples.tiePage])
    as [[best [Hrun _]] Hscore].
  split.
  - rewrite Hrun. f_equal.
    assert (Hbest : fst (@TextDensityStrategy.findBestBlockByDensity Simple.collaborators
                           [ {| root := 0; at_ := [0; 1] |} ] 0.3%float 100%Z
                           [Examples.tiePage])
                    = Some {| root := 0; at_ := [0; 1; 1] |})
      by (vm_compute; reflexivity).
    rewrite Hrun in Hbest. exact Hbest.
  - rewrite Hscore. reflexivity.
Defined.


(** ** The sanitizers (claim C3) *)

Import Markup.

(** *** Patterns that cannot match *)

Section MatcherOnClosedSets.
(** [P] holds of a string and of everything that is left of it after
    bytes have been consumed. *)
Variable P : string -> Prop.
Hypothesis P_tail : forall c s, P (String c s) -> P s.



End MatcherOnClosedSets.


Lemma inSet_requires (n : nat) (set : Simple.charset) (c : ascii) :
  requires n (Simple.Chars set) = true ->
  Simple.inSet set c = true -> strings.code c = n.
Proof.
  cbn [requires]. destruct set as [neg fold rs]. cbn [Simple.negated Simple.folded Simple.ranges].
  intros Hreq. apply andb_true_iff in Hreq. destruct Hreq as [Hflags Hrs].
  apply andb_true_iff in Hflags. destruct Hflags as [Hneg Hfold].
  destruct neg, fold; try discriminate.
  unfold Simple.inSet. cbn [Simple.negated Simple.folded Simple.ranges xorb andb orb].
  rewrite orb_false_r. unfold Simple.inRanges. intros Hin.
  apply existsb_exists in Hin. destruct Hin as [[lo hi] [Hmem Hbounds]].
  rewrite forallb_forall in Hrs. specialize (Hrs _ Hmem). cbn [fst snd] in *.
  apply andb_true_iff in Hrs, Hbounds. destruct Hrs as [Hlo Hhi], Hbounds as [Hl Hh].
  apply Nat.eqb_eq in Hlo, Hhi. apply Nat.leb_le in Hl, Hh. lia.
Qed.




(** *** Patterns that match runs of a byte set *)

Lemma span_app (f : ascii -> bool) (s : string) :
  s = fst (Simple.span f s) ++ snd (Simple.span f s)
  /\ allIn f (fst (Simple.span f s)) = true
  /\ startsOutside f (snd (Simple.span f s)) = true.
Proof.
  induction s as [|c s IH]; [cbn; auto|].
  cbn [Simple.span]. destruct (f c) eqn:Hc.
  - destruct (Simple.span f s) as [a b]. cbn [fst snd] in *.
    destruct IH as [Hs [Ha Hb]]. cbn [append allIn]. rewrite Hc, Ha.
    repeat split; [congruence | exact Hb].
  - cbn. rewrite Hc. auto.
Qed.

Lemma span_run (f : ascii -> bool) (run rest : string) :
  allIn f run = true -> startsOutside f rest = true ->
  Simple.span f (run ++ rest) = (run, rest).
Proof.
  induction run as [|c run IH]; intros Hrun Hrest.
  - cbn [append]. destruct rest as [|d rest]; [reflexivity|].
    cbn in Hrest. cbn [Simple.span]. apply negb_true_iff in Hrest. rewrite Hrest.
    reflexivity.
  - cbn in Hrun. apply andb_true_iff in Hrun. destruct Hrun as [Hc Hrun].
    cbn [append Simple.span]. rewrite Hc, (IH Hrun Hrest). reflexivity.
Qed.

Lemma length_append (a b : string) :
  String.length (a ++ b) = String.length a + String.length b.
Proof. induction a as [|c a IH]; cbn; [reflexivity | rewrite IH; reflexivity]. Qed.

Lemma append_assoc (a b c : string) : (a ++ b) ++ c = a ++ (b ++ c).
Proof. induction a as [|x a IH]; cbn; [reflexivity | rewrite IH; reflexivity]. Qed.

Lemma append_empty_r (a : string) : a ++ EmptyString = a.
Proof. induction a as [|x a IH]; cbn; [reflexivity | rewrite IH; reflexivity]. Qed.

Lemma takeN_app (a b : string) :
  Simple.takeN (String.length (a ++ b) - String.length b) (a ++ b) = a.
Proof.
  replace (String.length (a ++ b) - String.length b) with (String.length a)
    by (rewrite length_append; lia).
  induction a as [|c a IH]; cbn.
  - destruct b; reflexivity.
  - rewrite IH. reflexivity.
Qed.

Section RunPatterns.
Variable set : Simple.charset.
Variable min : nat.
Variable repl : string.
Hypothesis min_positive : 1 <= min.
Hypothesis repl_literal :
  forall m cs, Simple.expand (S (String.length repl)) repl m cs = repl.

Let f : ascii -> bool := Simple.inSet set.
Let r : Simple.regex := Simple.Rep min None true (Simple.Chars set).
Let k0 : Simple.cont := fun s' cs => Some (s', cs).

Lemma repLoop_chars :
  forall fuel n s cs,
    String.length s < fuel ->
    Simple.repLoop (Simple.run (Simple.Chars set)) min None true k0 fuel n s cs
    = if min <=? n + String.length (fst (Simple.span f s))
      then Some (snd (Simple.span f s), cs)
      else None.
Proof.
  induction fuel as [|fuel IH]; intros n s cs Hfuel; [lia|].
  cbn [Simple.repLoop Simple.belowMax Simple.run].
  destruct s as [|c s].
  - cbn. rewrite Nat.add_0_r. destruct (min <=? n); reflexivity.
  - cbn [Simple.span]. fold f. destruct (f c) eqn:Hc.
    + cbn [String.length]. rewrite (proj2 (Nat.ltb_lt _ _)) by lia.
      rewrite IH by (cbn in Hfuel; lia).
      destruct (Simple.span f s) as [a b]. cbn [fst snd String.length].
      rewrite Nat.add_succ_r. cbn [Nat.add].
      destruct (min <=? S (n + String.length a)) eqn:Hle; [reflexivity|].
      apply Nat.leb_gt in Hle. rewrite (proj2 (Nat.leb_gt _ _)) by lia. reflexivity.
    + cbn [fst snd String.length]. rewrite Nat.add_0_r.
      destruct (min <=? n); reflexivity.
Qed.

(** Such a pattern matches at the head of [s] the whole run that starts
    there, when the run is long enough. *)
Lemma matchHere_run (s : string) :
  Simple.matchHere r s
  = if min <=? String.length (fst (Simple.span f s))
    then Some (fst (Simple.span f s), [], snd (Simple.span f s))
    else None.
Proof.
  unfold Simple.matchHere, r. cbn [Simple.run]. fold k0.
  rewrite repLoop_chars by lia. cbn [Nat.add].
  destruct (min <=? _); [|reflexivity].
  destruct (span_app f s) as [Hs _].
  destruct (Simple.span f s) as [a b]. cbn [fst snd] in *. subst s.
  rewrite takeN_app. reflexivity.
Qed.

Lemma search_outside (c : ascii) (s : string) :
  f c = false ->
  Simple.search r (String c s)
  = match Simple.search r s with
    | Some (before, m, cs, rest) => Some (String c before, m, cs, rest)
    | None => None
    end.
Proof.
  intros Hc. cbn [Simple.search]. rewrite matchHere_run. cbn [Simple.span]. fold f.
  rewrite Hc. cbn [fst String.length]. rewrite (proj2 (Nat.leb_gt _ _)) by lia.
  reflexivity.
Qed.

Lemma search_long (s : string) :
  min <= String.length (fst (Simple.span f s)) ->
  Simple.search r s = Some (EmptyString, fst (Simple.span f s), [], snd (Simple.span f s)).
Proof.
  intros Hlong. destruct s as [|c s]; cbn [Simple.search]; rewrite matchHere_run;
    rewrite (proj2 (Nat.leb_le _ _)) by exact Hlong; reflexivity.
Qed.

Lemma search_short (run rest : string) :
  allIn f run = true -> startsOutside f rest = true -> String.length run < min ->
  Simple.search r (run ++ rest)
  = match Simple.search r rest with
    | Some (before, m, cs, rest') => Some (run ++ before, m, cs, rest')
    | None => None
    end.
Proof.
  induction run as [|c run IH]; intros Hrun Hrest Hshort.
  - cbn [append]. destruct (Simple.search r rest) as [[[[b m] cs] rest']|]; reflexivity.
  - cbn [append Simple.search]. rewrite matchHere_run.
    change (String c (run ++ rest)) with (String c run ++ rest).
    rewrite (span_run f _ _ Hrun Hrest). cbn [fst].
    rewrite (proj2 (Nat.leb_gt _ _)) by exact Hshort.
    cbn in Hrun. apply andb_true_iff in Hrun.
    rewrite IH by (try tauto; cbn in Hshort; lia).
    destruct (Simple.search r rest) as [[[[b m] cs] rest']|]; reflexivity.
Qed.

Lemma search_nonempty (s before m rest : string) (cs : Simple.captures) :
  Simple.search r s = Some (before, m, cs, rest) -> m <> EmptyString.
Proof.
  revert before. induction s as [|c s IH]; intros before; cbn [Simple.search];
    rewrite matchHere_run.
  - cbn. rewrite (proj2 (Nat.leb_gt _ _)) by lia. discriminate.
  - remember (Simple.span f (String c s)) as sp eqn:Hsp. clear Hsp.
    destruct (min <=? String.length (fst sp)) eqn:Hle.
    + intros Heq Hempty. injection Heq as _ Hm _ _. apply Nat.leb_le in Hle.
      rewrite Hm, Hempty in Hle. cbn in Hle. lia.
    + destruct (Simple.search r s) as [[[[b m'] cs'] rest']|]; [|discriminate].
      intros [= _ <- <- <-]. eapply IH. reflexivity.
Qed.

Lemma replaceLoop_outside (fuel : nat) (b : bool) (c : ascii) (s : string) :
  f c = false ->
  Simple.replaceLoop (S fuel) r repl b (String c s)
  = String c (Simple.replaceLoop (S fuel) r repl b s).
Proof.
  intros Hc. cbn [Simple.replaceLoop]. rewrite (search_outside c s Hc).
  destruct (Simple.search r s) as [[[[before m] cs] rest]|] eqn:Hs; [|reflexivity].
  pose proof (search_nonempty _ _ _ _ _ Hs) as Hm.
  destruct m as [|d m]; [congruence|]. reflexivity.
Qed.

Lemma replaceLoop_short (fuel : nat) (b : bool) (run rest : string) :
  allIn f run = true -> startsOutside f rest = true -> String.length run < min ->
  Simple.replaceLoop (S fuel) r repl b (run ++ rest)
  = run ++ Simple.replaceLoop (S fuel) r repl b rest.
Proof.
  intros Hrun Hrest Hshort. cbn [Simple.replaceLoop].
  rewrite (search_short run rest Hrun Hrest Hshort).
  destruct (Simple.search r rest) as [[[[before m] cs] rest']|] eqn:Hs; [|reflexivity].
  pose proof (search_nonempty _ _ _ _ _ Hs) as Hm.
  destruct m as [|d m]; [congruence|].
  rewrite !append_assoc. reflexivity.
Qed.

Lemma replaceLoop_long (fuel : nat) (b : bool) (run rest : string) :
  allIn f run = true -> startsOutside f rest = true -> min <= String.length run ->
  Simple.replaceLoop (S fuel) r repl b (run ++ rest)
  = repl ++ Simple.replaceLoop fuel r repl true rest.
Proof.
  intros Hrun Hrest Hlong. cbn [Simple.replaceLoop].
  rewrite search_long; rewrite (span_run f _ _ Hrun Hrest); cbn [fst snd];
    [|exact Hlong].
  destruct run as [|c run]; [cbn in Hlong; lia|].
  rewrite repl_literal. reflexivity.
Qed.

Lemma run_at_head (c : ascii) (s : string) :
  f c = true ->
  exists run rest,
    String c s = run ++ rest /\ run <> EmptyString
    /\ allIn f run = true /\ startsOutside f rest = true.
Proof.
  intros Hc. destruct (span_app f (String c s)) as [Hs [Hall Hout]].
  exists (fst (Simple.span f (String c s))), (snd (Simple.span f (String c s))).
  repeat split; try assumption.
  cbn [Simple.span]. rewrite Hc. destruct (Simple.span f s). discriminate.
Qed.

(** Replacing the matches of such a pattern collapses the runs. *)
Lemma replaceLoop_collapsed :
  forall n s, String.length s <= n ->
  forall fuel b, String.length s < fuel ->
    Collapsed f min repl s (Simple.replaceLoop fuel r repl b s).
Proof.
  assert (Hempty : forall fuel b, 0 < fuel ->
             Simple.replaceLoop fuel r repl b EmptyString = EmptyString).
  { intros [|fuel] b Hf; [lia|]. cbn [Simple.replaceLoop Simple.search].
    rewrite matchHere_run. cbn. rewrite (proj2 (Nat.leb_gt _ _)) by lia. reflexivity. }
  induction n as [|n IH]; intros s Hn fuel b Hfuel.
  - destruct s; [|cbn in Hn; lia]. rewrite Hempty by exact Hfuel. constructor.
  - destruct s as [|c s]; [rewrite Hempty by exact Hfuel; constructor|].
    destruct fuel as [|fuel]; [lia|]. cbn [String.length] in *.
    destruct (f c) eqn:Hc.
    + destruct (run_at_head c s Hc) as [run [rest [Hs [Hne [Hall Hout]]]]].
      assert (Hlen : String.length run + String.length rest = S (String.length s))
        by (rewrite <- length_append, <- Hs; reflexivity).
      assert (Hrun : 1 <= String.length run)
        by (destruct run; [congruence | cbn; lia]).
      rewrite Hs. destruct (min <=? String.length run) eqn:Hlong.
      * apply Nat.leb_le in Hlong.
        rewrite (replaceLoop_long fuel b run rest Hall Hout Hlong).
        pose proof (Collapsed_run f min repl run rest _ Hne Hall Hout
                      (IH rest ltac:(lia) fuel true ltac:(lia))) as HC.
        rewrite (proj2 (Nat.leb_le _ _) Hlong) in HC. exact HC.
      * apply Nat.leb_gt in Hlong.
        rewrite (replaceLoop_short fuel b run rest Hall Hout Hlong).
        pose proof (Collapsed_run f min repl run rest _ Hne Hall Hout
                      (IH rest ltac:(lia) (S fuel) b ltac:(lia))) as HC.
        rewrite (proj2 (Nat.leb_gt _ _) Hlong) in HC. exact HC.
    + rewrite (replaceLoop_outside fuel b c s Hc).
      apply Collapsed_byte; [exact Hc|]. apply IH; lia.
Qed.

End RunPatterns.

(** What [ReplaceAllString] does with a run pattern and a literal
    replacement. *)
Lemma ReplaceAllString_collapsed (pattern : string) (set : Simple.charset) (min : nat)
      (repl src : string) (re : Simple.Regexp) :
  Simple.prog re = Simple.Rep min None true (Simple.Chars set) ->
  1 <= min ->
  (forall m cs, Simple.expand (S (String.length repl)) repl m cs = repl) ->
  Collapsed (Simple.inSet set) min repl src (Simple.ReplaceAllString re src repl).
Proof.
  intros Hprog Hmin Hrepl. unfold Simple.ReplaceAllString. rewrite Hprog.
  apply (replaceLoop_collapsed set min repl Hmin Hrepl (String.length src)); lia.
Qed.

(** *** What collapsing keeps *)

Lemma occurs_append (n : nat) (a b : string) :
  occurs n (a ++ b) = occurs n a || occurs n b.
Proof.
  induction a as [|c a IH]; [reflexivity|]. cbn. rewrite IH, orb_assoc. reflexivity.
Qed.

Section CollapsedRuns.
Variable f : ascii -> bool.
Variable min : nat.
Variable repl : string.

Lemma Collapsed_occurs (n : nat) (s t : string) :
  Collapsed f min repl s t ->
  occurs n repl = false -> occurs n s = false -> occurs n t = false.
Proof.
  intros HC Hrepl. induction HC as [| c s t Hc _ IH | run rest t Hne Hall Hout _ IH];
    intros Hs.
  - reflexivity.
  - cbn in *. apply orb_false_iff in Hs. destruct Hs as [-> Hs]. apply IH, Hs.
  - rewrite occurs_append in *. apply orb_false_iff in Hs. destruct Hs as [Hrun Hrest].
    rewrite (IH Hrest), orb_false_r. destruct (min <=? String.length run); assumption.
Qed.

Lemma Collapsed_startsOutside (s t : string) :
  Collapsed f min repl s t -> startsOutside f s = true -> startsOutside f t = true.
Proof.
  intros HC. destruct HC as [| c s t Hc _ | run rest t Hne Hall Hout _]; intros Hs.
  - reflexivity.
  - cbn. rewrite Hc. reflexivity.
  - destruct run as [|c run]; [congruence|]. cbn in Hall, Hs.
    apply andb_true_iff in Hall. destruct Hall as [Hc _]. rewrite Hc in Hs. discriminate.
Qed.

Hypothesis min_positive : 1 <= min.
Hypothesis repl_inside : allIn f repl = true.
Hypothesis repl_settled : settled f min repl repl = true.
Hypothesis repl_short : String.length repl <= min.

Lemma settled_run_append (run t : string) :
  allIn f run = true -> startsOutside f t = true ->
  settled f min repl run = true -> settled f min repl t = true ->
  settled f min repl (run ++ t) = true.
Proof.
  intros Hall Hout Hrun Ht. induction run as [|c run IH]; [exact Ht|].
  change (String c run ++ t) with (String c (run ++ t)). cbn [settled] in *.
  change (String c (run ++ t)) with (String c run ++ t).
  rewrite (span_run f _ _ Hall Hout). cbn [fst].
  apply andb_true_iff in Hrun. destruct Hrun as [Hok Hrun].
  rewrite <- (append_empty_r (String c run)) in Hok.
  rewrite (span_run f _ EmptyString Hall eq_refl) in Hok. cbn [fst] in Hok.
  rewrite Hok. cbn [andb]. cbn in Hall. apply andb_true_iff in Hall.
  apply IH; tauto.
Qed.

Lemma settled_short (run : string) :
  allIn f run = true -> String.length run < min -> settled f min repl run = true.
Proof.
  induction run as [|c run IH]; intros Hall Hshort; [reflexivity|].
  cbn [settled]. rewrite <- (append_empty_r (String c run)) at 1.
  rewrite (span_run f _ EmptyString Hall eq_refl). cbn [fst].
  unfold okRun. rewrite (proj2 (Nat.ltb_lt _ _) Hshort). cbn [orb andb].
  cbn in Hall, Hshort. apply andb_true_iff in Hall. apply IH; [tauto | lia].
Qed.

(** The result of a pass is settled, *)
Lemma Collapsed_settled (s t : string) :
  Collapsed f min repl s t -> settled f min repl t = true.
Proof.
  induction 1 as [| c s t Hc HC IH | run rest t Hne Hall Hout HC IH].
  - reflexivity.
  - cbn [settled Simple.span]. rewrite Hc. cbn [fst]. rewrite IH.
    unfold okRun. cbn [String.length]. rewrite (proj2 (Nat.ltb_lt _ _)) by lia.
    reflexivity.
  - pose proof (Collapsed_startsOutside _ _ HC Hout) as Hstart.
    destruct (min <=? String.length run) eqn:Hlong.
    + apply settled_run_append; assumption.
    + apply Nat.leb_gt in Hlong.
      apply settled_run_append; try assumption. apply settled_short; assumption.
Qed.

Lemma settled_append_r (a b : string) :
  settled f min repl (a ++ b) = true -> settled f min repl b = true.
Proof.
  induction a as [|c a IH]; [tauto|]. cbn [append settled].
  intros Hs. apply andb_true_iff in Hs. apply IH. tauto.
Qed.


Lemma span_append_fst (a b : string) :
  fst (Simple.span f (a ++ b))
  = if allIn f a then a ++ fst (Simple.span f b) else fst (Simple.span f a).
Proof.
  induction a as [|c a IH]; [reflexivity|].
  cbn [append Simple.span allIn]. destruct (f c); [|reflexivity]. cbn [andb].
  destruct (Simple.span f (a ++ b)) as [x y], (Simple.span f a) as [x' y'].
  cbn [fst] in *. rewrite IH. destruct (allIn f a); reflexivity.
Qed.

Lemma okRun_prefix (a b : string) :
  okRun min repl (a ++ b) = true -> okRun min repl a = true.
Proof.
  unfold okRun. intros Hok. apply orb_true_iff in Hok. apply orb_true_iff.
  destruct Hok as [Hshort | Heq].
  - left. apply Nat.ltb_lt in Hshort. rewrite length_append in Hshort.
    apply Nat.ltb_lt. lia.
  - apply String.eqb_eq in Heq. destruct b as [|c b].
    + right. rewrite append_empty_r in Heq. apply String.eqb_eq, Heq.
    + left. apply Nat.ltb_lt. rewrite <- Heq, length_append in repl_short.
      cbn in repl_short. lia.
Qed.

Lemma settled_append_l (a b : string) :
  settled f min repl (a ++ b) = true -> settled f min repl a = true.
Proof.
  induction a as [|c a IH]; [reflexivity|].
  change (String c a ++ b) with (String c (a ++ b)). cbn [settled].
  change (String c (a ++ b)) with (String c a ++ b).
  intros Hs. apply andb_true_iff in Hs. destruct Hs as [Hok Hrest].
  rewrite (IH Hrest), andb_true_r. rewrite span_append_fst in Hok.
  destruct (allIn f (String c a)) eqn:Hall; [|exact Hok].
  rewrite <- (append_empty_r (String c a)) at 1.
  rewrite (span_run f _ EmptyString Hall eq_refl). cbn [fst].
  apply (okRun_prefix _ _ Hok).
Qed.

(** A piece of a settled string is settled. *)
Lemma settled_infix (a s b : string) :
  settled f min repl (a ++ s ++ b) = true -> settled f min repl s = true.
Proof. intros H. eapply settled_append_l, settled_append_r, H. Qed.

End CollapsedRuns.

(** *** Trimming *)

Section Trimming.
(** [trim] drops from the head of a string what [step] recognizes, as
    long as it recognizes something. *)
Variable step : string -> option string.
Variable trim : string -> string.
Hypothesis trim_unfold :
  forall s, trim s = match step s with Some rest => trim rest | None => s end.
Hypothesis step_suffix :
  forall s rest, step s = Some rest -> exists a, a <> EmptyString /\ s = a ++ rest.
Hypothesis step_append :
  forall v w rest, step v = Some rest -> step (v ++ w) = Some (rest ++ w).

Lemma step_shorter (s rest : string) :
  step s = Some rest -> String.length rest < String.length s.
Proof.
  intros Hs. destruct (step_suffix _ _ Hs) as [a [Ha ->]]. rewrite length_append.
  destruct a; [congruence | cbn; lia].
Qed.

Lemma trim_facts :
  forall n s, String.length s <= n ->
    (exists a, s = a ++ trim s) /\ step (trim s) = None.
Proof.
  induction n as [|n IH]; intros s Hn; rewrite (trim_unfold s);
    destruct (step s) as [rest|] eqn:Hs.
  - apply step_shorter in Hs. lia.
  - split; [exists EmptyString; reflexivity | exact Hs].
  - pose proof (step_shorter _ _ Hs) as Hshort.
    destruct (IH rest ltac:(lia)) as [[a Ha] Hnone]. split; [|exact Hnone].
    destruct (step_suffix _ _ Hs) as [a' [_ Hs']].
    exists (a' ++ a). rewrite append_assoc, <- Ha. exact Hs'.
  - split; [exists EmptyString; reflexivity | exact Hs].
Qed.

Lemma trim_suffix (s : string) : exists a, s = a ++ trim s.
Proof. apply (trim_facts (String.length s) s (le_n _)). Qed.

Lemma trim_settles (s : string) : step (trim s) = None.
Proof. apply (trim_facts (String.length s) s (le_n _)). Qed.

Lemma trim_fixed (s : string) : step s = None -> trim s = s.
Proof. intros Hs. rewrite trim_unfold, Hs. reflexivity. Qed.

Lemma trim_idempotent (s : string) : trim (trim s) = trim s.
Proof. apply trim_fixed, trim_settles. Qed.

Lemma trim_fixed_prefix (v w : string) : step (v ++ w) = None -> trim v = v.
Proof.
  intros Hvw. apply trim_fixed. destruct (step v) as [rest|] eqn:Hv; [|reflexivity].
  rewrite (step_append v w rest Hv) in Hvw. discriminate.
Qed.

End Trimming.

Lemma trimLeftSpace_unfold (s : string) :
  strings.trimLeftSpace s
  = match stepSpace s with Some rest => strings.trimLeftSpace rest | None => s end.
Proof.
  destruct s as [|c [|d [|e r]]]; cbn [strings.trimLeftSpace stepSpace]; try reflexivity;
    destruct (strings.isASCIISpace c); try reflexivity;
    destruct (strings.isSpace2 c d); try reflexivity;
    destruct (strings.isSpace3 c d e); reflexivity.
Qed.

Lemma stepSpace_suffix (s rest : string) :
  stepSpace s = Some rest -> exists a, a <> EmptyString /\ s = a ++ rest.
Proof.
  destruct s as [|c [|d [|e r]]]; cbn [stepSpace]; try discriminate;
    destruct (strings.isASCIISpace c);
    try (intros [= <-]; exists (String c EmptyString); split; [discriminate | reflexivity]);
    try discriminate;
    destruct (strings.isSpace2 c d);
    try (intros [= <-]; exists (String c (String d EmptyString));
         split; [discriminate | reflexivity]);
    try discriminate;
    destruct (strings.isSpace3 c d e); try discriminate.
  intros [= <-]. exists (String c (String d (String e EmptyString))).
  split; [discriminate | reflexivity].
Qed.

Lemma stepSpace_append (v w rest : string) :
  stepSpace v = Some rest -> stepSpace (v ++ w) = Some (rest ++ w).
Proof.
  destruct v as [|c [|d [|e r]]]; cbn [stepSpace append]; try discriminate;
    destruct (strings.isASCIISpace c);
    try (intros [= <-]; reflexivity); try discriminate;
    destruct (strings.isSpace2 c d);
    try (intros [= <-]; reflexivity); try discriminate;
    try (destruct w; discriminate);
    destruct (strings.isSpace3 c d e); try discriminate.
  intros [= <-]. reflexivity.
Qed.

Lemma trimLeftSpaceRev_unfold (s : string) :
  strings.trimLeftSpaceRev s
  = match stepSpaceRev s with Some rest => strings.trimLeftSpaceRev rest | None => s end.
Proof.
  destruct s as [|c [|d [|e r]]]; cbn [strings.trimLeftSpaceRev stepSpaceRev];
    try reflexivity;
    destruct (strings.isASCIISpace c); try reflexivity;
    destruct (strings.isSpace2 d c); try reflexivity;
    destruct (strings.isSpace3 e d c); reflexivity.
Qed.

Lemma stepSpaceRev_suffix (s rest : string) :
  stepSpaceRev s = Some rest -> exists a, a <> EmptyString /\ s = a ++ rest.
Proof.
  destruct s as [|c [|d [|e r]]]; cbn [stepSpaceRev]; try discriminate;
    destruct (strings.isASCIISpace c);
    try (intros [= <-]; exists (String c EmptyString); split; [discriminate | reflexivity]);
    try discriminate;
    destruct (strings.isSpace2 d c);
    try (intros [= <-]; exists (String c (String d EmptyString));
         split; [discriminate | reflexivity]);
    try discriminate;
    destruct (strings.isSpace3 e d c); try discriminate.
  intros [= <-]. exists (String c (String d (String e EmptyString))).
  split; [discriminate | reflexivity].
Qed.

Lemma stepSpaceRev_append (v w rest : string) :
  stepSpaceRev v = Some rest -> stepSpaceRev (v ++ w) = Some (rest ++ w).
Proof.
  destruct v as [|c [|d [|e r]]]; cbn [stepSpaceRev append]; try discriminate;
    destruct (strings.isASCIISpace c);
    try (intros [= <-]; reflexivity); try discriminate;
    destruct (strings.isSpace2 d c);
    try (intros [= <-]; reflexivity); try discriminate;
    try (destruct w; discriminate);
    destruct (strings.isSpace3 e d c); try discriminate.
  intros [= <-]. reflexivity.
Qed.



Lemma list_of_append (a b : string) :
  list_ascii_of_string (a ++ b) = (list_ascii_of_string a ++ list_ascii_of_string b)%list.
Proof. induction a as [|c a IH]; cbn; [reflexivity | rewrite IH; reflexivity]. Qed.

Lemma string_of_app (l1 l2 : list ascii) :
  string_of_list_ascii (l1 ++ l2)%list = string_of_list_ascii l1 ++ string_of_list_ascii l2.
Proof. induction l1 as [|c l1 IH]; cbn; [reflexivity | rewrite IH; reflexivity]. Qed.

Lemma rev_append (a b : string) : strings.rev (a ++ b) = strings.rev b ++ strings.rev a.
Proof.
  unfold strings.rev. rewrite list_of_append, rev_app_distr, string_of_app. reflexivity.
Qed.

Lemma rev_involutive (s : string) : strings.rev (strings.rev s) = s.
Proof.
  unfold strings.rev. rewrite list_ascii_of_string_of_list_ascii, List.rev_involutive.
  apply string_of_list_ascii_of_string.
Qed.

Lemma trimLeftSpace_suffix (s : string) : exists a, s = a ++ strings.trimLeftSpace s.
Proof.
  apply (trim_suffix stepSpace strings.trimLeftSpace trimLeftSpace_unfold stepSpace_suffix).
Qed.

Lemma trimRightSpace_prefix (s : string) : exists b, s = strings.trimRightSpace s ++ b.
Proof.
  unfold strings.trimRightSpace.
  destruct (trim_suffix stepSpaceRev strings.trimLeftSpaceRev trimLeftSpaceRev_unfold
                        stepSpaceRev_suffix (strings.rev s)) as [a Ha].
  exists (strings.rev a). rewrite <- rev_append, <- Ha. symmetry. apply rev_involutive.
Qed.

(** Trimming cuts a piece out of the string, *)
Lemma TrimSpace_infix (s : string) : exists a b, s = a ++ strings.TrimSpace s ++ b.
Proof.
  unfold strings.TrimSpace. destruct (trimLeftSpace_suffix s) as [a Ha].
  destruct (trimRightSpace_prefix (strings.trimLeftSpace s)) as [b Hb].
  exists a, b. rewrite <- Hb. exact Ha.
Qed.

Lemma trimRightSpace_idempotent (s : string) :
  strings.trimRightSpace (strings.trimRightSpace s) = strings.trimRightSpace s.
Proof.
  unfold strings.trimRightSpace. rewrite rev_involutive.
  rewrite (trim_idempotent stepSpaceRev strings.trimLeftSpaceRev trimLeftSpaceRev_unfold
                           stepSpaceRev_suffix).
  reflexivity.
Qed.

(** and trimming what is trimmed changes nothing. *)
Lemma TrimSpace_idempotent (s : string) :
  strings.TrimSpace (strings.TrimSpace s) = strings.TrimSpace s.
Proof.
  unfold strings.TrimSpace.
  destruct (trimRightSpace_prefix (strings.trimLeftSpace s)) as [b Hb].
  pose proof (trim_settles stepSpace strings.trimLeftSpace trimLeftSpace_unfold
                           stepSpace_suffix s) as Hnone.
  rewrite Hb in Hnone.
  rewrite (trim_fixed_prefix stepSpace strings.trimLeftSpace trimLeftSpace_unfold
                             stepSpace_append _ _ Hnone).
  apply trimRightSpace_idempotent.
Qed.

Lemma occurs_infix (n : nat) (a s b : string) :
  occurs n (a ++ s ++ b) = false -> occurs n s = false.
Proof.
  rewrite !occurs_append. intros H. apply orb_false_iff in H. destruct H as [_ H].
  apply orb_false_iff in H. tauto.
Qed.

Lemma TrimSpace_occurs (n : nat) (s : string) :
  occurs n s = false -> occurs n (strings.TrimSpace s) = false.
Proof.
  intros Hs. destruct (TrimSpace_infix s) as [a [b Hab]]. rewrite Hab in Hs.
  apply (occurs_infix n a _ b Hs).
Qed.

Lemma TrimSpace_settled (f : ascii -> bool) (min : nat) (repl s : string) :
  1 <= min -> String.length repl <= min ->
  settled f min repl s = true -> settled f min repl (strings.TrimSpace s) = true.
Proof.
  intros Hmin Hrepl Hs. destruct (TrimSpace_infix s) as [a [b Hab]]. rewrite Hab in Hs.
  apply (settled_infix f min repl Hmin Hrepl a _ b Hs).
Qed.

(** *** [strings.ReplaceAll] *)

Lemma code_chr (c : ascii) (n : nat) : strings.code c = n -> c = strings.chr n.
Proof.
  unfold strings.code, strings.chr. intros <-. symmetry. apply ascii_nat_embedding.
Qed.




(** Replacing every CR leaves no CR. *)
Lemma replaceFrom_CR (s : string) :
  occurs 13 (strings.replaceFrom strings.CR strings.LF 0 s) = false.
Proof.
  change strings.CR with (String (strings.chr 13) EmptyString).
  change strings.LF with (String (strings.chr 10) EmptyString).
  induction s as [|c s IH]; [reflexivity|].
  cbn [strings.replaceFrom].
  destruct (strings.HasPrefix (String c s) (String (strings.chr 13) EmptyString)) eqn:Hp.
  - cbn [String.length Nat.sub append occurs]. rewrite IH. reflexivity.
  - cbn [occurs]. rewrite IH, orb_false_r. apply Nat.eqb_neq. intros Hc.
    apply code_chr in Hc. subst c. unfold strings.HasPrefix in Hp.
    cbn [String.prefix] in Hp.
    destruct (ascii_dec (strings.chr 13) (strings.chr 13)) as [_ | Hne];
      [|congruence].
    destruct s; discriminate.
Qed.

(** *** One pass after another *)

Section TwoByteSets.
(** Collapsing the runs of [f] does not disturb what is settled for a
    disjoint set [g], when the replacement is made of bytes outside [g]. *)
Variables f g : ascii -> bool.
Variables min gmin : nat.
Variables repl grepl : string.
Hypothesis disjoint : forall c, f c = true -> g c = false.
Hypothesis repl_outside : allIn (fun c => negb (g c)) repl = true.
Hypothesis gmin_positive : 1 <= gmin.

Lemma allIn_outside (run : string) :
  allIn f run = true -> allIn (fun c => negb (g c)) run = true.
Proof.
  induction run as [|c run IH]; [reflexivity|]. cbn. intros H.
  apply andb_true_iff in H. destruct H as [Hc Hrun].
  rewrite (disjoint c Hc), (IH Hrun). reflexivity.
Qed.

Lemma settled_outside_append (x t : string) :
  allIn (fun c => negb (g c)) x = true ->
  settled g gmin grepl t = true -> settled g gmin grepl (x ++ t) = true.
Proof.
  intros Hx Ht. induction x as [|c x IH]; [exact Ht|].
  cbn in Hx. apply andb_true_iff in Hx. destruct Hx as [Hc Hx].
  apply negb_true_iff in Hc.
  cbn [append settled Simple.span]. rewrite Hc. cbn [fst]. rewrite (IH Hx).
  unfold okRun. cbn [String.length]. rewrite (proj2 (Nat.ltb_lt _ _)) by lia.
  reflexivity.
Qed.

Lemma span_outside_append (x t : string) :
  x <> EmptyString -> allIn (fun c => negb (g c)) x = true ->
  fst (Simple.span g (x ++ t)) = EmptyString.
Proof.
  destruct x as [|c x]; [congruence|]. intros _ Hx. cbn in Hx.
  apply andb_true_iff in Hx. destruct Hx as [Hc _]. apply negb_true_iff in Hc.
  cbn [append Simple.span]. rewrite Hc. reflexivity.
Qed.

Hypothesis repl_not_empty : repl <> EmptyString.

Lemma Collapsed_keeps_run (s t : string) :
  Collapsed f min repl s t -> fst (Simple.span g s) = fst (Simple.span g t).
Proof.
  induction 1 as [| c s t Hc HC IH | run rest t Hne Hall Hout HC IH].
  - reflexivity.
  - cbn [Simple.span]. destruct (g c); [|reflexivity].
    destruct (Simple.span g s), (Simple.span g t). cbn [fst] in *. congruence.
  - rewrite (span_outside_append run rest Hne (allIn_outside run Hall)).
    destruct (min <=? String.length run).
    + rewrite (span_outside_append repl t repl_not_empty repl_outside). reflexivity.
    + rewrite (span_outside_append run t Hne (allIn_outside run Hall)). reflexivity.
Qed.

Lemma Collapsed_keeps_settled (s t : string) :
  Collapsed f min repl s t ->
  settled g gmin grepl s = true -> settled g gmin grepl t = true.
Proof.
  induction 1 as [| c s t Hc HC IH | run rest t Hne Hall Hout HC IH]; intros Hs.
  - reflexivity.
  - pose proof (Collapsed_keeps_run _ _ (Collapsed_byte f min repl c s t Hc HC)) as Hrun.
    cbn [settled] in *. apply andb_true_iff in Hs. destruct Hs as [Hok Hrest].
    rewrite <- Hrun, Hok, (IH Hrest). reflexivity.
  - apply settled_append_r in Hs. specialize (IH Hs).
    destruct (min <=? String.length run).
    + apply settled_outside_append; assumption.
    + apply settled_outside_append; [apply allIn_outside, Hall | exact IH].
Qed.

End TwoByteSets.

Lemma newline_pattern :
  Simple.Compile "\n{3,}"
  = Some {| Simple.prog := Simple.Rep 3 None true (Simple.Chars newlineSet);
            Simple.numSubexp := 0 |}.
Proof. vm_compute. reflexivity. Qed.

Lemma blank_pattern :
  Simple.Compile "[ \t]+"
  = Some {| Simple.prog := Simple.Rep 1 None true (Simple.Chars blankSet);
            Simple.numSubexp := 0 |}.
Proof. vm_compute. reflexivity. Qed.

(** The step [\n{3,}] -> two line feeds of both sanitizers. *)
Lemma mustReplaceAll_newlines (src : string) :
  exists t,
    @mustReplaceAll Simple.collaborators "\n{3,}" src twoNewlines = Returned t
    /\ Collapsed (Simple.inSet newlineSet) 3 twoNewlines src t.
Proof.
  unfold mustReplaceAll. cbn [Compile Simple.collaborators]. rewrite newline_pattern.
  eexists. split; [reflexivity|].
  cbn [ReplaceAllString Simple.collaborators].
  apply (ReplaceAllString_collapsed "\n{3,}" newlineSet 3); [reflexivity | lia |].
  intros m cs. reflexivity.
Qed.

(** The step [[ \t]+] -> one space of the normalizer. *)
Lemma mustReplaceAll_blanks (src : string) :
  exists t,
    @mustReplaceAll Simple.collaborators "[ \t]+" src " " = Returned t
    /\ Collapsed (Simple.inSet blankSet) 1 " " src t.
Proof.
  unfold mustReplaceAll. cbn [Compile Simple.collaborators]. rewrite blank_pattern.
  eexists. split; [reflexivity|].
  cbn [ReplaceAllString Simple.collaborators].
  apply (ReplaceAllString_collapsed "[ \t]+" blankSet 1); [reflexivity | lia |].
  intros m cs. reflexivity.
Qed.



Lemma andThen_Returned (s : string) (f : string -> outcome string) :
  andThen (Returned s) f = f s.
Proof. reflexivity. Qed.




(** *** The two sanitizers on plain text *)








(* ===================================================================== *)
(** * Further properties of the extractor *)
(* ===================================================================== *)

(** ** The orchestrator *)

(** The loop of [ContentExtractor.Extract], from any point of the run:
    it ends with the result it had, one warning longer per strategy, or
    with the content of one of the strategies, long enough. *)
Lemma tryStrategies_shape (o : ExtractionOptions) (doc : Document)
      (l : list DetectionStrategy) :
  forall (result : ExtractionResult) (lastErr : option error) (st : Store),
  exists (result' : ExtractionResult) (err : option error) (st' : Store),
    ContentExtractor.tryStrategies (Some o) doc l result lastErr st
    = (Returned (result', err), st')
    /\ Title result' = Title result
    /\ ((Content result' = Content result
         /\ StrategyUsed result' = StrategyUsed result
         /\ List.length (Warnings result')
            = List.length (Warnings result) + List.length l
         /\ err = match err with Some e => Some e | None => lastErr end)
        \/ (err = None
            /\ (MinContentLength o <= len (Content result'))%Z
            /\ (exists s, In s l /\ StrategyUsed result' = Name s)
            /\ List.length (Warnings result')
               < List.length (Warnings result) + List.length l)).
Proof.
  induction l as [|s l IH]; intros result lastErr st.
  - exists result, lastErr, st. cbn [ContentExtractor.tryStrategies].
    split; [destruct lastErr; reflexivity|]. split; [reflexivity|].
    left. cbn [List.length]. rewrite Nat.add_0_r. destruct lastErr; auto.
  - cbn [ContentExtractor.tryStrategies]. unfold bind.
    destruct (Extract s doc (Some o) st) as [[content | e] st1].
    + destruct (len content <? MinContentLength o)%Z eqn:Hshort.
      * destruct (IH (ContentExtractor.appendWarning result
                        ("Strategy '" ++ Name s ++ "' returned content too short"))
                     lastErr st1)
          as (r' & err & st' & Heq & Ht & Hcase).
        exists r', err, st'. split; [exact Heq|]. split; [exact Ht|].
        rewrite appendWarning_Warnings, length_app in Hcase. cbn [List.length] in *.
        destruct Hcase as [(Hc & Hs & Hw & He) | (He & Hlong & (s' & Hin & Hs) & Hw)].
        -- left. repeat split; try assumption. lia.
        -- right. repeat split; try assumption; [|lia]. exists s'. split; [right|]; assumption.
      * eexists _, None, st1. split; [reflexivity|]. split; [reflexivity|].
        right. cbn [Content StrategyUsed Warnings List.length].
        split; [reflexivity|]. split; [apply Z.ltb_ge, Hshort|].
        split; [exists s; split; [left|]; reflexivity | lia].
    + destruct (IH (ContentExtractor.appendWarning result
                      ("Strategy '" ++ Name s ++ "' failed: " ++ e))
                   (Some e) st1)
        as (r' & err & st' & Heq & Ht & Hcase).
      exists r', err, st'. split; [exact Heq|]. split; [exact Ht|].
      rewrite appendWarning_Warnings, length_app in Hcase. cbn [List.length] in *.
      destruct Hcase as [(Hc & Hs & Hw & He) | (He & Hlong & (s' & Hin & Hs) & Hw)].
      -- left. repeat split; try assumption; [lia|].
         destruct err; [reflexivity | discriminate].
      -- right. repeat split; try assumption; [|lia]. exists s'. split; [right|]; assumption.
Qed.

(** X1.  With options that are not nil, [ContentExtractor.Extract] does not
    panic, and what it returns has one of two shapes.  Either no strategy
    was accepted: the content and the strategy name are empty and there is
    one warning for every strategy of the chain.  Or the error is nil, the
    content is at least [MinContentLength] bytes long, it is attributed to
    a strategy of the chain, and fewer warnings than strategies were
    recorded.  The title is empty in both: the orchestrator never sets
    it. *)
Theorem orchestrator_result_shape (ce : ContentExtractor.t) (o : ExtractionOptions)
        (doc : Document) (st : Store) :
  ContentExtractor.options ce = Some o ->
  exists (result : ExtractionResult) (err : option error) (st' : Store),
    ContentExtractor.Extract ce doc st = (Returned (result, err), st')
    /\ Title result = ""
    /\ ((Content result = "" /\ StrategyUsed result = ""
         /\ List.length (Warnings result) = List.length (ContentExtractor.strategies ce))
        \/ (err = None
            /\ (MinContentLength o <= len (Content result))%Z
            /\ (exists s, In s (ContentExtractor.strategies ce)
                          /\ StrategyUsed result = Name s)
            /\ List.length (Warnings result)
               < List.length (ContentExtractor.strategies ce))).
Proof.
  intros Ho. unfold ContentExtractor.Extract. rewrite Ho.
  destruct (tryStrategies_shape o doc (ContentExtractor.strategies ce)
              {| Content := ""; Title := ""; StrategyUsed := ""; Warnings := [] |}
              None st)
    as (r' & err & st' & Heq & Ht & Hcase).
  exists r', err, st'. split; [exact Heq|]. split; [exact Ht|].
  cbn [Content StrategyUsed Warnings List.length Nat.add] in Hcase.
  destruct Hcase as [(Hc & Hs & Hw & _) | Hacc]; [left | right]; auto.
Qed.

Lemma orchestrator_result_shape_witness :
  exists (result : ExtractionResult) (err : option error) (st' : Store),
    ContentExtractor.Extract
      (ContentExtractor.New [Examples.titleSelector; Examples.paragraphSelector] None)
      0 [Examples.shortPage]
    = (Returned (result, err), st')
    /\ Title result = ""
    /\ ((Content result = "" /\ StrategyUsed result = ""
         /\ List.length (Warnings result) = 2)
        \/ (err = None
            /\ (100 <= len (Content result))%Z
            /\ (exists s, In s [Examples.titleSelector; Examples.paragraphSelector]
                          /\ StrategyUsed result = Name s)
            /\ List.length (Warnings result) < 2)).
Proof.
  apply (orchestrator_result_shape
           (ContentExtractor.New [Examples.titleSelector; Examples.paragraphSelector] None)
           DefaultExtractionOptions 0 [Examples.shortPage]).
  reflexivity.
Defined.




(** X3.  The orchestrator takes the first content that is long enough:
    when the strategies before [s] all fail or return content shorter than
    [MinContentLength], and [s] returns content that is not shorter, the
    result is that content under the name of [s], with a nil error and
    the warnings of the strategies before it; the strategies after [s] are
    not run (the heap is the one [s] left). *)
Theorem orchestrator_accepts_first_long_enough
        (ce : ContentExtractor.t) (o : ExtractionOptions)
        (pre post : list DetectionStrategy) (s : DetectionStrategy)
        (doc : Document) (st st1 st2 : Store) (warnings : list string)
        (lastErr : option error) (content : string) :
  ContentExtractor.options ce = Some o ->
  ContentExtractor.strategies ce = (pre ++ s :: post)%list ->
  Rejected doc o pre st warnings lastErr st1 ->
  Extract s doc (Some o) st1 = (Ok content, st2) ->
  (MinContentLength o <= len content)%Z ->
  ContentExtractor.Extract ce doc st
  = (Returned ({| Content := content; Title := ""; StrategyUsed := Name s;
                  Warnings := warnings |}, None), st2).
Proof.
  intros Ho Hl Hrej Hs Hlong. unfold ContentExtractor.Extract. rewrite Ho, Hl.
  rewrite (tryStrategies_accepts _ _ _ _ _ _ _ _ _ _ _ Hrej Hs Hlong). reflexivity.
Qed.

(** The page has no [title] element, so the first strategy fails; the
    selector strategy on [p] returns the 119 bytes of prose; the strategy
    after it would fail and is not asked. *)
Lemma orchestrator_accepts_first_long_enough_witness :
  ContentExtractor.Extract
    (ContentExtractor.New
       [Examples.titleSelector; Examples.paragraphSelector;
        Examples.failing "last" "not reached"]
       None)
    0 [Examples.prosePage]
  = (Returned
       ({| Content := Examples.prose; Title := ""; StrategyUsed := "css_selector";
           Warnings :=
             ["Strategy 'css_selector' failed: selector 'title' matched no elements"] |},
        None),
     [Examples.prosePage; Examples.element "p" [TextNode Examples.prose]]).
Proof.
  apply (orchestrator_accepts_first_long_enough
           (ContentExtractor.New
              [Examples.titleSelector; Examples.paragraphSelector;
               Examples.failing "last" "not reached"] None)
           DefaultExtractionOptions
           [Examples.titleSelector] [Examples.failing "last" "not reached"]
           Examples.paragraphSelector 0
           [Examples.prosePage] [Examples.prosePage]
           [Examples.prosePage; Examples.element "p" [TextNode Examples.prose]]
           ["Strategy 'css_selector' failed: selector 'title' matched no elements"]
           (Some "selector 'title' matched no elements") Examples.prose).
  - reflexivity.
  - reflexivity.
  - apply (Rejected_error 0 DefaultExtractionOptions Examples.titleSelector []
             [Examples.prosePage] [Examples.prosePage] [Examples.prosePage]
             "selector 'title' matched no elements" [] None).
    + vm_compute. reflexivity.
    + constructor.
  - vm_compute. reflexivity.
  - vm_compute. discriminate.
Defined.

(** ** The strategies and the heap *)

Lemma preserved_refl (st : Store) : preserved st st.
Proof. intros i t Ht. exact Ht. Qed.

Lemma preserved_trans (st1 st2 st3 : Store) :
  preserved st1 st2 -> preserved st2 st3 -> preserved st1 st3.
Proof. intros H12 H23 i t Ht. apply H23, H12, Ht. Qed.

Section StrategiesOnTheHeap.
Context `{Collaborators}.

(** Cleaning a clone: the copies [Clone] makes stand behind the trees of
    the heap, and removing nodes from the copies leaves those trees as they
    were. *)
Lemma removeEach_clone (content : Selection) (sels : list string) (st : Store) :
  preserved st (snd (removeEach (fst (Clone content st)) sels (snd (Clone content st)))).
Proof.
  intros i t Ht.
  pose proof (Clone_roots content st) as Hroots.
  assert (Hheap : exists copies, snd (Clone content st) = (st ++ copies)%list)
    by (eexists; reflexivity).
  destruct Hheap as [copies Hheap]. rewrite Hheap.
  assert (Hi : i < List.length st) by (apply nth_error_Some; congruence).
  assert (Hroots' : Forall (fun r => at_ r = []) (fst (Clone content st)))
    by (eapply Forall_impl; [|exact Hroots]; cbn beta; tauto).
  assert (Hout : existsb (fun r => root r =? i) (fst (Clone content st)) = false).
  { apply Bool.not_true_iff_false. intros Hin. apply existsb_exists in Hin.
    destruct Hin as [r [Hr Hri]]. apply Nat.eqb_eq in Hri.
    rewrite Forall_forall in Hroots. destruct (Hroots r Hr) as [_ Hge]. lia. }
  assert (H1 : nth_error (st ++ copies) i = Some t)
    by (rewrite nth_error_app1 by exact Hi; exact Ht).
  rewrite (removeEach_roots _ sels Hroots' _ _ _ H1), Hout. reflexivity.
Qed.

(** Reading the markup of the document gives the same on a heap that
    preserves it. *)
Lemma Html_preserved (doc : Document) (st st' : Store) :
  preserved st st' -> doc < List.length st ->
  fst (Html (docSelection doc) st') = fst (Html (docSelection doc) st).
Proof.
  intros Hp Hdoc. unfold Html, gets, docSelection, deref. cbn [fst root at_].
  destruct (nth_error st doc) as [t|] eqn:Ht.
  - rewrite (Hp _ _ Ht). reflexivity.
  - apply nth_error_None in Ht. lia.
Qed.

Lemma dom_tryPatterns_spec (doc : Document) (rest : list string) :
  forall st : Store,
  exists (r : res string) (st' : Store),
    DOMPositionStrategy.tryPatterns doc rest st = (r, st')
    /\ preserved st st'
    /\ match r with
       | Ok html => (100 < len html)%Z /\ strings.TrimSpace html = html
       | Err err => err = "no content found using DOM position heuristics"
       end.
Proof.
  induction rest as [|pattern rest IH]; intros st.
  - eexists _, st. split; [reflexivity|]. split; [apply preserved_refl | reflexivity].
  - cbn [DOMPositionStrategy.tryPatterns]. unfold bind.
    assert (Hfind : Find (docSelection doc) pattern st
                    = (fst (Find (docSelection doc) pattern st), st)) by reflexivity.
    rewrite Hfind. destruct (Length _ =? 0); [apply IH|].
    pose proof (removeEach_clone (fst (Find (docSelection doc) pattern st))
                                 DOMPositionStrategy.removePatterns st) as Hclean.
    destruct (Clone _ st) as [content st1]. cbn [fst snd] in Hclean.
    destruct (removeEach content _ st1) as [u st2]. cbn [snd] in Hclean.
    assert (Hhtml : Html content st2 = (fst (Html content st2), st2)) by reflexivity.
    rewrite Hhtml.
    assert (Hnext : exists (r : res string) (st' : Store),
               DOMPositionStrategy.tryPatterns doc rest st2 = (r, st')
               /\ preserved st st'
               /\ match r with
                  | Ok html => (100 < len html)%Z /\ strings.TrimSpace html = html
                  | Err err => err = "no content found using DOM position heuristics"
                  end).
    { destruct (IH st2) as (r & st' & Heq & Hp & Hr). exists r, st'.
      split; [exact Heq|]. split; [|exact Hr].
      eapply preserved_trans; [exact Hclean | exact Hp]. }
    destruct (fst (Html content st2)) as [html | e]; [|exact Hnext].
    destruct (100 <? len (strings.TrimSpace html))%Z eqn:Hlong; [|exact Hnext].
    eexists _, st2. split; [reflexivity|]. split; [exact Hclean|].
    split; [apply Z.ltb_lt, Hlong | apply TrimSpace_idempotent].
Qed.

Lemma each_heap (minDensity : float) (minSize : Z) (nodes : Selection) :
  forall (best : option Ref * float) (st : Store),
    snd (TextDensityStrategy.each minDensity minSize nodes best st) = st.
Proof.
  induction nodes as [|node nodes IH]; intros best st; [reflexivity|].
  cbn [TextDensityStrategy.each]. unfold bind. rewrite visit_spec. apply IH.
Qed.

Lemma findBestBlockByDensity_heap (selection : Selection) (minDensity : float)
      (minSize : Z) (st : Store) :
  snd (TextDensityStrategy.findBestBlockByDensity selection minDensity minSize st) = st.
Proof.
  unfold TextDensityStrategy.findBestBlockByDensity, bind, Find, gets.
  pose proof (each_heap minDensity minSize
                (dedup []
                   (flat_map
                      (fun r => match nth_error st (root r) with
                                | Some t => map (fun q => {| root := root r; at_ := q |})
                                               (matchesBelow t "*" (at_ r))
                                | None => []
                                end) selection))
                (None, 0%float) st) as Hheap.
  destruct (TextDensityStrategy.each _ _ _ _ st) as [best st']. exact Hheap.
Qed.

Lemma trimmedHtml_heap (content : Selection) (st : Store) :
  snd (trimmedHtml content st) = st.
Proof.
  unfold trimmedHtml, bind, Html, gets.
  destruct (match content with [] => _ | _ => _ end); reflexivity.
Qed.

End StrategiesOnTheHeap.

(** X4.  The selector strategy works on a clone.  Whatever the selector,
    the exclusions and the options, every tree that was on the heap before
    the call is there after it, unchanged, and the document serializes to
    the same markup before and after. *)
Theorem selector_strategy_keeps_document `{Collaborators}
        (s : CSSSelectorStrategy.t) (doc : Document)
        (opts : option ExtractionOptions) (st : Store) :
  doc < List.length st ->
  preserved st (snd (CSSSelectorStrategy.Extract s doc opts st))
  /\ fst (Html (docSelection doc) (snd (CSSSelectorStrategy.Extract s doc opts st)))
     = fst (Html (docSelection doc) st).
Proof.
  intros Hdoc.
  assert (Hp : preserved st (snd (CSSSelectorStrategy.Extract s doc opts st))).
  { intros i t Ht. apply selector_strategy_frame, Ht. }
  split; [exact Hp | apply Html_preserved; assumption].
Qed.

(** The first article loses its advertisement and its script in the
    clone; the page still serializes with both. *)
Lemma selector_strategy_keeps_document_witness :
  preserved [Examples.twoArticles]
    (snd (@CSSSelectorStrategy.Extract Simple.collaborators Examples.articleSelector 0
            (Some DefaultExtractionOptions) [Examples.twoArticles]))
  /\ fst (@Html Simple.collaborators (docSelection 0)
            (snd (@CSSSelectorStrategy.Extract Simple.collaborators
                    Examples.articleSelector 0
                    (Some DefaultExtractionOptions) [Examples.twoArticles])))
     = fst (@Html Simple.collaborators (docSelection 0) [Examples.twoArticles]).
Proof.
  apply (@selector_strategy_keeps_document Simple.collaborators Examples.articleSelector 0
           (Some DefaultExtractionOptions) [Examples.twoArticles]).
  cbn. lia.
Defined.

(** X5.  The structural strategy.  It works on clones: every tree of the
    heap is unchanged after the call.  Content it returns is trimmed and
    longer than 100 bytes; the only error it returns is the one that says
    no pattern gave such content.  Its two settings, [MaxDepth] and
    [MinWidth], are not read: any two structural strategies return the
    same. *)
Theorem structural_strategy_result `{Collaborators}
        (s : DOMPositionStrategy.t) (doc : Document)
        (opts : option ExtractionOptions) (st : Store) :
  preserved st (snd (DOMPositionStrategy.Extract s doc opts st))
  /\ (forall html, fst (DOMPositionStrategy.Extract s doc opts st) = Ok html ->
                   (100 < len html)%Z /\ strings.TrimSpace html = html)
  /\ (forall err, fst (DOMPositionStrategy.Extract s doc opts st) = Err err ->
                  err = "no content found using DOM position heuristics")
  /\ (forall (s' : DOMPositionStrategy.t) (opts' : option ExtractionOptions),
         DOMPositionStrategy.Extract s' doc opts' st
         = DOMPositionStrategy.Extract s doc opts st).
Proof.
  unfold DOMPositionStrategy.Extract.
  destruct (dom_tryPatterns_spec doc DOMPositionStrategy.patterns st)
    as (r & st' & Heq & Hp & Hr).
  rewrite Heq. cbn [fst snd]. split; [exact Hp|].
  split; [intros html ->; exact Hr|]. split; [intros err ->; exact Hr | reflexivity].
Qed.

Lemma density_Extract_heap `{Collaborators}
      (s : TextDensityStrategy.t) (doc : Document)
      (opts : option ExtractionOptions) (st : Store) :
  wantsCleanScripts opts = false ->
  snd (TextDensityStrategy.Extract s doc opts st) = st.
Proof.
  intros Hclean. unfold TextDensityStrategy.Extract. rewrite Hclean.
  unfold bind at 1.
  assert (Hfind : Find (docSelection doc) "body" st
                  = (fst (Find (docSelection doc) "body" st), st)) by reflexivity.
  rewrite Hfind. destruct (Length _ =? 0); [reflexivity|].
  unfold bind at 1.
  match goal with
  | |- context [TextDensityStrategy.findBestBlockByDensity ?sel ?d ?m st] =>
      pose proof (findBestBlockByDensity_heap sel d m st) as Hheap;
      destruct (TextDensityStrategy.findBestBlockByDensity sel d m st) as [best st1]
  end.
  cbn [snd] in Hheap. subst st1.
  destruct best as [node|]; [|reflexivity].
  unfold bind, ret. apply trimmedHtml_heap.
Qed.

(** X6.  The density strategy only reads the heap unless it is asked to
    clean scripts: with nil options, or with [CleanScripts] false, the heap
    after the call is the heap before it. *)
Theorem density_strategy_reads_only `{Collaborators}
        (s : TextDensityStrategy.t) (doc : Document)
        (opts : option ExtractionOptions) (st : Store) :
  wantsCleanScripts opts = false ->
  snd (TextDensityStrategy.Extract s doc opts st) = st.
Proof. apply density_Extract_heap. Qed.

(** The page of C2, without the request to clean scripts: the block is
    returned with its script, and the heap is as it was. *)
Lemma density_strategy_reads_only_witness :
  @TextDensityStrategy.Extract Simple.collaborators
     {| TextDensityStrategy.MinDensityScore := 0; TextDensityStrategy.MinBlockSize := 0 |}
     0 None [Examples.scriptedPage]
  = (Ok (Examples.prose ++ "<script>track()</script>"), [Examples.scriptedPage])
  /\ snd (@TextDensityStrategy.Extract Simple.collaborators
            {| TextDensityStrategy.MinDensityScore := 0;
               TextDensityStrategy.MinBlockSize := 0 |}
            0 None [Examples.scriptedPage])
     = [Examples.scriptedPage].
Proof.
  split; [vm_compute; reflexivity|].
  apply (@density_strategy_reads_only Simple.collaborators
           {| TextDensityStrategy.MinDensityScore := 0;
              TextDensityStrategy.MinBlockSize := 0 |}
           0 None [Examples.scriptedPage]).
  reflexivity.
Defined.



(** ** The hybrid strategy *)

Lemma hybrid_tryStrategies_success (doc : Document) (opts : option ExtractionOptions)
      (l : list DetectionStrategy) :
  forall (errors : list string) (st st' : Store) (content : string),
    HybridStrategy.tryStrategies doc opts l errors st = (Ok content, st') ->
    content <> ""
    /\ exists (sub : DetectionStrategy) (st1 : Store),
         In sub l /\ Extract sub doc opts st1 = (Ok content, st').
Proof.
  induction l as [|s l IH]; intros errors st st' content.
  - cbn. unfold ret. discriminate.
  - cbn [HybridStrategy.tryStrategies]. unfold bind.
    destruct (Extract s doc opts st) as [[c | e] st1] eqn:Hs.
    + destruct (0 <? len c)%Z eqn:Hlen.
      * unfold ret. intros [= <- <-]. split.
        -- intros ->. discriminate.
        -- exists s, st. split; [left; reflexivity | exact Hs].
      * intros Hrest. apply IH in Hrest. destruct Hrest as [Hne (sub & st2 & Hin & Hsub)].
        split; [exact Hne|]. exists sub, st2. split; [right|]; assumption.
    + intros Hrest. apply IH in Hrest. destruct Hrest as [Hne (sub & st2 & Hin & Hsub)].
      split; [exact Hne|]. exists sub, st2. split; [right|]; assumption.
Qed.

Lemma hybrid_tryStrategies_preserved (doc : Document) (opts : option ExtractionOptions)
      (l : list DetectionStrategy) :
  (forall sub, In sub l -> forall st, preserved st (snd (Extract sub doc opts st))) ->
  forall (errors : list string) (st : Store),
    preserved st (snd (HybridStrategy.tryStrategies doc opts l errors st)).
Proof.
  induction l as [|s l IH]; intros Hsub errors st.
  - apply preserved_refl.
  - cbn [HybridStrategy.tryStrategies]. unfold bind.
    pose proof (Hsub s (or_introl eq_refl) st) as Hs.
    assert (Hl : forall sub, In sub l ->
                   forall st, preserved st (snd (Extract sub doc opts st)))
      by (intros sub Hin; apply Hsub; right; exact Hin).
    destruct (Extract s doc opts st) as [[c | e] st1]; cbn [snd] in Hs.
    + destruct (0 <? len c)%Z; [exact Hs|].
      eapply preserved_trans; [exact Hs | apply IH, Hl].
    + eapply preserved_trans; [exact Hs | apply IH, Hl].
Qed.

(** X8.  What the hybrid strategy returns as a success is never empty,
    and is the content one of its sub-strategies returned when it was run;
    the heap after the call is the heap that sub-strategy left. *)
Theorem hybrid_success_comes_from_a_strategy
        (s : HybridStrategy.t) (doc : Document) (opts : option ExtractionOptions)
        (st st' : Store) (content : string) :
  HybridStrategy.Extract s doc opts st = (Ok content, st') ->
  content <> ""
  /\ exists (sub : DetectionStrategy) (st1 : Store),
       In sub (HybridStrategy.Strategies s)
       /\ Extract sub doc opts st1 = (Ok content, st').
Proof.
  unfold HybridStrategy.Extract.
  destruct (List.length (HybridStrategy.Strategies s) =? 0); [discriminate|].
  apply hybrid_tryStrategies_success.
Qed.

Lemma hybrid_success_comes_from_a_strategy_witness :
  Examples.prose <> ""
  /\ exists (sub : DetectionStrategy) (st1 : Store),
       In sub [Examples.contentSelector; Examples.density; Examples.structural]
       /\ Extract sub 0 (Some DefaultExtractionOptions) st1
          = (Ok Examples.prose, [Examples.prosePage]).
Proof.
  apply (hybrid_success_comes_from_a_strategy
           {| HybridStrategy.Strategies :=
                [Examples.contentSelector; Examples.density; Examples.structural] |}
           0 (Some DefaultExtractionOptions) [Examples.prosePage] [Examples.prosePage]
           Examples.prose).
  vm_compute. reflexivity.
Defined.

(** X9.  The chain [NewHybridStrategy] builds -- the selector strategy
    when a selector is given, then the density strategy, then the
    structural strategy -- leaves every tree of the heap unchanged when
    script cleaning is not requested.  (With script cleaning the density
    strategy removes nodes from the document itself, see C2.) *)
Theorem hybrid_chain_keeps_document `{Collaborators}
        (cssSelector : string) (excludeSelectors : list string)
        (textDensity : TextDensityStrategy.t) (doc : Document)
        (opts : option ExtractionOptions) (st : Store) :
  wantsCleanScripts opts = false ->
  preserved st
    (snd (HybridStrategy.Extract
            (NewHybridStrategy cssSelector excludeSelectors textDensity) doc opts st)).
Proof.
  intros Hclean. unfold HybridStrategy.Extract.
  destruct (List.length _ =? 0); [apply preserved_refl|].
  apply hybrid_tryStrategies_preserved. intros sub Hin st0.
  unfold NewHybridStrategy in Hin. cbn [HybridStrategy.Strategies] in Hin.
  assert (Hcases :
            (exists s, sub = CSSSelectorStrategy.strategy s)
            \/ sub = TextDensityStrategy.strategy textDensity
            \/ exists s, sub = DOMPositionStrategy.strategy s).
  { destruct (negb (String.eqb cssSelector "")); cbn [app In] in Hin.
    - destruct Hin as [<- | [<- | [<- | []]]]; eauto.
    - destruct Hin as [<- | [<- | []]]; eauto. }
  destruct Hcases as [[s ->] | [-> | [s ->]]]; cbn [Extract CSSSelectorStrategy.strategy
    TextDensityStrategy.strategy DOMPositionStrategy.strategy].
  - intros i t Ht. apply selector_strategy_frame, Ht.
  - rewrite (density_Extract_heap textDensity doc opts st0 Hclean). apply preserved_refl.
  - unfold DOMPositionStrategy.Extract.
    destruct (dom_tryPatterns_spec doc DOMPositionStrategy.patterns st0)
      as (r & st' & Heq & Hp & _).
    rewrite Heq. exact Hp.
Qed.

Lemma hybrid_chain_keeps_document_witness :
  preserved [Examples.twoArticles]
    (snd (HybridStrategy.Extract
            (@NewHybridStrategy Simple.collaborators "article.content" [".ad"]
               {| TextDensityStrategy.MinDensityScore := 0;
                  TextDensityStrategy.MinBlockSize := 0 |})
            0 None [Examples.twoArticles])).
Proof.
  apply (@hybrid_chain_keeps_document Simple.collaborators "article.content" [".ad"]
           {| TextDensityStrategy.MinDensityScore := 0;
              TextDensityStrategy.MinBlockSize := 0 |}
           0 None [Examples.twoArticles]).
  reflexivity.
Defined.

(** ** The pattern strategy *)

Section PatternStrategyResult.
Context `{Collaborators}.

Lemma capture_Some (fullHTML pattern content : string) :
  capture fullHTML pattern = Some content ->
  content <> "" /\ strings.TrimSpace content = content.
Proof.
  unfold capture. destruct (Compile ("(?is)" ++ pattern)) as [re|]; [|discriminate].
  destruct (FindStringSubmatch re fullHTML) as [|whole [|group1 more]];
    [discriminate | discriminate |].
  destruct (String.eqb (strings.TrimSpace group1) "") eqn:Hempty; [discriminate|].
  intros [= <-]. split.
  - apply String.eqb_neq, Hempty.
  - apply TrimSpace_idempotent.
Qed.

Lemma tryPatterns_success (fullHTML : string) (patterns : list string) (content : string) :
  XPathRegexStrategy.tryPatterns fullHTML patterns = Ok content ->
  exists pattern, In pattern patterns /\ capture fullHTML pattern = Some content.
Proof.
  induction patterns as [|pattern rest IH]; [discriminate|].
  destruct (capture fullHTML pattern) as [c|] eqn:Hc.
  - rewrite (tryPatterns_takes _ _ _ rest Hc). intros [= <-].
    exists pattern. split; [left; reflexivity | exact Hc].
  - rewrite (tryPatterns_skips _ _ rest Hc). intros Hrest.
    destruct (IH Hrest) as [q [Hin Hq]]. exists q. split; [right|]; assumption.
Qed.

(** X10.  The pattern strategy only reads the heap, and content it returns
    is never empty, is trimmed, and is the capture of one of its patterns
    on the markup of the document. *)
Theorem pattern_strategy_result (s : XPathRegexStrategy.t) (doc : Document)
        (opts : option ExtractionOptions) (st : Store) :
  snd (XPathRegexStrategy.Extract s doc opts st) = st
  /\ (forall content,
         fst (XPathRegexStrategy.Extract s doc opts st) = Ok content ->
         content <> "" /\ strings.TrimSpace content = content
         /\ exists fullHTML pattern,
              fst (Html (docSelection doc) st) = Ok fullHTML
              /\ In pattern (XPathRegexStrategy.Patterns s)
              /\ capture fullHTML pattern = Some content).
Proof.
  unfold XPathRegexStrategy.Extract.
  destruct (List.length (XPathRegexStrategy.Patterns s) =? 0).
  - split; [reflexivity | discriminate].
  - unfold bind.
    assert (Hhtml : Html (docSelection doc) st = (fst (Html (docSelection doc) st), st))
      by reflexivity.
    rewrite Hhtml. destruct (fst (Html (docSelection doc) st)) as [fullHTML | e].
    + unfold ret. cbn [fst snd]. split; [reflexivity|]. intros content Hok.
      destruct (tryPatterns_success _ _ _ Hok) as [pattern [Hin Hcap]].
      destruct (capture_Some _ _ _ Hcap) as [Hne Htrim].
      split; [exact Hne|]. split; [exact Htrim|]. exists fullHTML, pattern. auto.
    + split; [reflexivity | discriminate].
Qed.

End PatternStrategyResult.

(** ** The title resolver *)

Section TitleResolverResult.
Context `{Collaborators}.

Lemma titleByFallback_bound (doc : Document) (st : Store) (selectors : list string)
      (t : string) :
  titleByFallback doc st selectors = Some t ->
  t <> "" /\ (len t < 200)%Z /\ strings.TrimSpace t = t.
Proof.
  induction selectors as [|sel rest IH]; [discriminate|].
  cbn [titleByFallback]. destruct (firstText doc st sel) as [text|] eqn:Htext; [|exact IH].
  destruct (negb (String.eqb text "") && (len text <? 200)%Z) eqn:Hok; [|exact IH].
  intros [= <-]. apply andb_true_iff in Hok. destruct Hok as [Hne Hshort].
  apply negb_true_iff, String.eqb_neq in Hne. apply Z.ltb_lt in Hshort.
  split; [exact Hne|]. split; [exact Hshort|].
  unfold firstText in Htext. destruct (fst (Find (docSelection doc) sel st)); [discriminate|].
  injection Htext as <-. apply TrimSpace_idempotent.
Qed.

Lemma titleFromRegexOrFallback_heap (doc : Document) (regexPattern : string) (st : Store) :
  snd (titleFromRegexOrFallback doc regexPattern st) = st.
Proof.
  unfold titleFromRegexOrFallback.
  assert (Hfall : forall st0,
             snd ((t <- tryFallbacks doc fallbackSelectors ;; ret (Returned t)) st0) = st0).
  { intros st0. unfold bind. rewrite tryFallbacks_spec. reflexivity. }
  destruct (negb (String.eqb regexPattern "")); [|apply Hfall].
  unfold bind at 1. unfold Html at 1, gets at 1.
  destruct (Compile ("(?i)" ++ regexPattern)) as [re|]; [|reflexivity].
  destruct (1 <? List.length _); [|apply Hfall].
  destruct (stripHTMLTags _) as [text|]; [|reflexivity].
  destruct (negb (String.eqb text "")); [reflexivity | apply Hfall].
Qed.

(** X11.  [ExtractTitle] only reads the document: whatever the selector
    and the pattern, and also when it panics, the heap after the call is
    the heap before it.  With neither a selector nor a pattern it does not
    panic, and the title it returns -- from the fixed selector list -- is
    trimmed and shorter than 200 bytes; it is empty when no selector of the
    list gives such a text. *)
Theorem title_resolver_reads_only (doc : Document) (st : Store)
        (selector regexPattern : string) :
  snd (ExtractTitle doc selector regexPattern st) = st
  /\ exists t : string,
       ExtractTitle doc "" "" st = (Returned t, st)
       /\ (len t < 200)%Z
       /\ strings.TrimSpace t = t
       /\ (t = "" <-> titleByFallback doc st fallbackSelectors = None).
Proof.
  split.
  - unfold ExtractTitle.
    destruct (negb (String.eqb selector "")); [|apply titleFromRegexOrFallback_heap].
    unfold bind at 1. unfold Find at 1, gets at 1.
    destruct (0 <? Length _); [|apply titleFromRegexOrFallback_heap].
    unfold bind at 1. unfold Text at 1, gets at 1.
    destruct (negb (String.eqb _ "")); [reflexivity | apply titleFromRegexOrFallback_heap].
  - unfold ExtractTitle, titleFromRegexOrFallback. cbn [String.eqb negb].
    unfold bind. rewrite tryFallbacks_spec. unfold ret.
    destruct (titleByFallback doc st fallbackSelectors) as [t|] eqn:Hfall.
    + destruct (titleByFallback_bound _ _ _ _ Hfall) as (Hne & Hshort & Htrim).
      exists t. split; [reflexivity|]. split; [exact Hshort|]. split; [exact Htrim|].
      split; [contradiction | discriminate].
    + exists "". split; [reflexivity|]. split; [reflexivity|].
      split; [reflexivity | tauto].
Qed.

End TitleResolverResult.

(* ===================================================================== *)
(** * Configurations and the strategy built from them *)
(* ===================================================================== *)

(** A test on strings, as the fact it decides. *)
Ltac decide_eqb :=
  repeat match goal with
         | H : String.eqb _ _ = true |- _ => apply String.eqb_eq in H
         | H : String.eqb _ _ = false |- _ => apply String.eqb_neq in H
         | H : (_ <? _)%Z = true |- _ => apply Z.ltb_lt in H
         | H : (_ <? _)%Z = false |- _ => apply Z.ltb_ge in H
         end.

Lemma checkNavigation_None (nav : config.NavigationConfig) :
  config.checkNavigation nav = None <-> navigationComplete nav.
Proof.
  unfold config.checkNavigation, navigationComplete.
  destruct (String.eqb (config.Method nav) "url_pattern") eqn:Hpattern.
  - destruct (String.eqb (config.URLPattern nav) "") eqn:Hurl;
      [|destruct (config.NumberEnd nav <? config.NumberStart nav)%Z eqn:Hend];
      decide_eqb; split; try discriminate; try tauto; intros Hc;
      repeat destruct Hc as [Hc | Hc]; destruct Hc as [Hm Hrest];
      try congruence; try tauto; try lia.
  - destruct (String.eqb (config.Method nav) "next_link") eqn:Hnext.
    + destruct (String.eqb (config.NextLinkSelector nav) "") eqn:Hsel;
        decide_eqb; split; try discriminate; try tauto; intros Hc;
        repeat destruct Hc as [Hc | Hc]; destruct Hc as [Hm Hrest];
        try congruence; try tauto.
    + destruct (String.eqb (config.Method nav) "toc") eqn:Htoc.
      * destruct (String.eqb (config.TOCUrl nav) "") eqn:Hurl;
          [|destruct (String.eqb (config.TOCLinkSelector nav) "") eqn:Hsel];
          decide_eqb; split; try discriminate; try tauto; intros Hc;
          repeat destruct Hc as [Hc | Hc]; destruct Hc as [Hm Hrest];
          try congruence; try tauto.
      * decide_eqb. split; [discriminate|]. intros Hc.
        repeat destruct Hc as [Hc | Hc]; destruct Hc as [Hm Hrest]; congruence.
Qed.

Lemma lookup_validStrategies (name : string) :
  config.lookup config.validStrategies name = true
  <-> In name ["css_selector"; "text_density"; "xpath_regex"; "dom_position"; "hybrid"].
Proof.
  unfold config.validStrategies. cbn [config.lookup In].
  repeat match goal with
         | |- context [String.eqb ?a name] => destruct (String.eqb a name) eqn:?
         end;
    decide_eqb; split; try discriminate; try tauto; intros Hin;
    repeat destruct Hin as [Hin | Hin]; try congruence; try contradiction.
Qed.

Lemma ValidateConfig_accepts (cfg : config.Config) :
  fst (config.ValidateConfig cfg) = None <-> complete cfg.
Proof.
  unfold config.ValidateConfig, complete, detectionComplete.
  rewrite <- checkNavigation_None, <- lookup_validStrategies.
  destruct (String.eqb (config.Title (config.Book cfg)) "") eqn:Htitle.
  { decide_eqb. cbn [fst]. split; [discriminate | tauto]. }
  destruct (String.eqb (config.Author (config.Book cfg)) "") eqn:Hauthor.
  { decide_eqb. cbn [fst]. split; [discriminate | tauto]. }
  destruct (String.eqb (config.StartURL (config.Scraping cfg)) ""
            && negb (String.eqb (config.Method (config.Navigation cfg)) "toc"))
    eqn:Hstart.
  { apply andb_true_iff in Hstart. destruct Hstart as [Hurl Htoc].
    apply negb_true_iff in Htoc. decide_eqb. cbn [fst].
    split; [discriminate | tauto]. }
  destruct (config.checkNavigation (config.Navigation cfg)) as [err|] eqn:Hnav.
  { cbn [fst]. split; [discriminate|]. intros (_ & _ & _ & Hn & _). discriminate. }
  destruct (config.lookup config.validStrategies
              (config.Strategy (config.ContentDetection cfg))) eqn:Hvalid; cbn [negb].
  2:{ cbn [fst]. split; [discriminate|]. intros (_ & _ & _ & _ & (Hv & _) & _).
      discriminate. }
  destruct (String.eqb (config.Strategy (config.ContentDetection cfg)) "css_selector"
            && String.eqb (config.CSSSelector (config.ContentDetection cfg)) "")
    eqn:Hcss.
  { apply andb_true_iff in Hcss. destruct Hcss as [Hs Hsel]. decide_eqb. cbn [fst].
    split; [discriminate | tauto]. }
  destruct (String.eqb (config.Strategy (config.ContentDetection cfg)) "xpath_regex"
            && (List.length (config.RegexPatterns (config.ContentDetection cfg)) =? 0))
    eqn:Hregex.
  { apply andb_true_iff in Hregex. destruct Hregex as [Hs Hlen]. decide_eqb.
    apply Nat.eqb_eq, length_zero_iff_nil in Hlen. cbn [fst].
    split; [discriminate | tauto]. }
  destruct (negb (String.eqb (config.Format (config.Output cfg)) "epub")
            && negb (String.eqb (config.Format (config.Output cfg)) "pdf"))
    eqn:Hformat.
  { apply andb_true_iff in Hformat. destruct Hformat as [Hepub Hpdf].
    apply negb_true_iff in Hepub, Hpdf. decide_eqb. cbn [fst].
    split; [discriminate | tauto]. }
  destruct (config.DelayMS (config.Polite (config.Scraping cfg)) <? 0)%Z eqn:Hdelay.
  { decide_eqb. cbn [fst]. split; [discriminate|]. intros (_ & _ & _ & _ & _ & _ & Hd). lia. }
  assert (Hnone : fst (if (config.MaxConcurrent (config.Polite (config.Scraping cfg)) <? 1)%Z
                       then (@None error, config.setMaxConcurrent cfg 1)
                       else (None, cfg)) = None)
    by (destruct (_ <? 1)%Z; reflexivity).
  rewrite Hnone. split; [intros _ | reflexivity].
  apply andb_false_iff in Hstart, Hcss, Hregex, Hformat. decide_eqb.
  split; [exact Htitle|]. split; [exact Hauthor|]. split.
  { intros Hurl. destruct Hstart as [Hs | Hs]; [decide_eqb; contradiction|].
    apply negb_false_iff in Hs. decide_eqb. exact Hs. }
  split; [reflexivity|]. split.
  { split; [reflexivity|]. split.
    - intros Hs. destruct Hcss as [Hc | Hc]; decide_eqb; [contradiction | exact Hc].
    - intros Hs Hnil. destruct Hregex as [Hc | Hc]; decide_eqb; [contradiction|].
      rewrite Hnil in Hc. discriminate. }
  split; [|lia].
  destruct Hformat as [Hf | Hf]; apply negb_false_iff in Hf; decide_eqb; tauto.
Qed.

Lemma ValidateConfig_snd (cfg : config.Config) :
  snd (config.ValidateConfig cfg)
  = match fst (config.ValidateConfig cfg) with
    | Some _ => cfg
    | None =>
        if (config.MaxConcurrent (config.Polite (config.Scraping cfg)) <? 1)%Z
        then config.setMaxConcurrent cfg 1
        else cfg
    end.
Proof.
  unfold config.ValidateConfig.
  repeat match goal with
         | |- context [if ?b then _ else _] =>
             match type of b with bool => destruct b; try reflexivity end
         | |- context [match config.checkNavigation ?n with _ => _ end] =>
             destruct (config.checkNavigation n); try reflexivity
         end.
Qed.

Lemma complete_setMaxConcurrent (cfg : config.Config) (n : Z) :
  complete cfg -> complete (config.setMaxConcurrent cfg n).
Proof. intros Hc. exact Hc. Qed.

(** X12.  [ValidateConfig] returns nil for exactly the complete
    configurations: a title and an author; a start URL unless the chapters
    come from a table of contents; a navigation method among url_pattern,
    next_link and toc with what the method needs (a URL pattern and a range
    that is not reversed; a next-link selector; the URL and the link
    selector of the table of contents); a known strategy, with a selector
    for css_selector and patterns for xpath_regex; the format epub or pdf;
    a delay that is not negative. *)
Theorem validate_accepts_exactly_complete (cfg : config.Config) :
  fst (config.ValidateConfig cfg) = None <-> complete cfg.
Proof. apply ValidateConfig_accepts. Qed.

(** X13.  What [ValidateConfig] does to the configuration.  When it
    returns an error the configuration is as it was.  When it returns nil,
    [MaxConcurrent] is at least 1 afterwards -- a value below 1 has been
    replaced by 1 -- and nothing else has changed; the configuration it
    leaves is valid again and validating it once more changes nothing. *)
Theorem validate_raises_concurrency (cfg : config.Config) :
  (fst (config.ValidateConfig cfg) <> None -> snd (config.ValidateConfig cfg) = cfg)
  /\ (fst (config.ValidateConfig cfg) = None ->
      let cfg' := snd (config.ValidateConfig cfg) in
      (1 <= config.MaxConcurrent (config.Polite (config.Scraping cfg')))%Z
      /\ cfg' = config.setMaxConcurrent cfg
                  (Z.max 1 (config.MaxConcurrent (config.Polite (config.Scraping cfg))))
      /\ config.ValidateConfig cfg' = (None, cfg')).
Proof.
  pose proof (ValidateConfig_snd cfg) as Hsnd. split.
  - intros Herr. rewrite Hsnd. destruct (fst (config.ValidateConfig cfg)); congruence.
  - intros Hok. cbn zeta. rewrite Hok in Hsnd. rewrite Hsnd.
    assert (Hc : complete cfg) by (apply ValidateConfig_accepts, Hok).
    destruct (config.MaxConcurrent (config.Polite (config.Scraping cfg)) <? 1)%Z eqn:Hlow.
    + apply Z.ltb_lt in Hlow. rewrite Z.max_l by lia.
      split; [cbn; lia|]. split; [reflexivity|].
      pose proof (ValidateConfig_snd (config.setMaxConcurrent cfg 1)) as Hsnd'.
      pose proof (proj2 (ValidateConfig_accepts (config.setMaxConcurrent cfg 1))
                        (complete_setMaxConcurrent cfg 1 Hc)) as Hok'.
      rewrite Hok' in Hsnd'. cbn in Hsnd'.
      destruct (config.ValidateConfig (config.setMaxConcurrent cfg 1)) as [e c].
      cbn [fst snd] in *. subst. reflexivity.
    + apply Z.ltb_ge in Hlow. rewrite Z.max_r by lia.
      split; [exact Hlow|]. split.
      * destruct cfg as [b [u [d m r] a t] n c x o]. reflexivity.
      * pose proof (ValidateConfig_snd cfg) as Hsnd'. rewrite Hok in Hsnd'.
        apply Z.ltb_ge in Hlow. rewrite Hlow in Hsnd'.
        destruct (config.ValidateConfig cfg) as [e c].
        cbn [fst snd] in *. subst. reflexivity.
Qed.

(** The configuration for a table of contents has no start URL and a
    concurrency of 0: it is accepted, and leaves with a concurrency of 1. *)
Lemma validate_accepts_exactly_complete_witness :
  fst (config.ValidateConfig Examples.tocConfig) = None
  /\ complete Examples.tocConfig
  /\ fst (config.ValidateConfig config.DefaultConfig) = Some "book.title is required".
Proof.
  assert (Hok : fst (config.ValidateConfig Examples.tocConfig) = None) by reflexivity.
  split; [exact Hok|]. split; [|reflexivity].
  apply (proj1 (validate_accepts_exactly_complete Examples.tocConfig)). exact Hok.
Defined.

Lemma validate_raises_concurrency_witness :
  config.MaxConcurrent
    (config.Polite (config.Scraping (snd (config.ValidateConfig Examples.tocConfig)))) = 1%Z
  /\ config.ValidateConfig (snd (config.ValidateConfig Examples.tocConfig))
     = (None, snd (config.ValidateConfig Examples.tocConfig)).
Proof.
  split; [reflexivity|].
  apply (proj2 (validate_raises_concurrency Examples.tocConfig)). reflexivity.
Defined.

(** ** The errors of the strategies *)

Section StrategyErrors.
Context `{Collaborators}.

Lemma trimmedHtml_error (content : Selection) (st : Store) (err : error) :
  fst (trimmedHtml content st) = Err err -> exists x, err = "failed to get HTML: " ++ x.
Proof.
  unfold trimmedHtml, bind. destruct (Html content st) as [[html | e] st']; [discriminate|].
  unfold ret. cbn [fst]. intros [= <-]. eexists. reflexivity.
Qed.

Lemma selector_Extract_error (s : CSSSelectorStrategy.t) (doc : Document)
      (opts : option ExtractionOptions) (st : Store) (err : error) :
  CSSSelectorStrategy.Selector s <> "" ->
  fst (CSSSelectorStrategy.Extract s doc opts st) = Err err ->
  (exists x, err = "selector '" ++ x) \/ (exists x, err = "failed to get HTML: " ++ x).
Proof.
  intros Hsel. unfold CSSSelectorStrategy.Extract.
  apply String.eqb_neq in Hsel. rewrite Hsel. unfold bind.
  destruct (Find (docSelection doc) (CSSSelectorStrategy.Selector s) st) as [found st0].
  destruct (Length found =? 0).
  - unfold ret. cbn [fst]. intros [= <-]. left. eexists. reflexivity.
  - destruct (Clone found st0) as [content st1].
    destruct (removeEach content _ st1) as [u st2].
    destruct ((if wantsCleanScripts opts
               then findAndRemove content "script, style, noscript"
               else ret tt) st2) as [u' st3].
    intros Herr. right. eapply trimmedHtml_error, Herr.
Qed.

Lemma density_Extract_error (s : TextDensityStrategy.t) (doc : Document)
      (opts : option ExtractionOptions) (st : Store) (err : error) :
  fst (TextDensityStrategy.Extract s doc opts st) = Err err ->
  err = "no body element found"
  \/ (exists x, err = "no suitable content block found (min density: " ++ x)
  \/ (exists x, err = "failed to get HTML: " ++ x).
Proof.
  unfold TextDensityStrategy.Extract, bind.
  destruct (Find (docSelection doc) "body" st) as [body st0].
  destruct (Length body =? 0).
  - unfold ret. cbn [fst]. intros [= <-]. left. reflexivity.
  - destruct (TextDensityStrategy.findBestBlockByDensity _ _ _ st0) as [[node|] st1].
    + destruct ((if wantsCleanScripts opts
                 then findAndRemove (NewDocumentFromNode node) "script, style, noscript"
                 else ret tt) st1) as [u st2].
      intros Herr. right. right. eapply trimmedHtml_error, Herr.
    + unfold ret. cbn [fst]. intros [= <-]. right. left. eexists. reflexivity.
Qed.

Lemma pattern_tryPatterns_error (fullHTML : string) (patterns : list string) (err : error) :
  XPathRegexStrategy.tryPatterns fullHTML patterns = Err err ->
  err = "no regex patterns matched".
Proof.
  induction patterns as [|pattern rest IH]; [intros [= <-]; reflexivity|].
  cbn [XPathRegexStrategy.tryPatterns].
  destruct (Compile ("(?is)" ++ pattern)) as [re|]; [|exact IH].
  destruct (1 <? List.length (FindStringSubmatch re fullHTML)); [|exact IH].
  destruct (0 <? String.length _); [discriminate | exact IH].
Qed.

Lemma pattern_Extract_error (s : XPathRegexStrategy.t) (doc : Document)
      (opts : option ExtractionOptions) (st : Store) (err : error) :
  XPathRegexStrategy.Patterns s <> [] ->
  fst (XPathRegexStrategy.Extract s doc opts st) = Err err ->
  err = "no regex patterns matched" \/ (exists x, err = "failed to get HTML: " ++ x).
Proof.
  intros Hne. unfold XPathRegexStrategy.Extract.
  destruct (XPathRegexStrategy.Patterns s) as [|p ps] eqn:Hps; [congruence|].
  cbn [List.length Nat.eqb]. unfold bind.
  destruct (Html (docSelection doc) st) as [[fullHTML | e] st'].
  - unfold ret. cbn [fst]. intros Herr. left. eapply pattern_tryPatterns_error, Herr.
  - unfold ret. cbn [fst]. intros [= <-]. right. eexists. reflexivity.
Qed.

Lemma hybrid_tryStrategies_error (doc : Document) (opts : option ExtractionOptions)
      (l : list DetectionStrategy) :
  forall (errors : list string) (st : Store) (err : error),
    fst (HybridStrategy.tryStrategies doc opts l errors st) = Err err ->
    exists x, err = "all hybrid strategies failed: " ++ x.
Proof.
  induction l as [|s l IH]; intros errors st err.
  - cbn. intros [= <-]. eexists. reflexivity.
  - cbn [HybridStrategy.tryStrategies]. unfold bind.
    destruct (Extract s doc opts st) as [[c | e] st1]; [|apply IH].
    destruct (0 <? len c)%Z; [discriminate | apply IH].
Qed.

Lemma position_Extract_error (s : DOMPositionStrategy.t) (doc : Document)
      (opts : option ExtractionOptions) (st : Store) (err : error) :
  fst (DOMPositionStrategy.Extract s doc opts st) = Err err ->
  err = "no content found using DOM position heuristics".
Proof.
  unfold DOMPositionStrategy.Extract.
  destruct (dom_tryPatterns_spec doc DOMPositionStrategy.patterns st)
    as (r & st' & Heq & _ & Hr).
  rewrite Heq. cbn [fst]. intros ->. exact Hr.
Qed.

(** The method [Extract] of each strategy, behind the interface. *)
Lemma Extract_selector (s : CSSSelectorStrategy.t) :
  Extract (CSSSelectorStrategy.strategy s) = CSSSelectorStrategy.Extract s.
Proof. reflexivity. Qed.

Lemma Extract_density (s : TextDensityStrategy.t) :
  Extract (TextDensityStrategy.strategy s) = TextDensityStrategy.Extract s.
Proof. reflexivity. Qed.

Lemma Extract_pattern (s : XPathRegexStrategy.t) :
  Extract (XPathRegexStrategy.strategy s) = XPathRegexStrategy.Extract s.
Proof. reflexivity. Qed.

Lemma Extract_position (s : DOMPositionStrategy.t) :
  Extract (DOMPositionStrategy.strategy s) = DOMPositionStrategy.Extract s.
Proof. reflexivity. Qed.

Lemma Extract_hybrid (s : HybridStrategy.t) :
  Extract (HybridStrategy.strategy s) = HybridStrategy.Extract s.
Proof. reflexivity. Qed.

(** The structural strategy does not read its settings. *)
Lemma Extract_position_unfold (s : DOMPositionStrategy.t) :
  DOMPositionStrategy.Extract s
  = fun doc opts => DOMPositionStrategy.tryPatterns doc DOMPositionStrategy.patterns.
Proof. reflexivity. Qed.

Lemma position_strategy_same (s s' : DOMPositionStrategy.t) :
  DOMPositionStrategy.strategy s = DOMPositionStrategy.strategy s'.
Proof.
  unfold DOMPositionStrategy.strategy, DOMPositionStrategy.Name.
  rewrite (Extract_position_unfold s), (Extract_position_unfold s'). reflexivity.
Qed.

End StrategyErrors.

(** ** The strategy of a configuration *)

Section BuildStrategy.
Context `{Collaborators}.

(** X14.  The strategy of a valid configuration.  After [ValidateConfig]
    has returned nil, [buildStrategy] gives the strategy the configuration
    names -- the fallback of its [switch] is not reached -- and that
    strategy never fails for want of configuration: none of the errors
    for a missing selector, a missing pattern list or an empty hybrid chain
    is returned, on any document. *)
Theorem valid_config_builds_configured_strategy (cfg : config.Config) :
  fst (config.ValidateConfig cfg) = None ->
  let cd := config.ContentDetection (snd (config.ValidateConfig cfg)) in
  Name (scraper.buildStrategy cd) = config.Strategy cd
  /\ forall (doc : Document) (opts : option ExtractionOptions) (st : Store) (err : error),
       fst (Extract (scraper.buildStrategy cd) doc opts st) = Err err ->
       err <> "no CSS selector configured"
       /\ err <> "no regex patterns configured"
       /\ err <> "no strategies configured for hybrid extraction".
Proof.
  intros Hok. cbn zeta.
  assert (Hcd : config.ContentDetection (snd (config.ValidateConfig cfg))
                = config.ContentDetection cfg).
  { rewrite ValidateConfig_snd, Hok. destruct (_ <? 1)%Z; reflexivity. }
  rewrite Hcd. apply ValidateConfig_accepts in Hok.
  destruct Hok as (_ & _ & _ & _ & (Hin & Hcss & Hregex) & _).
  set (cd := config.ContentDetection cfg) in *.
  unfold scraper.buildStrategy.
  destruct (String.eqb (config.Strategy cd) "css_selector") eqn:E1.
  { decide_eqb. split; [symmetry; exact E1|]. intros doc opts st err Herr.
    rewrite Extract_selector in Herr.
    apply selector_Extract_error in Herr; [|exact (Hcss E1)].
    destruct Herr as [[x ->] | [x ->]]; repeat split; discriminate. }
  destruct (String.eqb (config.Strategy cd) "text_density") eqn:E2.
  { decide_eqb. split; [symmetry; exact E2|]. intros doc opts st err Herr.
    rewrite Extract_density in Herr.
    apply density_Extract_error in Herr.
    destruct Herr as [-> | [[x ->] | [x ->]]]; repeat split; discriminate. }
  destruct (String.eqb (config.Strategy cd) "xpath_regex") eqn:E3.
  { decide_eqb. split; [symmetry; exact E3|]. intros doc opts st err Herr.
    rewrite Extract_pattern in Herr.
    apply pattern_Extract_error in Herr; [|exact (Hregex E3)].
    destruct Herr as [-> | [x ->]]; repeat split; discriminate. }
  destruct (String.eqb (config.Strategy cd) "dom_position") eqn:E4.
  { decide_eqb. split; [symmetry; exact E4|]. intros doc opts st err Herr.
    rewrite Extract_position in Herr.
    apply position_Extract_error in Herr. subst err.
    repeat split; discriminate. }
  destruct (String.eqb (config.Strategy cd) "hybrid") eqn:E5.
  { decide_eqb. split; [symmetry; exact E5|]. intros doc opts st err Herr.
    rewrite Extract_hybrid in Herr.
    unfold HybridStrategy.Extract in Herr. cbn [HybridStrategy.Strategies] in Herr.
    rewrite !length_app in Herr. cbn [List.length] in Herr.
    rewrite Nat.add_comm in Herr. cbn [Nat.add Nat.eqb] in Herr.
    apply hybrid_tryStrategies_error in Herr. destruct Herr as [x ->].
    repeat split; discriminate. }
  decide_eqb. exfalso. cbn [In] in Hin.
  repeat destruct Hin as [Hin | Hin]; try (symmetry in Hin; contradiction).
  contradiction.
Qed.

(** X15.  What [buildStrategy] makes of a configuration.  For
    [strategy: hybrid] it is the chain of [NewHybridStrategy], for the
    selector, the exclusions and the density thresholds of the
    configuration.  For [strategy: dom_position], and for any name that is
    not one of the five, it is the structural strategy, the same whatever
    [maxDepth] and [minWidth] the configuration gives. *)
Theorem build_strategy_cases (cd : config.ContentDetectionConfig) :
  (config.Strategy cd = "hybrid" ->
   scraper.buildStrategy cd
   = HybridStrategy.strategy
       (NewHybridStrategy (config.CSSSelector cd) (config.ExcludeSelectors cd)
                          (scraper.densityOf cd)))
  /\ (config.Strategy cd = "dom_position"
      \/ ~ In (config.Strategy cd)
              ["css_selector"; "text_density"; "xpath_regex"; "dom_position"; "hybrid"] ->
      scraper.buildStrategy cd
      = DOMPositionStrategy.strategy
          {| DOMPositionStrategy.MaxDepth := 0; DOMPositionStrategy.MinWidth := 0 |}).
Proof.
  split.
  - intros Hs. unfold scraper.buildStrategy, NewHybridStrategy.
    repeat match goal with
           | |- context [String.eqb (config.Strategy cd) ?b] =>
               destruct (String.eqb (config.Strategy cd) b) eqn:?
           end; decide_eqb; try congruence.
    cbv zeta.
    rewrite (position_strategy_same (scraper.positionOf cd)
               {| DOMPositionStrategy.MaxDepth := 0; DOMPositionStrategy.MinWidth := 0 |}).
    reflexivity.
  - intros Hcase. unfold scraper.buildStrategy.
    repeat match goal with
           | |- context [String.eqb (config.Strategy cd) ?b] =>
               destruct (String.eqb (config.Strategy cd) b) eqn:?
           end; decide_eqb;
      match goal with
      | |- DOMPositionStrategy.strategy _ = DOMPositionStrategy.strategy _ =>
          apply position_strategy_same
      | _ =>
          exfalso; destruct Hcase as [Hs | Hout];
          [congruence | apply Hout; cbn [In]; auto 10]
      end.
Qed.

End BuildStrategy.

Lemma valid_config_builds_configured_strategy_witness :
  Name (@scraper.buildStrategy Simple.collaborators
          (config.ContentDetection (snd (config.ValidateConfig Examples.tocConfig))))
  = "hybrid".
Proof.
  apply (proj1 (@valid_config_builds_configured_strategy Simple.collaborators
                  Examples.tocConfig eq_refl)).
Defined.

Lemma build_strategy_cases_witness :
  @scraper.buildStrategy Simple.collaborators (config.ContentDetection Examples.tocConfig)
  = HybridStrategy.strategy
      (@NewHybridStrategy Simple.collaborators "article.content" [".ad"]
         {| TextDensityStrategy.MinDensityScore := 0.3;
            TextDensityStrategy.MinBlockSize := 100 |}).
Proof.
  apply (proj1 (@build_strategy_cases Simple.collaborators
                  (config.ContentDetection Examples.tocConfig))).
  reflexivity.
Defined.

(* ===================================================================== *)
(** * What the sanitizers guarantee on every input *)
(* ===================================================================== *)

(** ** Settled strings and substrings *)

Lemma prefix_length (sub s : string) :
  String.prefix sub s = true -> String.length sub <= String.length s.
Proof.
  revert s. induction sub as [|a sub IH]; intros s Hp; [cbn; lia|].
  destruct s as [|b s]; [discriminate|]. cbn [String.prefix] in Hp.
  destruct (ascii_dec a b); [|discriminate]. cbn [String.length].
  apply IH in Hp. lia.
Qed.

Lemma prefix_span (f : ascii -> bool) (sub s : string) :
  String.prefix sub s = true -> allIn f sub = true ->
  String.prefix sub (fst (Simple.span f s)) = true.
Proof.
  revert s. induction sub as [|a sub IH]; intros s Hp Hall;
    [destruct (fst (Simple.span f s)); reflexivity|].
  destruct s as [|b s]; [discriminate|]. cbn [String.prefix] in Hp.
  destruct (ascii_dec a b) as [<- | Hne]; [|discriminate].
  cbn [allIn] in Hall. apply andb_true_iff in Hall. destruct Hall as [Ha Hall].
  cbn [Simple.span]. rewrite Ha.
  pose proof (IH s Hp Hall) as Hrest.
  destruct (Simple.span f s) as [x y]. cbn [fst] in *. cbn [String.prefix].
  destruct (ascii_dec a a); [exact Hrest | congruence].
Qed.

Lemma prefix_eqb (sub run repl : string) :
  String.prefix sub run = true -> String.eqb run repl = true ->
  String.prefix sub repl = true.
Proof. intros Hp Heq. apply String.eqb_eq in Heq. subst. exact Hp. Qed.

(** A settled string holds no run of [min] bytes of the set or more,
    other than the replacement. *)
Lemma settled_Contains (f : ascii -> bool) (min : nat) (repl sub s : string) :
  settled f min repl s = true ->
  sub <> "" -> allIn f sub = true -> min <= String.length sub ->
  String.prefix sub repl = false ->
  strings.Contains s sub = false.
Proof.
  intros Hs Hne Hall Hmin Hrepl. induction s as [|c s IH].
  - cbn. destruct sub; [congruence | reflexivity].
  - cbn [settled] in Hs. apply andb_true_iff in Hs. destruct Hs as [Hok Hs].
    cbn [strings.Contains]. rewrite (IH Hs), orb_false_r.
    unfold strings.HasPrefix.
    destruct (String.prefix sub (String c s)) eqn:Hp; [|reflexivity].
    pose proof (prefix_span f _ _ Hp Hall) as Hrun.
    unfold okRun in Hok. apply orb_true_iff in Hok. destruct Hok as [Hshort | Heq].
    + apply Nat.ltb_lt in Hshort. apply prefix_length in Hrun. lia.
    + rewrite (prefix_eqb _ _ _ Hrun Heq) in Hrepl. discriminate.
Qed.

Lemma occurs_Contains (n : nat) (s : string) :
  n < 256 -> occurs n s = false -> strings.Contains s (strings.byte1 n) = false.
Proof.
  intros Hn. induction s as [|c s IH]; intros Hs; [reflexivity|].
  cbn [occurs] in Hs. apply orb_false_iff in Hs. destruct Hs as [Hc Hs].
  cbn [strings.Contains]. rewrite (IH Hs), orb_false_r.
  unfold strings.HasPrefix, strings.byte1. cbn [String.prefix].
  destruct (ascii_dec (strings.chr n) c) as [<- | Hne]; [|reflexivity].
  apply Nat.eqb_neq in Hc. exfalso. apply Hc.
  unfold strings.code, strings.chr. apply nat_ascii_embedding, Hn.
Qed.

(** ** The steps of the pipelines never panic *)

Lemma mustReplaceAll_returns (pattern : string) :
  Simple.Compile pattern <> None ->
  forall src repl : string,
  exists t, @mustReplaceAll Simple.collaborators pattern src repl = Returned t.
Proof.
  intros Hc src repl. unfold mustReplaceAll. cbn [Compile Simple.collaborators].
  destruct (Simple.Compile pattern) as [re|]; [|congruence]. eexists. reflexivity.
Qed.

(** One step of a pipeline, on the text it has reached; the two steps
    that collapse white space are left to the lemmas about them. *)
Ltac run_step :=
  match goal with
  | |- context [@mustReplaceAll Simple.collaborators ?p ?s ?r] =>
      lazymatch p with
      | "[ \t]+" => fail
      | "\n{3,}" => fail
      | "\s+" => fail
      | _ =>
          let t := fresh "t" in
          let Ht := fresh "Ht" in
          destruct (mustReplaceAll_returns p ltac:(vm_compute; discriminate) s r)
            as [t Ht];
          rewrite Ht; clear Ht;
          repeat (rewrite andThen_Returned; cbv beta)
      end
  end.



(** [CleanContent], on any input: the text the eleven replacements reach,
    its line ends made LF, runs of line feeds collapsed, trimmed. *)
Lemma CleanContent_steps (x : string) :
  exists x' t : string,
    Collapsed (Simple.inSet newlineSet) 3 twoNewlines
      (strings.ReplaceAll (strings.ReplaceAll x' (strings.CR ++ strings.LF) strings.LF)
                          strings.CR strings.LF) t
    /\ @CleanContent Simple.collaborators x = Returned (strings.TrimSpace t).
Proof.
  unfold CleanContent. cbv zeta. repeat run_step.
  match goal with
  | |- context [mustReplaceAll "\n{3,}" (strings.ReplaceAll (strings.ReplaceAll ?x' _ _) _ _) _] =>
      exists x';
      destruct (mustReplaceAll_newlines
                  (strings.ReplaceAll
                     (strings.ReplaceAll x' (strings.CR ++ strings.LF) strings.LF)
                     strings.CR strings.LF)) as [out [Hout HC]]
  end.
  exists out. split; [exact HC|].
  fold twoNewlines. rewrite Hout, andThen_Returned. reflexivity.
Qed.

(** X16.  What [CleanContent] guarantees.  On every input it returns (no
    pattern of its pipeline fails to compile), and what it returns is
    trimmed, holds no carriage return, and holds no three line feeds in a
    row. *)
Theorem clean_content_guarantees (x : string) :
  exists y : string,
    @CleanContent Simple.collaborators x = Returned y
    /\ strings.TrimSpace y = y
    /\ strings.Contains y strings.CR = false
    /\ strings.Contains y threeNewlines = false.
Proof.
  destruct (CleanContent_steps x) as (x' & t & HC & Hx).
  exists (strings.TrimSpace t). split; [exact Hx|].
  split; [apply TrimSpace_idempotent|]. split.
  - apply (occurs_Contains 13); [lia|]. apply TrimSpace_occurs.
    apply (Collapsed_occurs _ _ _ 13 _ _ HC); [reflexivity|].
    unfold strings.ReplaceAll. apply replaceFrom_CR.
  - apply (settled_Contains (Simple.inSet newlineSet) 3 twoNewlines);
      [| discriminate | reflexivity | cbn; lia | reflexivity].
    apply TrimSpace_settled; [lia | cbn; lia |].
    eapply Collapsed_settled; [.. | exact HC]; first [lia | reflexivity | cbn; lia].
Qed.

(** [Normalize], on any input and with any settings: the text the
    replacements before the white-space step reach, its runs of blanks
    and of line feeds collapsed, then -- unless images and links are both
    preserved -- the image and link replacements, and the result trimmed. *)
Lemma Normalize_steps (n : formatter.HTMLNormalizer) (x : string) :
  exists x' t1 t2 t3 : string,
    Collapsed (Simple.inSet blankSet) 1 " " x' t1
    /\ Collapsed (Simple.inSet newlineSet) 3 twoNewlines t1 t2
    /\ @formatter.Normalize Simple.collaborators n x = Returned (strings.TrimSpace t3)
    /\ (formatter.PreserveImages n = true -> formatter.PreserveLinks n = true -> t3 = t2).
Proof.
  unfold formatter.Normalize, formatter.removeTag, formatter.removeHTMLComments,
    formatter.removeEventHandlers, formatter.removeAttribute,
    formatter.removeDataAttributes, formatter.fixSelfClosingTags,
    formatter.selfClosingTags, formatter.removeEmptyParagraphs.
  cbv zeta. cbn [formatter.fixEach].
  repeat run_step.
  match goal with
  | |- context [formatter.collapseWhitespace ?x'] =>
      destruct (mustReplaceAll_blanks x') as [out1 [Hout1 HC1]];
      destruct (mustReplaceAll_newlines out1) as [out2 [Hout2 HC2]];
      exists x', out1, out2
  end.
  unfold formatter.collapseWhitespace. rewrite Hout1, andThen_Returned.
  fold twoNewlines. rewrite Hout2, andThen_Returned.
  unfold formatter.removeTag, formatter.stripTagKeepContent.
  destruct (formatter.PreserveImages n), (formatter.PreserveLinks n);
    cbn [negb]; repeat (rewrite andThen_Returned; cbv beta); repeat run_step;
    eexists; (split; [exact HC1|]); (split; [exact HC2|]);
    (split; [reflexivity|]); intros; first [reflexivity | discriminate].
Qed.

(** X17.  What [Normalize] guarantees.  With any settings it returns, on
    every input, and what it returns is trimmed.  With the settings of
    [NewHTMLNormalizer] -- images and links preserved -- what it returns
    also holds no tab, no two spaces in a row and no three line feeds in a
    row. *)
Theorem normalize_guarantees (n : formatter.HTMLNormalizer) (x : string) :
  exists y : string,
    @formatter.Normalize Simple.collaborators n x = Returned y
    /\ strings.TrimSpace y = y
    /\ (formatter.PreserveImages n = true -> formatter.PreserveLinks n = true ->
        strings.Contains y strings.TAB = false
        /\ strings.Contains y twoSpaces = false
        /\ strings.Contains y threeNewlines = false).
Proof.
  destruct (Normalize_steps n x) as (x' & t1 & t2 & t3 & HC1 & HC2 & Hx & Hsame).
  exists (strings.TrimSpace t3). split; [exact Hx|].
  split; [apply TrimSpace_idempotent|].
  intros Himages Hlinks. rewrite (Hsame Himages Hlinks).
  assert (Hblank : settled (Simple.inSet blankSet) 1 " " (strings.TrimSpace t2) = true).
  { apply TrimSpace_settled; [lia | cbn; lia |].
    apply (Collapsed_keeps_settled (Simple.inSet newlineSet) (Simple.inSet blankSet)
             3 1 twoNewlines " ") with (s := t1).
    - intros c Hc. apply (inSet_requires 10) in Hc; [|reflexivity].
      unfold Simple.inSet, Simple.inRanges, blankSet.
      cbn [Simple.negated Simple.folded Simple.ranges existsb fst snd xorb andb orb].
      rewrite Hc. reflexivity.
    - reflexivity.
    - lia.
    - discriminate.
    - exact HC2.
    - eapply Collapsed_settled; [.. | exact HC1]; first [lia | reflexivity | cbn; lia]. }
  assert (Hnewline : settled (Simple.inSet newlineSet) 3 twoNewlines
                             (strings.TrimSpace t2) = true).
  { apply TrimSpace_settled; [lia | cbn; lia |].
    eapply Collapsed_settled; [.. | exact HC2]; first [lia | reflexivity | cbn; lia]. }
  split; [|split].
  - apply (settled_Contains _ _ _ _ _ Hblank);
      [discriminate | reflexivity | cbn; lia | reflexivity].
  - apply (settled_Contains _ _ _ _ _ Hblank);
      [discriminate | reflexivity | cbn; lia | reflexivity].
  - apply (settled_Contains _ _ _ _ _ Hnewline);
      [discriminate | reflexivity | cbn; lia | reflexivity].
Qed.

Lemma normalize_guarantees_witness :
  exists y : string,
    @formatter.Normalize Simple.collaborators formatter.NewHTMLNormalizer
       Examples.scriptedMarkup = Returned y
    /\ strings.TrimSpace y = y
    /\ strings.Contains y strings.TAB = false
    /\ strings.Contains y twoSpaces = false
    /\ strings.Contains y threeNewlines = false.
Proof.
  destruct (normalize_guarantees formatter.NewHTMLNormalizer Examples.scriptedMarkup)
    as (y & Hy & Htrim & Hrest).
  exists y. split; [exact Hy|]. split; [exact Htrim|]. apply Hrest; reflexivity.
Defined.


